(** * HandyBangla server: booking status machine, notification fan-out
      and realtime messaging

    A shallow embedding of the request handlers of the server (the
    bookings, admin and notifications routers, lib/notifications.ts,
    lib/email.ts, the Socket.io handlers of lib/socket and the error
    handler) together with the properties of the booking life cycle and of
    the notification dispatch that the specification states about them.

    The handlers are [async] functions that talk to a Prisma store, to a
    Socket.io server and to a nodemailer transporter.  They are embedded
    in a state-and-exception monad over a [World] (store and room membership,
    with a trace of the observable effects); a handler run is one sequential
    read-modify-write, as one request is for the code.  What lies outside
    the repository is an oracle of the environment [Env]: whether a table
    of the store is reachable during the run, whether the Socket.io server
    is up, and whether the transporter accepts a mail. *)

From Stdlib Require Import ZArith NArith.
From stdpp Require Import base option numbers strings pretty list gmap sorting.

Open Scope string_scope.
Open Scope list_scope.

(** ** Prisma schema *)

Inductive Role := CUSTOMER | PROVIDER | ADMIN.

Inductive BookingStatus := PENDING | ACCEPTED | DECLINED | COMPLETED | CANCELLED.

Inductive NotificationType :=
| BOOKING_CREATED | BOOKING_ACCEPTED | BOOKING_DECLINED | BOOKING_COMPLETED
| BOOKING_CANCELLED | MESSAGE_RECEIVED | RATING_RECEIVED.

Inductive MessageType := TEXT.

#[global] Instance Role_eq_dec : EqDecision Role.
Proof. solve_decision. Defined.
#[global] Instance BookingStatus_eq_dec : EqDecision BookingStatus.
Proof. solve_decision. Defined.
#[global] Instance NotificationType_eq_dec : EqDecision NotificationType.
Proof. solve_decision. Defined.

Module User.
Record t := mk
  { id : string; email : string; fullName : string; role : Role }.
End User.

Module Service.
Record t := mk { id : string; title : string; providerId : string }.
End Service.

(** The handlers below read and write [id], [customerId], [providerId],
    [serviceId] and [status] of a booking; its free-text and date columns
    are carried by the store and never inspected. *)
Module Booking.
Record t := mk
  { id : string; serviceId : string; customerId : string;
    providerId : string; status : BookingStatus }.

Definition with_status (s : BookingStatus) (b : t) : t :=
  mk (id b) (serviceId b) (customerId b) (providerId b) s.
End Booking.

Module Notification.
Record t := mk
  { id : nat; userId : string; type : NotificationType; title : string;
    message : string; link : option string; bookingId : option string;
    messageId : option nat; read : bool; createdAt : Z }.
End Notification.

(** A JavaScript string is a sequence of UTF-16 code units; the body of
    a chat message is kept as such, because [String.prototype.trim] is
    defined on code units. *)
Definition jsstring := list N.

Module Message.
Record t := mk
  { id : nat; bookingId : string; senderId : string; body : jsstring;
    type : MessageType; createdAt : Z }.
End Message.

(** Rows as Prisma returns them under [include]. *)
Record BookingWithRelations := mkBookingWithRelations
  { bk : Booking.t;
    bk_service : option Service.t;
    bk_customer : option User.t;
    bk_provider : option User.t }.

Record MessageWithSender := mkMessageWithSender
  { msg : Message.t; msg_sender : option User.t }.

(** ** The store *)

Inductive Table := TUser | TService | TBooking | TNotification | TMessage.

Record Db := mkDb
  { users : gmap string User.t;
    services : gmap string Service.t;
    bookings : gmap string Booking.t;
    notifications : list Notification.t;
    messages : list Message.t;
    next_id : nat;      (* source of fresh row ids *)
    clock : Z }.        (* now(), the default of createdAt *)

Definition set_bookings (m : gmap string Booking.t) (d : Db) : Db :=
  mkDb (users d) (services d) m (notifications d) (messages d) (next_id d) (clock d).

Definition add_notification (n : Notification.t) (d : Db) : Db :=
  mkDb (users d) (services d) (bookings d) (notifications d ++ [n]) (messages d)
       (S (next_id d)) (clock d).

Definition add_message (m : Message.t) (d : Db) : Db :=
  mkDb (users d) (services d) (bookings d) (notifications d) (messages d ++ [m])
       (S (next_id d)) (clock d).

(** ** Environment, effects and the handler monad *)

Inductive EmailType :=
| booking_created | booking_accepted | booking_declined | booking_completed
| booking_cancelled | message_received | rating_received.

(** The [data] argument of sendEmailNotification, and what getEmailTemplate
    gets: the same with the recipient's name. *)
Record EmailData := mkEmailData
  { ed_title : string; ed_message : string; ed_link : option string;
    ed_bookingId : option string; ed_serviceTitle : option string;
    ed_providerName : option string; ed_customerName : option string;
    ed_rating : option Z }.

Record TemplateData := mkTemplateData
  { td_userName : string; td_data : EmailData }.

(** The HTML of a mail is fixed markup around the interpolated values;
    the model keeps the template that was chosen and the values. *)
Record Html := mkHtml
  { html_template : option EmailType; html_message : string; html_fullLink : string }.

Record EmailOptions := mkEmailOptions
  { eo_to : string; eo_subject : string; eo_html : Html }.

Record Env := mkEnv
  { EMAIL_ENABLED : bool;
    FRONTEND_URL : string;
    (* the nodemailer transporter, [None] when initializeEmailService left it
       null; applied to a mail it tells whether sendMail resolves *)
    transporter : option (EmailOptions → bool);
    (* the Socket.io server, false while [io] is still null *)
    io : bool;
    (* whether a Prisma call on the table rejects *)
    store_fault : Table → bool }.

Inductive ExnKind := PlainError | ZodError | PrismaError | TransportError | TypeError.
#[global] Instance ExnKind_eq_dec : EqDecision ExnKind.
Proof. solve_decision. Defined.

(** A thrown value: an [Error], possibly an [ApiError] with a status. *)
Record Exn := mkExn
  { exn_kind : ExnKind; exn_status : option nat; exn_message : string;
    exn_details : bool }.

Inductive Payload :=
| PError (message : string)
| PNewMessage (m : MessageWithSender)
| PNotification (n : Notification.t).

Inductive HttpBody :=
| BodyError (message : string) (details : bool)
| BodyBooking (b : BookingWithRelations)
| BodyNotifications (l : list Notification.t).

Inductive Effect :=
| Respond (code : nat) (body : HttpBody)           (* res.status(code).json(body) *)
| SocketEmit (socket : nat) (event : string) (p : Payload)   (* socket.emit *)
| RoomEmit (room : string) (event : string) (p : Payload)    (* io.to(room).emit *)
| MailSent (mail : EmailOptions)                   (* sendMail resolved *)
| ConsoleLog (line : string)
| ConsoleError (line : string).

Record World := mkWorld
  { db : Db;
    rooms : gset (nat * string) }.   (* (socket id, room) memberships *)

Inductive Result (A : Type) :=
| Ok (a : A)
| Throw (e : Exn).
Arguments Ok {A} a.
Arguments Throw {A} e.

(** What a computation leaves behind: how it ended, the world after it
    and the effects it performed, oldest first. *)
Record Outcome (A : Type) := mkOutcome
  { result : Result A; world : World; trace : list Effect }.
Arguments mkOutcome {A} result world trace.
Arguments result {A} o.
Arguments world {A} o.
Arguments trace {A} o.

Definition M (A : Type) : Type := World → Outcome A.

Definition ret {A} (a : A) : M A := λ w, mkOutcome (Ok a) w [].

(** The effects of an earlier step come before those of a later one. *)
Definition prepend {A} (t : list Effect) (o : Outcome A) : Outcome A :=
  mkOutcome (result o) (world o) (t ++ trace o).

Definition bind {A B} (m : M A) (k : A → M B) : M B :=
  λ w, let o := m w in
       match result o with
       | Ok a => prepend (trace o) (k a (world o))
       | Throw e => mkOutcome (Throw e) (world o) (trace o)
       end.

Definition throw {A} (e : Exn) : M A := λ w, mkOutcome (Throw e) w [].

(** [try { m } catch (e) { h e }]; what [m] did before it threw stays done. *)
Definition try_catch {A} (m : M A) (h : Exn → M A) : M A :=
  λ w, let o := m w in
       match result o with
       | Ok a => o
       | Throw e => prepend (trace o) (h e (world o))
       end.

Notation "x <- m ;; k" := (bind m (λ x, k))
  (at level 100, m at next level, right associativity).
Notation "m ;;; k" := (bind m (λ _, k))
  (at level 100, right associativity).

Definition effect (e : Effect) : M unit := λ w, mkOutcome (Ok tt) w [e].

Definition console_log (s : string) : M unit := effect (ConsoleLog s).
Definition console_error (s : string) : M unit := effect (ConsoleError s).

(** One Prisma call on table [t]: it rejects when the table is not
    reachable or when the query itself fails ([None]). *)
Definition prisma {A} (env : Env) (t : Table) (q : Db → option (A * Db)) : M A :=
  λ w, if store_fault env t
       then mkOutcome (Throw (mkExn PrismaError None "Can't reach database server" false)) w []
       else match q (db w) with
            | Some (a, d) => mkOutcome (Ok a) (mkWorld d (rooms w)) []
            | None => mkOutcome (Throw (mkExn PrismaError None "Record not found" false)) w []
            end.

(** ** JavaScript values *)

(** [a || d] on a possibly missing string: the empty string is falsy. *)
Definition or_else (a : option string) (d : string) : string :=
  match a with
  | Some s => if decide (s = EmptyString) then d else s
  | None => d
  end.

(** A possibly undefined string inside a template literal. *)
Definition interpolate (a : option string) : string := default "undefined" a.

(** [s.slice(0, 8)] *)
Definition slice_0_8 (s : string) : string := String.substring 0 8 s.

(** WhiteSpace and LineTerminator code units of ECMAScript, the ones
    [String.prototype.trim] strips. *)
Definition isWhiteSpace (c : N) : bool :=
  bool_decide (c ∈ [0x09; 0x0A; 0x0B; 0x0C; 0x0D; 0x20; 0xA0; 0x1680;
                    0x2028; 0x2029; 0x202F; 0x205F; 0x3000; 0xFEFF]%N)
  || ((0x2000 <=? c) && (c <=? 0x200A))%N.

Fixpoint trimStart (s : jsstring) : jsstring :=
  match s with
  | c :: s' => if isWhiteSpace c then trimStart s' else s
  | [] => []
  end.

Definition trimEnd (s : jsstring) : jsstring := reverse (trimStart (reverse s)).

Definition trim (s : jsstring) : jsstring := trimEnd (trimStart s).

(** ** middleware/errorHandler.ts *)

Definition errorHandler (err : Exn) : M unit :=
  let statusCode := default 500 (exn_status err) in
  (if bool_decide (500 ≤ statusCode)%nat then console_error (exn_message err) else ret tt) ;;;
  effect (Respond statusCode (BodyError (exn_message err) (exn_details err))).

(** [const error: ApiError = new Error(message); error.status = status] *)
Definition ApiError (status : nat) (message : string) : Exn :=
  mkExn PlainError (Some status) message false.

(** [next(err)]: Express hands the error to [errorHandler]. *)
Definition next (err : Exn) : M unit := errorHandler err.

(** ** lib/email.ts *)

(** [transporter.sendMail]: resolves, or rejects with a transport error. *)
Definition sendMail (accepts : EmailOptions → bool) (options : EmailOptions) : M unit :=
  if accepts options then effect (MailSent options)
  else throw (mkExn TransportError None "sendMail failed" false).

Definition sendEmail (env : Env) (options : EmailOptions) : M bool :=
  match transporter env with
  | Some tr =>
      if negb (EMAIL_ENABLED env) then ret false
      else try_catch (sendMail tr options ;;; ret true)
                     (λ _, console_error "Failed to send email:" ;;; ret false)
  | None => ret false
  end.

Definition template_subject (type : EmailType) (data : EmailData) : string :=
  match type with
  | booking_created => "New Booking Request: " +:+ interpolate (ed_serviceTitle data)
  | booking_accepted => "Booking Accepted: " +:+ interpolate (ed_serviceTitle data)
  | booking_declined => "Booking Declined: " +:+ interpolate (ed_serviceTitle data)
  | booking_completed => "Booking Completed: " +:+ interpolate (ed_serviceTitle data)
  | booking_cancelled => "Booking Cancelled: " +:+ interpolate (ed_serviceTitle data)
  | message_received =>
      "New Message in Booking #" +:+ interpolate (slice_0_8 <$> ed_bookingId data)
  | rating_received =>
      "New " +:+ interpolate (pretty <$> ed_rating data) +:+ "-Star Rating Received"
  end.

(** Every [type] of the TypeScript signature has an entry in [templates],
    so the fallback after [||] is never taken. *)
Definition getEmailTemplate (env : Env) (type : EmailType) (data : TemplateData)
  : string * Html :=
  let baseUrl := FRONTEND_URL env in
  let fullLink :=
    match ed_link (td_data data) with
    | Some l => if decide (l = EmptyString) then baseUrl +:+ "/dashboard" else baseUrl +:+ l
    | None => baseUrl +:+ "/dashboard"
    end in
  (template_subject type (td_data data),
   mkHtml (Some type) (ed_message (td_data data)) fullLink).

Definition user_findUnique (id : string) (d : Db) : option (option User.t * Db) :=
  Some (users d !! id, d).

Definition getUserEmail (env : Env) (userId : string) : M (option string) :=
  try_catch
    (user <- prisma env TUser (user_findUnique userId) ;;
     ret (match user with
          | Some u => if decide (User.email u = EmptyString) then None else Some (User.email u)
          | None => None
          end))
    (λ _, console_error "Failed to get user email:" ;;; ret None).

Definition sendEmailNotification (env : Env) (userId : string) (type : EmailType)
    (data : EmailData) : M unit :=
  if negb (EMAIL_ENABLED env) || negb (bool_decide (is_Some (transporter env)))
  then ret tt
  else
    try_catch
      (userEmail <- getUserEmail env userId ;;
       match userEmail with
       | None => console_log ("No email found for user " +:+ userId)
       | Some userEmail =>
           user <- prisma env TUser (user_findUnique userId) ;;
           let '(subject, html) :=
             getEmailTemplate env type
               (mkTemplateData (or_else (User.fullName <$> user) "User") data) in
           sent <- sendEmail env (mkEmailOptions userEmail subject html) ;;
           if (sent : bool) then console_log ("Email sent to " +:+ userEmail) else ret tt
       end)
      (λ _, console_error "Failed to send email notification").

(** ** lib/notifications.ts *)

Record CreateNotificationParams := mkParams
  { p_userId : string; p_type : NotificationType; p_title : string;
    p_message : string; p_link : option string; p_bookingId : option string;
    p_messageId : option nat }.

(** [prisma.notification.create({ data })]: the row gets a fresh id, the
    schema's defaults [read = false] and [createdAt = now()]. *)
Definition notification_row (data : CreateNotificationParams) (d : Db) : Notification.t :=
  Notification.mk (next_id d) (p_userId data) (p_type data) (p_title data)
    (p_message data) (p_link data) (p_bookingId data) (p_messageId data)
    false (clock d).

Definition notification_create (data : CreateNotificationParams) (d : Db)
  : option (Notification.t * Db) :=
  let row := notification_row data d in
  Some (row, add_notification row d).

Definition createNotification (env : Env) (params : CreateNotificationParams)
  : M Notification.t :=
  try_catch
    (notification <- prisma env TNotification (notification_create params) ;;
     (if io env
      then effect (RoomEmit ("user_" +:+ p_userId params) "new_notification"
                            (PNotification notification))
      else ret tt) ;;;
     ret notification)
    (λ error, console_error "Failed to create notification:" ;;; throw error).

Record StatusInfo := mkStatusInfo
  { si_title : string; si_message : string; si_emailType : EmailType }.

Definition statusMessages (booking : BookingWithRelations) (status : BookingStatus)
  : option StatusInfo :=
  let provider := or_else (User.fullName <$> bk_provider booking) "Provider" in
  let service := or_else (Service.title <$> bk_service booking) "service" in
  match status with
  | ACCEPTED =>
      Some (mkStatusInfo "Booking Accepted"
              (provider +:+ " accepted your booking request for " +:+ service)
              booking_accepted)
  | DECLINED =>
      Some (mkStatusInfo "Booking Declined"
              (provider +:+ " declined your booking request for " +:+ service)
              booking_declined)
  | COMPLETED =>
      Some (mkStatusInfo "Booking Completed"
              ("Your booking for " +:+ service +:+ " has been marked as completed")
              booking_completed)
  | CANCELLED =>
      Some (mkStatusInfo "Booking Cancelled"
              ("Your booking for " +:+ service +:+ " has been cancelled")
              booking_cancelled)
  | PENDING => None
  end.

(** [`BOOKING_${status}` as NotificationType] *)
Definition notificationType_of (status : BookingStatus) : NotificationType :=
  match status with
  | ACCEPTED => BOOKING_ACCEPTED
  | DECLINED => BOOKING_DECLINED
  | COMPLETED => BOOKING_COMPLETED
  | CANCELLED => BOOKING_CANCELLED
  | PENDING => BOOKING_CREATED   (* not a member of the enum; never reached *)
  end.

(** The mail is sent by a promise that is not awaited and carries its own
    [.catch]; the model runs it to its end where it is started. *)
Definition notifyBookingStatusChange (env : Env) (booking : BookingWithRelations)
    (status : BookingStatus) : M unit :=
  try_catch
    (match statusMessages booking status with
     | None => console_log "No notification message for status:"
     | Some statusInfo =>
         let notificationType := notificationType_of status in
         notification <- createNotification env
           (mkParams (Booking.customerId (bk booking)) notificationType
              (si_title statusInfo) (si_message statusInfo) (Some "/bookings")
              (Some (Booking.id (bk booking))) None) ;;
         try_catch
           (sendEmailNotification env (Booking.customerId (bk booking))
              (si_emailType statusInfo)
              (mkEmailData (si_title statusInfo) (si_message statusInfo)
                 (Some "/bookings") (Some (Booking.id (bk booking)))
                 (Service.title <$> bk_service booking)
                 (User.fullName <$> bk_provider booking) None None))
           (λ _, console_error "Failed to send email notification:") ;;;
         console_log "Booking status notification sent:"
     end)
    (λ error, console_error "Error in notifyBookingStatusChange:" ;;; throw error).

Definition notifyMessageReceived (env : Env) (message : MessageWithSender)
    (recipientId : string) : M Notification.t :=
  let text := "You have a new message in booking #"
              +:+ slice_0_8 (Message.bookingId (msg message)) in
  notification <- createNotification env
    (mkParams recipientId MESSAGE_RECEIVED "New Message" text (Some "/bookings")
       (Some (Message.bookingId (msg message))) (Some (Message.id (msg message)))) ;;
  try_catch
    (sendEmailNotification env recipientId message_received
       (mkEmailData "New Message" text (Some "/bookings")
          (Some (Message.bookingId (msg message))) None None None None))
    (λ _, console_error "Failed to send email notification:") ;;;
  ret notification.

(** ** HTTP requests

    A request as [authenticate] hands it on: [userId] and [userRole] are
    the id and role of the user row the bearer token resolved to. *)
Record Request := mkRequest
  { params_id : string;
    userId : string;
    userRole : Role;
    body_status : string;               (* req.body.status *)
    query_unreadOnly : option string }. (* req.query.unreadOnly *)

Definition res_json (body : HttpBody) : M unit := effect (Respond 200 body).

Definition zodError : Exn := mkExn ZodError None "Invalid enum value" true.

(** The catch clause shared by the handlers that parse a body. *)
Definition catch_validation (error : Exn) : M unit :=
  if bool_decide (exn_kind error = ZodError)
  then next (mkExn PlainError (Some 400) "Validation error" true)
  else next error.

Definition booking_include (d : Db) (b : Booking.t) : BookingWithRelations :=
  mkBookingWithRelations b (services d !! Booking.serviceId b)
    (users d !! Booking.customerId b) (users d !! Booking.providerId b).

Definition booking_findUnique (id : string) (d : Db) : option (option Booking.t * Db) :=
  Some (bookings d !! id, d).

(** [prisma.booking.update({ where: { id }, data: { status }, include })];
    it rejects when no row has the id. *)
Definition booking_update (id : string) (status : BookingStatus) (d : Db)
  : option (BookingWithRelations * Db) :=
  match bookings d !! id with
  | Some b =>
      let b' := Booking.with_status status b in
      let d' := set_bookings (<[id := b']> (bookings d)) d in
      Some (booking_include d' b', d')
  | None => None
  end.

(** *** routes/bookings.ts *)
Module bookingsRouter.

(** [z.enum(["ACCEPTED", "DECLINED", "CANCELLED", "COMPLETED"]).parse] *)
Definition statusSchema_parse (status : string) : M BookingStatus :=
  if decide (status = "ACCEPTED") then ret ACCEPTED
  else if decide (status = "DECLINED") then ret DECLINED
  else if decide (status = "CANCELLED") then ret CANCELLED
  else if decide (status = "COMPLETED") then ret COMPLETED
  else throw zodError.

(** [PATCH /:id/status].  The tests that end in [return next(error)] are
    written as one chain of guards, in the order of the source. *)
Definition patch_status (env : Env) (req : Request) : M unit :=
  try_catch
    (let id := params_id req in
     let userId := userId req in
     let userRole := userRole req in
     status <- statusSchema_parse (body_status req) ;;
     if decide (id = EmptyString) then next (ApiError 400 "Booking ID is required") else
     booking <- prisma env TBooking (booking_findUnique id) ;;
     match booking with
     | None => next (ApiError 404 "Booking not found")
     | Some booking =>
       (* Check permissions *)
       if bool_decide (userRole = PROVIDER ∧ Booking.providerId booking ≠ userId)
       then next (ApiError 403 "Access denied") else
       if bool_decide (userRole = CUSTOMER ∧ Booking.customerId booking ≠ userId)
       then next (ApiError 403 "Access denied") else
       (* Validate status transitions *)
       if bool_decide (userRole = PROVIDER ∧
                       status = COMPLETED ∧ Booking.status booking ≠ ACCEPTED)
       then next (ApiError 400 "Can only complete accepted bookings") else
       if bool_decide (userRole = PROVIDER ∧
                       status ∈ [ACCEPTED; DECLINED] ∧ Booking.status booking ≠ PENDING)
       then next (ApiError 400 "Can only accept or decline pending bookings") else
       if bool_decide (userRole = PROVIDER ∧ status ∉ [ACCEPTED; DECLINED; COMPLETED])
       then next (ApiError 400 "Invalid status for provider") else
       if bool_decide (userRole = CUSTOMER ∧
                       status ≠ CANCELLED ∧ Booking.status booking ≠ PENDING)
       then next (ApiError 400 "Can only cancel pending bookings") else
       updated <- prisma env TBooking (booking_update id status) ;;
       res_json (BodyBooking updated) ;;;
       (* Use the updated booking with relations for notification *)
       try_catch (notifyBookingStatusChange env updated status)
         (λ _, console_error "Failed to send booking status notification:")
     end)
    catch_validation.

End bookingsRouter.

(** *** routes/admin.ts *)
Module adminRouter.

(** middleware/adminAuth.ts *)
Definition requireAdmin (req : Request) (handler : M unit) : M unit :=
  if bool_decide (userRole req ≠ ADMIN)
  then next (ApiError 403 "Admin access required")
  else handler.

Definition updateSchema_parse (status : string) : M BookingStatus :=
  if decide (status = "PENDING") then ret PENDING
  else if decide (status = "ACCEPTED") then ret ACCEPTED
  else if decide (status = "DECLINED") then ret DECLINED
  else if decide (status = "COMPLETED") then ret COMPLETED
  else if decide (status = "CANCELLED") then ret CANCELLED
  else throw zodError.

(** [PATCH /bookings/:id/status] *)
Definition patch_booking_status (env : Env) (req : Request) : M unit :=
  requireAdmin req
    (try_catch
       (let id := params_id req in
        if decide (id = EmptyString) then next (ApiError 400 "Booking ID is required") else
        validated <- updateSchema_parse (body_status req) ;;
        booking <- prisma env TBooking (booking_update id validated) ;;
        res_json (BodyBooking booking))
       catch_validation).

End adminRouter.

(** *** The notifications router *)
Module notificationsRouter.

Record Where := mkWhere { where_userId : string; where_read : option bool }.

Definition matches (w : Where) (n : Notification.t) : Prop :=
  Notification.userId n = where_userId w ∧
  match where_read w with
  | Some r => Notification.read n = r
  | None => True
  end.

#[global] Instance matches_dec w n : Decision (matches w n).
Proof. unfold matches. destruct (where_read w); apply _. Defined.

(** [orderBy: { createdAt: "desc" }]: the newer row comes first. *)
Definition createdAt_desc (a b : Notification.t) : Prop :=
  (Notification.createdAt b ≤ Notification.createdAt a)%Z.

#[global] Instance createdAt_desc_dec a b : Decision (createdAt_desc a b).
Proof. unfold createdAt_desc. apply _. Defined.

(** The rows that satisfy [where], in the order of [orderBy]. *)
Definition matching_sorted (w : Where) (d : Db) : list Notification.t :=
  merge_sort createdAt_desc (filter (matches w) (notifications d)).

(** [prisma.notification.findMany({ where, orderBy, take })] *)
Definition notification_findMany (w : Where) (take_n : nat) (d : Db)
  : option (list Notification.t * Db) :=
  Some (take take_n (matching_sorted w d), d).

(** [GET /] *)
Definition get_notifications (env : Env) (req : Request) : M unit :=
  try_catch
    (let userId := userId req in
     let unreadOnly := query_unreadOnly req in
     let where_ :=
       if decide (unreadOnly = Some "true")
       then mkWhere userId (Some false)
       else mkWhere userId None in
     notifications <- prisma env TNotification (notification_findMany where_ 50) ;;
     res_json (BodyNotifications notifications))
    next.

End notificationsRouter.

(** ** lib/socket.ts *)
Module socket.

(** A connection after the handshake middleware: [socket.data]. *)
Record Socket := mkSocket
  { socket_id : nat; data_userId : string; data_userRole : Role }.

Definition booking_room (bookingId : string) : string := "booking:" +:+ bookingId.
Definition user_room (userId : string) : string := "user_" +:+ userId.

Definition socket_join (s : Socket) (room : string) : M unit :=
  λ w, mkOutcome (Ok tt) (mkWorld (db w) ({[ (socket_id s, room) ]} ∪ rooms w)) [].

Definition socket_leave (s : Socket) (room : string) : M unit :=
  λ w, mkOutcome (Ok tt) (mkWorld (db w) (rooms w ∖ {[ (socket_id s, room) ]})) [].

Definition socket_emit (s : Socket) (event : string) (p : Payload) : M unit :=
  effect (SocketEmit (socket_id s) event p).

(** [io!.to(room).emit(event, p)]; a null [io] makes the call throw. *)
Definition io_to_emit (env : Env) (room event : string) (p : Payload) : M unit :=
  if io env then effect (RoomEmit room event p)
  else throw (mkExn TypeError None "Cannot read properties of null" false).

(** [io.on("connection", ...)] *)
Definition on_connection (s : Socket) : M unit :=
  console_log ("User connected: " +:+ data_userId s) ;;;
  socket_join s (user_room (data_userId s)) ;;;
  console_log ("User " +:+ data_userId s +:+ " joined notification room").

Definition join_booking (env : Env) (s : Socket) (bookingId : string) : M unit :=
  try_catch
    (booking <- prisma env TBooking (booking_findUnique bookingId) ;;
     match booking with
     | Some booking =>
         if bool_decide (Booking.customerId booking = data_userId s ∨
                         Booking.providerId booking = data_userId s)
         then socket_join s (booking_room bookingId) ;;;
              console_log ("User " +:+ data_userId s +:+ " joined booking:" +:+ bookingId)
         else ret tt
     | None => ret tt
     end)
    (λ _, console_error "Error joining booking room:").

Definition leave_booking (s : Socket) (bookingId : string) : M unit :=
  socket_leave s (booking_room bookingId) ;;;
  console_log ("User " +:+ data_userId s +:+ " left booking:" +:+ bookingId).

(** [prisma.message.create({ data, include: { sender } })] *)
Definition message_row (bookingId : string) (body : jsstring) (senderId : string)
    (d : Db) : Message.t :=
  Message.mk (next_id d) bookingId senderId body TEXT (clock d).

Definition message_create (bookingId : string) (body : jsstring) (senderId : string)
    (d : Db) : option (MessageWithSender * Db) :=
  let row := message_row bookingId body senderId d in
  Some (mkMessageWithSender row (users d !! senderId), add_message row d).

Definition send_message (env : Env) (s : Socket) (bookingId : string) (body : jsstring)
  : M unit :=
  try_catch
    (let senderId := data_userId s in
     (* Verify booking access *)
     booking <- prisma env TBooking (booking_findUnique bookingId) ;;
     match booking with
     | None => socket_emit s "error" (PError "Booking not found")
     | Some booking =>
         if bool_decide (Booking.customerId booking ≠ senderId ∧
                         Booking.providerId booking ≠ senderId)
         then socket_emit s "error" (PError "Access denied")
         else
           (* Create message *)
           message <- prisma env TMessage (message_create bookingId (trim body) senderId) ;;
           (* Broadcast to all users in the booking room *)
           io_to_emit env (booking_room bookingId) "new_message" (PNewMessage message) ;;;
           (* Send notification to the recipient (the other user in the booking) *)
           let recipientId :=
             if decide (Booking.customerId booking = senderId)
             then Booking.providerId booking else Booking.customerId booking in
           try_catch (notifyMessageReceived env message recipientId ;;; ret tt)
             (λ _, console_error "Failed to send message notification:")
     end)
    (λ _, console_error "Error sending message:" ;;;
          socket_emit s "error" (PError "Failed to send message")).

End socket.

(** ** Observations on a trace *)

Definition responses (t : list Effect) : list (nat * HttpBody) :=
  omap (λ e, match e with Respond c b => Some (c, b) | _ => None end) t.

Definition broadcasts (t : list Effect) : list (string * string * Payload) :=
  omap (λ e, match e with RoomEmit r ev p => Some (r, ev, p) | _ => None end) t.

Definition socket_emits (t : list Effect) : list (nat * string * Payload) :=
  omap (λ e, match e with SocketEmit s ev p => Some (s, ev, p) | _ => None end) t.

Definition mails (t : list Effect) : list EmailOptions :=
  omap (λ e, match e with MailSent m => Some m | _ => None end) t.

(** The status of a booking as the store holds it. *)
Definition status_of (d : Db) (id : string) : option BookingStatus :=
  Booking.status <$> bookings d !! id.

(** Effects that reach no client: neither a response nor socket traffic. *)
Definition silent (t : list Effect) : Prop :=
  responses t = [] ∧ broadcasts t = [] ∧ socket_emits t = [].

(** The wire name of a status, as a client puts it in a request body. *)
Definition status_name (s : BookingStatus) : string :=
  match s with
  | PENDING => "PENDING"
  | ACCEPTED => "ACCEPTED"
  | DECLINED => "DECLINED"
  | COMPLETED => "COMPLETED"
  | CANCELLED => "CANCELLED"
  end.

(** The other participant of a booking, for one of its two participants. *)
Definition counterparty (b : Booking.t) (actor : string) : string :=
  if decide (actor = Booking.providerId b) then Booking.customerId b
  else Booking.providerId b.

(** ** Notions used in the statements *)

(** A computation is harmless at [w] when it leaves the world as it is
    and reaches no client, however it ends. *)
Definition harmless {A} (m : M A) (w : World) : Prop :=
  ∃ r t, m w = mkOutcome r w t ∧ silent t.

(** What createNotification pushes to the recipient's room. *)
Definition pushed (env : Env) (row : Notification.t) : list Effect :=
  if io env
  then [RoomEmit ("user_" +:+ Notification.userId row) "new_notification"
          (PNotification row)]
  else [].

Definition with_notification (row : Notification.t) (w : World) : World :=
  mkWorld (add_notification row (db w)) (rooms w).

(** The row that a status change to [status] writes for [booking]. *)
Definition status_row (booking : BookingWithRelations) (status : BookingStatus)
    (d : Db) : option Notification.t :=
  statusInfo ← statusMessages booking status;
  Some (notification_row
          (mkParams (Booking.customerId (bk booking)) (notificationType_of status)
             (si_title statusInfo) (si_message statusInfo) (Some "/bookings")
             (Some (Booking.id (bk booking))) None) d).

(** The guards of [bookingsRouter.patch_status] as one table: the error
    the handler answers with, for the role and id of the caller, the
    stored booking and the requested status; [None] when it goes on to
    the update. *)
Definition transition_error (userRole : Role) (userId : string)
    (booking : Booking.t) (status : BookingStatus) : option (nat * string) :=
  if bool_decide (userRole = PROVIDER ∧ Booking.providerId booking ≠ userId)
  then Some (403, "Access denied")%nat else
  if bool_decide (userRole = CUSTOMER ∧ Booking.customerId booking ≠ userId)
  then Some (403, "Access denied")%nat else
  if bool_decide (userRole = PROVIDER ∧
                  status = COMPLETED ∧ Booking.status booking ≠ ACCEPTED)
  then Some (400, "Can only complete accepted bookings")%nat else
  if bool_decide (userRole = PROVIDER ∧
                  status ∈ [ACCEPTED; DECLINED] ∧ Booking.status booking ≠ PENDING)
  then Some (400, "Can only accept or decline pending bookings")%nat else
  if bool_decide (userRole = PROVIDER ∧ status ∉ [ACCEPTED; DECLINED; COMPLETED])
  then Some (400, "Invalid status for provider")%nat else
  if bool_decide (userRole = CUSTOMER ∧
                  status ≠ CANCELLED ∧ Booking.status booking ≠ PENDING)
  then Some (400, "Can only cancel pending bookings")%nat else
  None.

(** The store after [status] has been written to booking [id]. *)
Definition with_booking_status (id : string) (status : BookingStatus) (b : Booking.t)
    (w : World) : World :=
  mkWorld (set_bookings (<[id := Booking.with_status status b]> (bookings (db w))) (db w))
          (rooms w).

(** What reaches the members of one room. *)
Definition emitted_to (room : string) (t : list Effect) : list (string * Payload) :=
  omap (λ e, match e with
             | RoomEmit r event p => if decide (r = room) then Some (event, p) else None
             | _ => None
             end) t.

(** The user is the customer or the provider of the booking. *)
Definition participant (d : Db) (bookingId userId : string) : Prop :=
  ∃ b, bookings d !! bookingId = Some b ∧
       (Booking.customerId b = userId ∨ Booking.providerId b = userId).

#[global] Instance createdAt_desc_total : Total notificationsRouter.createdAt_desc.
Proof. intros a b. unfold notificationsRouter.createdAt_desc. lia. Qed.

#[global] Instance createdAt_desc_trans : Transitive notificationsRouter.createdAt_desc.
Proof. intros a b c. unfold notificationsRouter.createdAt_desc. lia. Qed.


(** ** A small deployment

    One customer, one provider, an administrator and a bystander; one
    service of the provider and one booking of it by the customer. *)
Module Demo.

Definition alice : User.t := User.mk "alice" "alice@example.org" "Alice" CUSTOMER.
Definition bob : User.t := User.mk "bob" "bob@example.org" "Bob" PROVIDER.
Definition carol : User.t := User.mk "carol" "carol@example.org" "Carol" CUSTOMER.
Definition root : User.t := User.mk "root" "root@example.org" "Root" ADMIN.

Definition plumbing : Service.t := Service.mk "s1" "Plumbing" "bob".

Definition booking (status : BookingStatus) : Booking.t :=
  Booking.mk "b1" "s1" "alice" "bob" status.

Definition store (status : BookingStatus) : Db :=
  mkDb (<["alice" := alice]> (<["bob" := bob]> (<["carol" := carol]> {["root" := root]})))
       {["s1" := plumbing]} {["b1" := booking status]} [] [] 0 1000.

Definition world (status : BookingStatus) : World := mkWorld (store status) ∅.

(** A ledger with rows of two users, read and unread. *)
Definition row (id : nat) (userId : string) (read : bool) (createdAt : Z)
  : Notification.t :=
  Notification.mk id userId MESSAGE_RECEIVED "New Message"
    "You have a new message in booking #b1" (Some "/bookings") (Some "b1") None
    read createdAt.

Definition ledger : list Notification.t :=
  [row 0 "alice" false 10; row 1 "bob" false 20; row 2 "alice" true 30;
   row 3 "alice" false 40].

Definition with_ledger (l : list Notification.t) (w : World) : World :=
  mkWorld (mkDb (users (db w)) (services (db w)) (bookings (db w)) l
             (messages (db w)) (length l) (clock (db w)))
          (rooms w).

(** Sixty unread rows of one user, the oldest first. *)
Definition long_ledger : list Notification.t :=
  (λ i, row i "alice" false (Z.of_nat i)) <$> seq 0 60.

(** Mail is switched on, and the transporter refuses every mail. *)
Definition env : Env :=
  mkEnv true "http://localhost:5173" (Some (λ _, false)) true (λ _, false).

Definition socket_of (u : User.t) (n : nat) : socket.Socket :=
  socket.mkSocket n (User.id u) (User.role u).

End Demo.

(** ** Further handlers of the same files

    The handlers below answer with bodies of other shapes.  A body
    [{ message }] has the shape of [errorHandler]'s body without details
    and is written with the same constructor; where the body is a count or
    a list of messages, the computation returns it ([Some body] for
    [res.json(body)], [None] after [next(error)]). *)

Definition BodyMessage (message : string) : HttpBody := BodyError message false.

Definition set_notifications (l : list Notification.t) (d : Db) : Db :=
  mkDb (users d) (services d) (bookings d) l (messages d) (next_id d) (clock d).

(** The id of a row as the client sees it in a path. *)
Definition notification_key (n : Notification.t) : string := pretty (Notification.id n).

Definition mark_read (n : Notification.t) : Notification.t :=
  Notification.mk (Notification.id n) (Notification.userId n) (Notification.type n)
    (Notification.title n) (Notification.message n) (Notification.link n)
    (Notification.bookingId n) (Notification.messageId n) true
    (Notification.createdAt n).

(** *** The notifications router, continued *)
Module notificationsActions.

(** [where: { userId, read: false }] *)
Definition unread_of (userId : string) (n : Notification.t) : Prop :=
  Notification.userId n = userId ∧ Notification.read n = false.

(** [where: { id, userId }] *)
Definition owned (id userId : string) (n : Notification.t) : Prop :=
  notification_key n = id ∧ Notification.userId n = userId.

#[global] Instance unread_of_dec u n : Decision (unread_of u n).
Proof. unfold unread_of. apply _. Defined.

#[global] Instance owned_dec i u n : Decision (owned i u n).
Proof. unfold owned. apply _. Defined.

(** [prisma.notification.count({ where })] *)
Definition notification_count (P : Notification.t → Prop) `{∀ n, Decision (P n)}
    (d : Db) : option (nat * Db) :=
  Some (length (filter P (notifications d)), d).

(** [prisma.notification.updateMany({ where, data: { read: true } })] *)
Definition notification_updateMany (P : Notification.t → Prop) `{∀ n, Decision (P n)}
    (d : Db) : option (nat * Db) :=
  Some (length (filter P (notifications d)),
        set_notifications
          ((λ n, if decide (P n) then mark_read n else n) <$> notifications d) d).

(** [prisma.notification.deleteMany({ where })] *)
Definition notification_deleteMany (P : Notification.t → Prop) `{∀ n, Decision (P n)}
    (d : Db) : option (nat * Db) :=
  Some (length (filter P (notifications d)),
        set_notifications (filter (λ n, ¬ P n) (notifications d)) d).

(** [GET /unread-count] *)
Definition get_unread_count (env : Env) (req : Request) : M (option nat) :=
  try_catch
    (let userId := userId req in
     count <- prisma env TNotification (notification_count (unread_of userId)) ;;
     ret (Some count))
    (λ error, next error ;;; ret None).

(** [PATCH /:id/read] *)
Definition patch_read (env : Env) (req : Request) : M unit :=
  try_catch
    (let userId := userId req in
     let id := params_id req in
     if decide (id = EmptyString) then next (ApiError 400 "Notification ID is required") else
     count <- prisma env TNotification (notification_updateMany (owned id userId)) ;;
     if decide (count = 0%nat) then next (ApiError 404 "Notification not found") else
     res_json (BodyMessage "Notification marked as read"))
    next.

(** [PATCH /read-all] *)
Definition patch_read_all (env : Env) (req : Request) : M unit :=
  try_catch
    (let userId := userId req in
     prisma env TNotification (notification_updateMany (unread_of userId)) ;;;
     res_json (BodyMessage "All notifications marked as read"))
    next.

(** [DELETE /:id] *)
Definition delete_notification (env : Env) (req : Request) : M unit :=
  try_catch
    (let userId := userId req in
     let id := params_id req in
     if decide (id = EmptyString) then next (ApiError 400 "Notification ID is required") else
     count <- prisma env TNotification (notification_deleteMany (owned id userId)) ;;
     if decide (count = 0%nat) then next (ApiError 404 "Notification not found") else
     res_json (BodyMessage "Notification deleted"))
    next.

End notificationsActions.

(** *** routes/messages.ts *)
Module messagesRouter.

(** [orderBy: { createdAt: "asc" }]: the older message comes first. *)
Definition createdAt_asc (a b : Message.t) : Prop :=
  (Message.createdAt a ≤ Message.createdAt b)%Z.

#[global] Instance createdAt_asc_dec a b : Decision (createdAt_asc a b).
Proof. unfold createdAt_asc. apply _. Defined.

#[global] Instance createdAt_asc_total : Total createdAt_asc.
Proof. intros a b. unfold createdAt_asc. lia. Qed.

#[global] Instance createdAt_asc_trans : Transitive createdAt_asc.
Proof. intros a b c. unfold createdAt_asc. lia. Qed.

Definition of_booking (d : Db) (bookingId : string) : list Message.t :=
  merge_sort createdAt_asc
    (filter (λ m, Message.bookingId m = bookingId) (messages d)).

(** [prisma.message.findMany({ where: { bookingId }, include: { sender },
    orderBy })] *)
Definition message_findMany (bookingId : string) (d : Db)
  : option (list MessageWithSender * Db) :=
  Some ((λ m, mkMessageWithSender m (users d !! Message.senderId m))
          <$> of_booking d bookingId, d).

(** [GET /booking/:bookingId] *)
Definition get_messages (env : Env) (req : Request) : M (option (list MessageWithSender)) :=
  try_catch
    (let bookingId := params_id req in
     let userId := userId req in
     if decide (bookingId = EmptyString)
     then next (ApiError 400 "Booking ID is required") ;;; ret None else
     (* Verify user has access to this booking *)
     booking <- prisma env TBooking (booking_findUnique bookingId) ;;
     match booking with
     | None => next (ApiError 404 "Booking not found") ;;; ret None
     | Some booking =>
         if bool_decide (Booking.customerId booking ≠ userId ∧
                         Booking.providerId booking ≠ userId)
         then next (ApiError 403 "Access denied") ;;; ret None
         else
           messages <- prisma env TMessage (message_findMany bookingId) ;;
           ret (Some messages)
     end)
    (λ error, next error ;;; ret None).

End messagesRouter.

(** *** lib/notifications.ts, continued *)

(** [notifyBookingCreated]: reading [booking.customer.fullName] or
    [booking.service.title] of a relation that is missing throws. *)
Definition notifyBookingCreated (env : Env) (booking : BookingWithRelations)
  : M Notification.t :=
  match bk_customer booking, bk_service booking with
  | Some customer, Some service =>
      let text := User.fullName customer +:+ " requested your service: "
                  +:+ Service.title service in
      notification <- createNotification env
        (mkParams (Booking.providerId (bk booking)) BOOKING_CREATED
           "New Booking Request" text (Some "/bookings")
           (Some (Booking.id (bk booking))) None) ;;
      try_catch
        (sendEmailNotification env (Booking.providerId (bk booking)) booking_created
           (mkEmailData "New Booking Request" text (Some "/bookings")
              (Some (Booking.id (bk booking))) (Some (Service.title service)) None
              (Some (User.fullName customer)) None))
        (λ _, console_error "Failed to send email notification:") ;;;
      ret notification
  | _, _ => throw (mkExn TypeError None "Cannot read properties of null" false)
  end.

(** *** middleware/auth.ts *)

(** What [supabase.auth.getUser(token)] comes back with. *)
Inductive GetUser :=
| GotUser (id : string)     (* [{ data: { user }, error: null }] *)
| NoUser                    (* an error, or no user *)
| GetUserRejected.          (* the call itself rejects *)

(** [authenticate]: [Some (userId, userRole)] when it calls [next()] with
    the request filled in, [None] when it has answered itself. *)
Definition authenticate (env : Env) (getUser : string → GetUser)
    (authorization : option string) : M (option (string * Role)) :=
  try_catch
    (match authorization with
     | Some authHeader =>
         if String.prefix "Bearer " authHeader then
           let token := String.substring 7 (String.length authHeader - 7) authHeader in
           match getUser token with
           | GetUserRejected =>
               throw (mkExn PlainError None "fetch failed" false)
           | NoUser => next (ApiError 401 "Invalid or expired token") ;;; ret None
           | GotUser id =>
               (* Get user role from database *)
               dbUser <- prisma env TUser (user_findUnique id) ;;
               match dbUser with
               | None => next (ApiError 404 "User not found in database") ;;; ret None
               | Some dbUser => ret (Some (User.id dbUser, User.role dbUser))
               end
           end
         else next (ApiError 401 "Missing or invalid authorization header") ;;; ret None
     | None => next (ApiError 401 "Missing or invalid authorization header") ;;; ret None
     end)
    (λ error,
       next (mkExn (exn_kind error) (Some (default 500%nat (exn_status error)))
               (exn_message error) (exn_details error)) ;;;
       ret None).

(** A router behind [authenticate]: the handler sees the id and role that
    the middleware put into the request. *)
Definition authenticated (env : Env) (getUser : string → GetUser)
    (authorization : option string) (params_id body_status : string)
    (query_unreadOnly : option string) (handler : Request → M unit) : M unit :=
  who <- authenticate env getUser authorization ;;
  match who with
  | Some (userId, userRole) =>
      handler (mkRequest params_id userId userRole body_status query_unreadOnly)
  | None => ret tt
  end.

(** * Properties *)

(** ** Running a computation step by step *)

Section monad_laws.
Context {A B : Type}.
Implicit Types (m : M A) (k : A → M B) (h : Exn → M A) (w : World).

Lemma bind_Ok m k w a w' t :
  m w = mkOutcome (Ok a) w' t → bind m k w = prepend t (k a w').
Proof. intros H. unfold bind. by rewrite H. Qed.

Lemma bind_Throw m k w e w' t :
  m w = mkOutcome (Throw e) w' t → bind m k w = mkOutcome (Throw e) w' t.
Proof. intros H. unfold bind. by rewrite H. Qed.

Lemma try_catch_Ok m h w a w' t :
  m w = mkOutcome (Ok a) w' t → try_catch m h w = mkOutcome (Ok a) w' t.
Proof. intros H. unfold try_catch. by rewrite H. Qed.

Lemma try_catch_Throw m h w e w' t :
  m w = mkOutcome (Throw e) w' t → try_catch m h w = prepend t (h e w').
Proof. intros H. unfold try_catch. by rewrite H. Qed.

Lemma prepend_nil (o : Outcome A) : prepend [] o = o.
Proof. by destruct o. Qed.

Lemma prepend_outcome t (r : Result A) w t' :
  prepend t (mkOutcome r w t') = mkOutcome r w (t ++ t').
Proof. done. Qed.
End monad_laws.

Lemma World_eta w : mkWorld (db w) (rooms w) = w.
Proof. by destruct w. Qed.

Lemma prisma_fault {A} env t (q : Db → option (A * Db)) w :
  store_fault env t = true →
  ∃ e, prisma env t q w = mkOutcome (Throw e) w [].
Proof. intros H. unfold prisma. rewrite H. by eexists. Qed.

Lemma prisma_ok {A} env t (q : Db → option (A * Db)) w a d :
  store_fault env t = false → q (db w) = Some (a, d) →
  prisma env t q w = mkOutcome (Ok a) (mkWorld d (rooms w)) [].
Proof. intros H Hq. unfold prisma. by rewrite H, Hq. Qed.

Lemma prisma_read {A} env t (q : Db → option (A * Db)) w a :
  store_fault env t = false → q (db w) = Some (a, db w) →
  prisma env t q w = mkOutcome (Ok a) w [].
Proof. intros H Hq. rewrite (prisma_ok _ _ _ _ _ _ H Hq). by rewrite World_eta. Qed.

Lemma next_outcome err w :
  ∃ t, next err w = mkOutcome (Ok tt) w t ∧
       responses t = [(default 500 (exn_status err),
                       BodyError (exn_message err) (exn_details err))] ∧
       broadcasts t = [] ∧ socket_emits t = [].
Proof.
  unfold next, errorHandler. case_bool_decide.
  - erewrite bind_Ok by reflexivity. by eexists.
  - erewrite bind_Ok by reflexivity. by eexists.
Qed.

Lemma silent_nil : silent [].
Proof. done. Qed.

Lemma silent_app t1 t2 : silent t1 → silent t2 → silent (t1 ++ t2).
Proof.
  unfold silent, responses, broadcasts, socket_emits.
  intros (H1 & H2 & H3) (H4 & H5 & H6).
  by rewrite !omap_app, H1, H2, H3, H4, H5, H6.
Qed.

Lemma silent_log s : silent [ConsoleLog s].
Proof. done. Qed.

Lemma silent_error s : silent [ConsoleError s].
Proof. done. Qed.

#[local] Hint Resolve silent_nil silent_app silent_log silent_error : core.

Section harmless.
Context {A B : Type}.

Lemma harmless_ret (a : A) w : harmless (ret a) w.
Proof. by eexists _, _. Qed.

Lemma harmless_throw e w : harmless (@throw A e) w.
Proof. by eexists _, _. Qed.

Lemma harmless_bind (m : M A) (k : A → M B) w :
  harmless m w → (∀ a, harmless (k a) w) → harmless (bind m k) w.
Proof.
  intros (r & t & Hm & Ht) Hk. destruct r as [a|e].
  - destruct (Hk a) as (r' & t' & Hk' & Ht').
    exists r', (t ++ t'). rewrite (bind_Ok _ _ _ _ _ _ Hm), Hk'. auto.
  - exists (Throw e), t. by rewrite (bind_Throw _ _ _ _ _ _ Hm).
Qed.

Lemma harmless_try_catch (m : M A) (h : Exn → M A) w :
  harmless m w → (∀ e, harmless (h e) w) → harmless (try_catch m h) w.
Proof.
  intros (r & t & Hm & Ht) Hh. destruct r as [a|e].
  - exists (Ok a), t. by rewrite (try_catch_Ok _ _ _ _ _ _ Hm).
  - destruct (Hh e) as (r' & t' & Hh' & Ht').
    exists r', (t ++ t'). rewrite (try_catch_Throw _ _ _ _ _ _ Hm), Hh'. auto.
Qed.

(** A [catch] clause that only logs turns a harmless body into one that
    always returns. *)
Lemma try_catch_returns (m : M unit) (h : Exn → M unit) w :
  harmless m w →
  (∀ e, ∃ t, h e w = mkOutcome (Ok tt) w t ∧ silent t) →
  ∃ t, try_catch m h w = mkOutcome (Ok tt) w t ∧ silent t.
Proof.
  intros (r & t & Hm & Ht) Hh. destruct r as [[]|e].
  - exists t. by rewrite (try_catch_Ok _ _ _ _ _ _ Hm).
  - destruct (Hh e) as (t' & Hh' & Ht').
    exists (t ++ t'). rewrite (try_catch_Throw _ _ _ _ _ _ Hm), Hh'. auto.
Qed.

Lemma harmless_read env tbl (q : Db → option (A * Db)) w :
  (∀ d, ∃ a, q d = Some (a, d)) → harmless (prisma env tbl q) w.
Proof.
  intros Hq. destruct (store_fault env tbl) eqn:Hf.
  - destruct (prisma_fault env tbl q w Hf) as [e He]. by exists (Throw e), [].
  - destruct (Hq (db w)) as [a Ha]. exists (Ok a), [].
    by rewrite (prisma_read _ _ _ _ _ Hf Ha).
Qed.
End harmless.

Lemma harmless_log s w : harmless (console_log s) w.
Proof. by eexists _, _. Qed.

Lemma harmless_error s w : harmless (console_error s) w.
Proof. by eexists _, _. Qed.

#[local] Hint Resolve harmless_ret harmless_throw harmless_log harmless_error : core.

(** ** lib/email.ts: the mail step cannot fail its caller *)

Lemma harmless_sendMail tr options w : harmless (sendMail tr options) w.
Proof. unfold sendMail. destruct (tr options); by eexists _, _. Qed.

Lemma harmless_sendEmail env options w : harmless (sendEmail env options) w.
Proof.
  unfold sendEmail. destruct (transporter env) as [tr|]; [|done].
  destruct (negb _); [done|].
  apply harmless_try_catch.
  - apply harmless_bind; [apply harmless_sendMail | done].
  - intros _. by apply harmless_bind.
Qed.

Lemma harmless_getUserEmail env userId w : harmless (getUserEmail env userId) w.
Proof.
  apply harmless_try_catch.
  - apply harmless_bind; [|done]. apply harmless_read. by eexists.
  - intros _. by apply harmless_bind.
Qed.

Lemma sendEmailNotification_outcome env userId type data w :
  ∃ t, sendEmailNotification env userId type data w = mkOutcome (Ok tt) w t ∧ silent t.
Proof.
  unfold sendEmailNotification. destruct (negb _ || negb _); [by eexists|].
  apply try_catch_returns; [|by eexists].
  apply harmless_bind; [apply harmless_getUserEmail|].
  intros [userEmail|]; [|done].
  apply harmless_bind; [apply harmless_read; by eexists|]. intros user.
  destruct (getEmailTemplate _ _ _) as [subject html].
  apply harmless_bind; [apply harmless_sendEmail|]. by intros [].
Qed.

Lemma sendEmailNotification_harmless env userId type data w :
  harmless (sendEmailNotification env userId type data) w.
Proof.
  destruct (sendEmailNotification_outcome env userId type data w) as (t & Hm & Ht).
  by eexists _, _.
Qed.

(** ** lib/notifications.ts: one ledger row per dispatched event *)

Lemma createNotification_ok env params w :
  store_fault env TNotification = false →
  let row := notification_row params (db w) in
  createNotification env params w
  = mkOutcome (Ok row) (with_notification row w) (pushed env row).
Proof.
  intros Hf row. unfold createNotification.
  apply try_catch_Ok.
  rewrite (bind_Ok _ _ _ _ _ _ (prisma_ok _ _ _ _ _ _ Hf eq_refl)).
  unfold pushed. simpl. destruct (io env).
  - by erewrite bind_Ok by reflexivity.
  - by erewrite bind_Ok by reflexivity.
Qed.

Lemma createNotification_fault env params w :
  store_fault env TNotification = true →
  ∃ e, createNotification env params w
       = mkOutcome (Throw e) w [ConsoleError "Failed to create notification:"].
Proof.
  intros Hf. unfold createNotification.
  destruct (prisma_fault env TNotification (notification_create params) w Hf) as [e He].
  exists e.
  erewrite try_catch_Throw by (by apply bind_Throw).
  by erewrite bind_Ok by reflexivity.
Qed.

Lemma status_row_is_Some booking status d :
  status ≠ PENDING → is_Some (status_row booking status d).
Proof. destruct status; intros H; try done; by eexists. Qed.

Lemma status_row_recipient booking status d row :
  status_row booking status d = Some row →
  Notification.userId row = Booking.customerId (bk booking) ∧
  Notification.type row = notificationType_of status ∧
  Notification.bookingId row = Some (Booking.id (bk booking)) ∧
  Notification.read row = false.
Proof.
  unfold status_row. destruct (statusMessages booking status); simpl; [|done].
  by intros [= <-].
Qed.

Lemma notifyBookingStatusChange_ok env booking status w row :
  store_fault env TNotification = false →
  status_row booking status (db w) = Some row →
  ∃ t, notifyBookingStatusChange env booking status w
       = mkOutcome (Ok tt) (with_notification row w) (pushed env row ++ t)
     ∧ silent t.
Proof.
  intros Hf Hrow. unfold notifyBookingStatusChange, status_row in *.
  destruct (statusMessages booking status) as [statusInfo|]; simpl in Hrow; [|done].
  injection Hrow as <-.
  set (params := mkParams _ _ _ _ _ _ _).
  set (row := notification_row params (db w)).
  pose proof (createNotification_ok env params w Hf) as Hc. simpl in Hc. fold row in Hc.
  match goal with
  | |- context [try_catch (sendEmailNotification ?e ?u ?ty ?d) ?h] =>
      destruct (try_catch_returns (sendEmailNotification e u ty d) h
                  (with_notification row w)) as (t & Hm & Ht)
  end.
  { apply sendEmailNotification_harmless. }
  { by eexists. }
  exists (t ++ [ConsoleLog "Booking status notification sent:"]).
  split; [|auto].
  apply try_catch_Ok.
  rewrite (bind_Ok _ _ _ _ _ _ Hc). cbv beta.
  by rewrite (bind_Ok _ _ _ _ _ _ Hm).
Qed.

Lemma notifyBookingStatusChange_fault env booking status w :
  store_fault env TNotification = true →
  status ≠ PENDING →
  ∃ e t, notifyBookingStatusChange env booking status w = mkOutcome (Throw e) w t
       ∧ silent t.
Proof.
  intros Hf Hs. unfold notifyBookingStatusChange.
  destruct (statusMessages booking status) as [statusInfo|] eqn:Hi;
    [|by destruct status].
  match goal with
  | |- context [createNotification env ?p] =>
      destruct (createNotification_fault env p w Hf) as [e He]
  end.
  exists e. eexists.
  erewrite try_catch_Throw by (by apply bind_Throw).
  erewrite bind_Ok by reflexivity. split; [reflexivity|]. done.
Qed.

(** ** routes/bookings.ts: what PATCH /:id/status answers *)

Lemma statusSchema_parse_name status w :
  status ≠ PENDING →
  bookingsRouter.statusSchema_parse (status_name status) w = mkOutcome (Ok status) w [].
Proof. by destruct status. Qed.

Section patch_status.
Variables (env : Env) (id uid : string) (role : Role) (target : BookingStatus)
          (q : option string) (w : World) (b : Booking.t).
Hypothesis Hid : id ≠ EmptyString.
Hypothesis Htarget : target ≠ PENDING.
Hypothesis Hstore : store_fault env TBooking = false.
Hypothesis Hb : bookings (db w) !! id = Some b.

#[local] Abbreviation req := (mkRequest id uid role (status_name target) q).

Lemma load_booking :
  prisma env TBooking (booking_findUnique id) w = mkOutcome (Ok (Some b)) w [].
Proof. apply prisma_read; [done|]. unfold booking_findUnique. by rewrite Hb. Qed.

Lemma update_booking :
  let w1 := with_booking_status id target b w in
  prisma env TBooking (booking_update id target) w
  = mkOutcome (Ok (booking_include (db w1) (Booking.with_status target b))) w1 [].
Proof.
  intros w1. apply prisma_ok; [done|]. unfold booking_update. by rewrite Hb.
Qed.

(** A guard that fires ends the request: the store is as before and the
    one response is the error of the table. *)
Lemma patch_status_rejects code message :
  transition_error role uid b target = Some (code, message) →
  ∃ t, bookingsRouter.patch_status env req w = mkOutcome (Ok tt) w t
     ∧ responses t = [(code, BodyError message false)]
     ∧ broadcasts t = [] ∧ socket_emits t = [].
Proof.
  intros Hv. unfold bookingsRouter.patch_status, try_catch, transition_error in *.
  cbv zeta. cbn [params_id userId userRole body_status].
  rewrite (bind_Ok _ _ _ _ _ _ (statusSchema_parse_name target w Htarget)).
  rewrite decide_False by done.
  rewrite (bind_Ok _ _ _ _ _ _ load_booking). cbv beta iota.
  repeat (case_bool_decide;
    [ injection Hv as <- <-;
      match goal with
      | |- context [next ?e w] =>
          destruct (next_outcome e w) as (t & -> & Hr & Hbc & Hse)
      end; by exists t
    | ]).
  done.
Qed.

(** When no guard fires the status is written, the caller gets the
    updated booking, and then the customer's notification is dispatched:
    the row is written unless the ledger is out of reach. *)
Lemma patch_status_applies :
  transition_error role uid b target = None →
  let w1 := with_booking_status id target b w in
  let updated := booking_include (db w1) (Booking.with_status target b) in
  ∃ row t,
    status_row updated target (db w1) = Some row
    ∧ bookingsRouter.patch_status env req w
      = mkOutcome (Ok tt)
          (if store_fault env TNotification then w1 else with_notification row w1)
          (Respond 200 (BodyBooking updated) :: t)
    ∧ responses t = [] ∧ socket_emits t = []
    ∧ broadcasts t
      = (if store_fault env TNotification then []
         else broadcasts (pushed env row)).
Proof.
  intros Hv w1 updated.
  destruct (status_row_is_Some updated target (db w1) Htarget) as [row Hrow].
  exists row.
  unfold bookingsRouter.patch_status, try_catch, transition_error in *.
  cbv zeta. cbn [params_id userId userRole body_status].
  rewrite (bind_Ok _ _ _ _ _ _ (statusSchema_parse_name target w Htarget)).
  rewrite decide_False by done.
  rewrite (bind_Ok _ _ _ _ _ _ load_booking). cbv beta iota.
  repeat (case_bool_decide; [discriminate Hv|]).
  rewrite (bind_Ok _ _ _ _ _ _ update_booking). cbv beta iota. fold w1 updated.
  erewrite (bind_Ok (res_json _)) by reflexivity.
  destruct (store_fault env TNotification) eqn:Hn.
  - destruct (notifyBookingStatusChange_fault env updated target w1 Hn Htarget)
      as (e & t & -> & Hr & Hbc & Hse).
    exists (t ++ [ConsoleError "Failed to send booking status notification:"]).
    split; [done|]. split; [done|].
    unfold responses, socket_emits, broadcasts in *.
    by rewrite !omap_app, Hr, Hbc, Hse.
  - destruct (notifyBookingStatusChange_ok env updated target w1 row Hn Hrow)
      as (t & -> & Hr & Hbc & Hse).
    exists (pushed env row ++ t).
    split; [done|]. split; [done|].
    unfold responses, socket_emits, broadcasts in *.
    rewrite !omap_app, Hr, Hbc, Hse, !app_nil_r.
    unfold pushed. by destruct (io env).
Qed.

End patch_status.

(** ** lib/socket.ts *)

Lemma emitted_to_app room t1 t2 :
  emitted_to room (t1 ++ t2) = emitted_to room t1 ++ emitted_to room t2.
Proof. apply omap_app. Qed.

Lemma silent_emitted_to room t : broadcasts t = [] → emitted_to room t = [].
Proof.
  unfold broadcasts, emitted_to. induction t as [|[] t IH]; simpl; try done.
Qed.

Lemma booking_room_not_user_room bookingId userId :
  socket.user_room userId ≠ socket.booking_room bookingId.
Proof. done. Qed.

Lemma emitted_to_pushed env row bookingId :
  emitted_to (socket.booking_room bookingId) (pushed env row) = [].
Proof.
  unfold pushed, emitted_to. destruct (io env); [|done].
  cbn [omap list_omap]. by rewrite decide_False by apply booking_room_not_user_room.
Qed.

(** The message-received dispatch, as send_message starts it: it returns
    whatever happens, writes at most a ledger row and reaches only the
    recipient's own room. *)
Lemma notifyMessageReceived_outcome env message recipientId s w :
  ∃ w' t,
    try_catch (notifyMessageReceived env message recipientId ;;; ret tt)
      (λ _, console_error s) w = mkOutcome (Ok tt) w' t
    ∧ messages (db w') = messages (db w)
    ∧ bookings (db w') = bookings (db w)
    ∧ responses t = [] ∧ socket_emits t = []
    ∧ ∀ bookingId, emitted_to (socket.booking_room bookingId) t = [].
Proof.
  set (text := "You have a new message in booking #"
               +:+ slice_0_8 (Message.bookingId (msg message))).
  set (params :=
         mkParams recipientId MESSAGE_RECEIVED "New Message" text
           (Some "/bookings") (Some (Message.bookingId (msg message)))
           (Some (Message.id (msg message)))).
  destruct (store_fault env TNotification) eqn:Hn.
  - destruct (createNotification_fault env params w Hn) as [e He].
    exists w. eexists.
    erewrite try_catch_Throw
      by (apply bind_Throw; unfold notifyMessageReceived; by apply bind_Throw).
    split; [reflexivity|]. done.
  - pose proof (createNotification_ok env params w Hn) as Hc. simpl in Hc.
    set (row := notification_row params (db w)) in *.
    destruct (try_catch_returns
                (sendEmailNotification env recipientId message_received
                   (mkEmailData "New Message" text (Some "/bookings")
                      (Some (Message.bookingId (msg message))) None None None None))
                (λ _, console_error "Failed to send email notification:")
                (with_notification row w)) as (t & Hm & Hr & Hbc & Hse).
    { apply sendEmailNotification_harmless. }
    { by eexists. }
    assert (notifyMessageReceived env message recipientId w
            = mkOutcome (Ok row) (with_notification row w) (pushed env row ++ t))
      as Hnotify.
    { unfold notifyMessageReceived. fold text params.
      rewrite (bind_Ok _ _ _ _ _ _ Hc). cbv beta.
      rewrite (bind_Ok _ _ _ _ _ _ Hm). unfold prepend, ret. simpl.
      by rewrite app_nil_r. }
    exists (with_notification row w), (pushed env row ++ t).
    split.
    { apply try_catch_Ok.
      rewrite (bind_Ok _ _ _ _ _ _ Hnotify). unfold prepend, ret. simpl.
      by rewrite app_nil_r. }
    repeat split; try done.
    + unfold responses. rewrite omap_app. fold (responses t). rewrite Hr.
      unfold pushed. by destruct (io env).
    + unfold socket_emits. rewrite omap_app. fold (socket_emits t). rewrite Hse.
      unfold pushed. by destruct (io env).
    + intros bookingId.
      by rewrite emitted_to_app, emitted_to_pushed, (silent_emitted_to _ _ Hbc).
Qed.

Section send_message.
Variables (env : Env) (s : socket.Socket) (bookingId : string) (body : jsstring)
          (w : World).

#[local] Abbreviation o := (socket.send_message env s bookingId body w).

(** Without the store the send fails as a whole. *)
Lemma send_message_unreachable :
  store_fault env TBooking = true →
  world o = w ∧ broadcasts (trace o) = [] ∧
  socket_emits (trace o) = [(socket.socket_id s, "error", PError "Failed to send message")].
Proof.
  intros Hf. unfold socket.send_message. cbv zeta.
  destruct (prisma_fault env TBooking (booking_findUnique bookingId) w Hf) as [e He].
  erewrite try_catch_Throw by (by apply bind_Throw).
  by erewrite bind_Ok by reflexivity.
Qed.

Lemma send_message_not_found :
  store_fault env TBooking = false →
  bookings (db w) !! bookingId = None →
  o = mkOutcome (Ok tt) w
        [SocketEmit (socket.socket_id s) "error" (PError "Booking not found")].
Proof.
  intros Hf Hb. unfold socket.send_message. cbv zeta.
  apply try_catch_Ok.
  erewrite bind_Ok
    by (apply prisma_read; [done|]; unfold booking_findUnique; by rewrite Hb).
  done.
Qed.

Lemma send_message_denied b :
  store_fault env TBooking = false →
  bookings (db w) !! bookingId = Some b →
  Booking.customerId b ≠ socket.data_userId s →
  Booking.providerId b ≠ socket.data_userId s →
  o = mkOutcome (Ok tt) w
        [SocketEmit (socket.socket_id s) "error" (PError "Access denied")].
Proof.
  intros Hf Hb Hc Hp. unfold socket.send_message. cbv zeta.
  apply try_catch_Ok.
  erewrite bind_Ok
    by (apply prisma_read; [done|]; unfold booking_findUnique; by rewrite Hb).
  cbv beta iota. by rewrite bool_decide_eq_true_2.
Qed.

(** A participant's message is stored with its body trimmed and goes to
    the booking room, whatever is left of the body. *)
Lemma send_message_delivers :
  store_fault env TBooking = false →
  store_fault env TMessage = false →
  io env = true →
  participant (db w) bookingId (socket.data_userId s) →
  let row := socket.message_row bookingId (trim body) (socket.data_userId s) (db w) in
  result o = Ok tt
  ∧ messages (db (world o)) = messages (db w) ++ [row]
  ∧ emitted_to (socket.booking_room bookingId) (trace o)
    = [("new_message",
        PNewMessage (mkMessageWithSender row (users (db w) !! socket.data_userId s)))]
  ∧ socket_emits (trace o) = [].
Proof.
  intros Hf Hm Hio (b & Hb & Hpart) row.
  unfold socket.send_message. cbv zeta.
  set (w1 := mkWorld (add_message row (db w)) (rooms w)).
  destruct (notifyMessageReceived_outcome env
              (mkMessageWithSender row (users (db w) !! socket.data_userId s))
              (if decide (Booking.customerId b = socket.data_userId s)
               then Booking.providerId b else Booking.customerId b)
              "Failed to send message notification:" w1)
    as (w' & t & Hn & Hmsgs & _ & Hr & Hse & Hroom).
  erewrite try_catch_Ok; cycle 1.
  { erewrite bind_Ok
      by (apply prisma_read; [done|]; unfold booking_findUnique; by rewrite Hb).
    cbv beta iota. rewrite bool_decide_eq_false_2 by (intros [? ?]; by destruct Hpart).
    erewrite bind_Ok by (by apply prisma_ok).
    cbv beta. unfold socket.io_to_emit. rewrite Hio.
    erewrite bind_Ok by reflexivity.
    fold row. fold w1. rewrite Hn. reflexivity. }
  simpl. rewrite Hmsgs. split; [done|]. split; [done|].
  rewrite decide_True by done. by rewrite Hroom, Hse.
Qed.

End send_message.

Section join_booking.
Variables (env : Env) (s : socket.Socket) (bookingId : string) (w : World).

(** A join that is not allowed does nothing at all, whether the booking
    is missing or belongs to others. *)
Lemma join_booking_silent :
  store_fault env TBooking = false →
  ¬ participant (db w) bookingId (socket.data_userId s) →
  socket.join_booking env s bookingId w = mkOutcome (Ok tt) w [].
Proof.
  intros Hf Hn. unfold socket.join_booking.
  apply try_catch_Ok.
  erewrite bind_Ok by (by apply prisma_read).
  destruct (bookings (db w) !! bookingId) as [b|] eqn:Hb; [|done].
  cbv beta iota. rewrite bool_decide_eq_false_2; [done|].
  intros Hp. apply Hn. by exists b.
Qed.

Lemma join_booking_joins b :
  store_fault env TBooking = false →
  bookings (db w) !! bookingId = Some b →
  Booking.customerId b = socket.data_userId s ∨
  Booking.providerId b = socket.data_userId s →
  (socket.socket_id s, socket.booking_room bookingId)
    ∈ rooms (world (socket.join_booking env s bookingId w)).
Proof.
  intros Hf Hb Hp. unfold socket.join_booking.
  erewrite try_catch_Ok; cycle 1.
  { erewrite bind_Ok
      by (apply prisma_read; [done|]; unfold booking_findUnique; by rewrite Hb).
    cbv beta iota. rewrite bool_decide_eq_true_2 by done.
    erewrite bind_Ok by reflexivity. reflexivity. }
  simpl. apply elem_of_union. left. by apply elem_of_singleton.
Qed.

End join_booking.

(** ** routes/notifications.ts: the listing *)

Section findMany.
Variables (wh : notificationsRouter.Where) (n : nat) (d : Db).

#[local] Abbreviation sorted := (notificationsRouter.matching_sorted wh d).
#[local] Abbreviation page := (take n sorted).

Lemma findMany_page :
  notificationsRouter.notification_findMany wh n d = Some (page, d).
Proof. done. Qed.

Lemma page_length : (length page ≤ n)%nat.
Proof. rewrite length_take. lia. Qed.

(** The page is as long as [take] allows: [n] rows, or every matching row
    when there are fewer. *)
Lemma page_length_exact :
  length page
  = (n `min` length (filter (notificationsRouter.matches wh) (notifications d)))%nat.
Proof.
  rewrite length_take. unfold notificationsRouter.matching_sorted.
  by rewrite merge_sort_Permutation.
Qed.

(** No row is listed more often than the table holds it. *)
Lemma page_submseteq :
  page ⊆+ filter (notificationsRouter.matches wh) (notifications d).
Proof.
  transitivity (notificationsRouter.matching_sorted wh d).
  - apply sublist_submseteq, sublist_take.
  - unfold notificationsRouter.matching_sorted. by rewrite merge_sort_Permutation.
Qed.

Lemma sorted_elem x :
  x ∈ sorted ↔ notificationsRouter.matches wh x ∧ x ∈ notifications d.
Proof.
  unfold notificationsRouter.matching_sorted. rewrite merge_sort_Permutation. apply list_elem_of_filter.
Qed.

Lemma page_elem x :
  x ∈ page → notificationsRouter.matches wh x ∧ x ∈ notifications d.
Proof. intros Hx. apply sorted_elem. by eapply subseteq_take. Qed.

Lemma page_sorted : StronglySorted notificationsRouter.createdAt_desc page.
Proof.
  eapply StronglySorted_app_1_l.
  rewrite take_drop. apply StronglySorted_merge_sort; apply _.
Qed.

(** What the page leaves out is no newer than what it holds. *)
Lemma page_newest x y :
  x ∈ page → y ∈ drop n sorted → notificationsRouter.createdAt_desc x y.
Proof.
  intros Hx Hy.
  eapply (StronglySorted_app_1_elem_of _ (take n sorted) (drop n sorted)); [|done..].
  rewrite take_drop. apply StronglySorted_merge_sort; apply _.
Qed.

(** With no more than [n] matching rows the page holds them all. *)
Lemma page_complete x :
  (length (filter (notificationsRouter.matches wh) (notifications d)) ≤ n)%nat →
  notificationsRouter.matches wh x → x ∈ notifications d → x ∈ page.
Proof.
  intros Hlen Hm Hx. rewrite take_ge.
  - by apply sorted_elem.
  - unfold notificationsRouter.matching_sorted. by rewrite merge_sort_Permutation.
Qed.

End findMany.

(** The [where] clause that the handler builds, as a predicate on rows. *)
Lemma where_filter uid (unreadOnly : option string) (l : list Notification.t) :
  filter (notificationsRouter.matches
            (if decide (unreadOnly = Some "true")
             then notificationsRouter.mkWhere uid (Some false)
             else notificationsRouter.mkWhere uid None)) l
  = filter (λ n, Notification.userId n = uid
                 ∧ (unreadOnly = Some "true" → Notification.read n = false)) l.
Proof.
  apply list_filter_iff. intros n. unfold notificationsRouter.matches.
  destruct (decide _) as [Hq|Hq]; simpl; intuition.
Qed.

(** ** The booking state machine *)

Lemma status_of_unchanged w id b :
  bookings (db w) !! id = Some b → status_of (db w) id = Some (Booking.status b).
Proof. intros H. unfold status_of. by rewrite H. Qed.

(** The customer's guard lets a request through as soon as one of its two
    tests fails: the owner of a booking may cancel it in any state. *)
Lemma customer_cancel_unguarded uid b :
  Booking.customerId b = uid → transition_error CUSTOMER uid b CANCELLED = None.
Proof.
  intros H. unfold transition_error.
  repeat (rewrite bool_decide_eq_false_2; [|intros ?; destruct_and?; congruence]).
  done.
Qed.

(** ... and may ask for any status while the booking is pending. *)
Lemma customer_pending_unguarded uid b target :
  Booking.customerId b = uid → Booking.status b = PENDING →
  transition_error CUSTOMER uid b target = None.
Proof.
  intros H Hs. unfold transition_error.
  repeat (rewrite bool_decide_eq_false_2; [|intros ?; destruct_and?; congruence]).
  done.
Qed.

(** No guard names the ADMIN role. *)
Lemma admin_unguarded uid b target : transition_error ADMIN uid b target = None.
Proof.
  unfold transition_error.
  repeat (rewrite bool_decide_eq_false_2; [|intros ?; destruct_and?; congruence]).
  done.
Qed.

(** C1, as the specification states it, fails: an administrator's request
    through the customer-facing endpoint completes a pending booking. *)
Lemma pending_completed_by_admin :
  ¬ (∀ env id uid role q w b,
       bookings (db w) !! id = Some b →
       Booking.status b = PENDING →
       let o := bookingsRouter.patch_status env (mkRequest id uid role "COMPLETED" q) w in
       status_of (db (world o)) id = Some PENDING
       ∧ ∃ code message details,
           responses (trace o) = [(code, BodyError message details)]).
Proof.
  intros H.
  destruct (H Demo.env "b1" "root" ADMIN None (Demo.world PENDING)
              (Demo.booking PENDING) eq_refl eq_refl) as [Hs _].
  vm_compute in Hs. discriminate Hs.
Qed.

(** C1 (amended): for a pending booking, a request for COMPLETED from a
    provider, or from a customer who does not own the booking, is turned
    down with 400 or 403 and the stored status stays PENDING. *)
Theorem pending_not_completed_by_provider env id uid role q w b :
  id ≠ EmptyString →
  store_fault env TBooking = false →
  bookings (db w) !! id = Some b →
  Booking.status b = PENDING →
  role = PROVIDER ∨ (role = CUSTOMER ∧ Booking.customerId b ≠ uid) →
  let o := bookingsRouter.patch_status env (mkRequest id uid role "COMPLETED" q) w in
  result o = Ok tt
  ∧ world o = w
  ∧ status_of (db (world o)) id = Some PENDING
  ∧ ∃ code message,
      responses (trace o) = [(code, BodyError message false)]
      ∧ (code = 400 ∨ code = 403)%nat.
Proof.
  intros Hid Hf Hb Hs Hrole o.
  assert (∃ code message,
            transition_error role uid b COMPLETED = Some (code, message)
            ∧ (code = 400 ∨ code = 403)%nat) as (code & message & Hv & Hcode).
  { unfold transition_error. rewrite Hs.
    destruct Hrole as [-> | [-> Hne]].
    - case_bool_decide; [by eexists _, _; split; [|right]|].
      rewrite bool_decide_eq_false_2 by (intros [? _]; done).
      rewrite bool_decide_eq_true_2 by done.
      eexists _, _; split; [done|by left].
    - rewrite bool_decide_eq_false_2 by (intros [? _]; done).
      rewrite bool_decide_eq_true_2 by done.
      eexists _, _; split; [done|by right]. }
  destruct (patch_status_rejects env id uid role COMPLETED q w b Hid
              ltac:(done) Hf Hb code message Hv) as (t & Ho & Hr & _).
  subst o. simpl in Ho. rewrite Ho. simpl.
  split; [done|]. split; [done|]. split.
  - rewrite (status_of_unchanged _ _ _ Hb). by rewrite Hs.
  - by exists code, message.
Qed.

Lemma pending_not_completed_by_provider_witness :
  let o := bookingsRouter.patch_status Demo.env
             (mkRequest "b1" "bob" PROVIDER "COMPLETED" None) (Demo.world PENDING) in
  result o = Ok tt
  ∧ world o = Demo.world PENDING
  ∧ status_of (db (world o)) "b1" = Some PENDING
  ∧ ∃ code message,
      responses (trace o) = [(code, BodyError message false)]
      ∧ (code = 400 ∨ code = 403)%nat.
Proof.
  apply (pending_not_completed_by_provider Demo.env "b1" "bob" PROVIDER None
           (Demo.world PENDING) (Demo.booking PENDING)).
  - discriminate.
  - reflexivity.
  - reflexivity.
  - reflexivity.
  - left. reflexivity.
Defined.

(** C2: the code lets the owner cancel a booking that is no longer
    pending; here an accepted one, answered with 200. *)
Lemma customer_cancels_accepted_booking :
  let o := bookingsRouter.patch_status Demo.env
             (mkRequest "b1" "alice" CUSTOMER "CANCELLED" None) (Demo.world ACCEPTED) in
  status_of (db (world o)) "b1" = Some CANCELLED
  ∧ ∃ updated, responses (trace o) = [(200%nat, BodyBooking updated)].
Proof. vm_compute. split; [done|]. by eexists. Qed.

(** The same guard lets the owner complete a booking that was never
    accepted. *)
Lemma customer_completes_pending_booking :
  let o := bookingsRouter.patch_status Demo.env
             (mkRequest "b1" "alice" CUSTOMER "COMPLETED" None) (Demo.world PENDING) in
  status_of (db (world o)) "b1" = Some COMPLETED
  ∧ ∃ updated, responses (trace o) = [(200%nat, BodyBooking updated)].
Proof. vm_compute. split; [done|]. by eexists. Qed.

(** The administrator's own endpoint writes any status over any other. *)
Lemma admin_endpoint_completes_pending_booking :
  let o := adminRouter.patch_booking_status Demo.env
             (mkRequest "b1" "root" ADMIN "COMPLETED" None) (Demo.world PENDING) in
  status_of (db (world o)) "b1" = Some COMPLETED
  ∧ ∃ updated, responses (trace o) = [(200%nat, BodyBooking updated)].
Proof. vm_compute. split; [done|]. by eexists. Qed.

(** C3, as the specification states it, fails: an administrator who is no
    party to the booking is not answered with Forbidden, and the status
    changes. *)
Lemma admin_stranger_not_forbidden :
  ¬ (∀ env id uid role target q w b,
       id ≠ EmptyString → target ≠ PENDING →
       store_fault env TBooking = false →
       bookings (db w) !! id = Some b →
       Booking.customerId b ≠ uid → Booking.providerId b ≠ uid →
       let o := bookingsRouter.patch_status env
                  (mkRequest id uid role (status_name target) q) w in
       responses (trace o) = [(403%nat, BodyError "Access denied" false)]
       ∧ status_of (db (world o)) id = Some (Booking.status b)).
Proof.
  intros H.
  destruct (H Demo.env "b1" "root" ADMIN DECLINED None (Demo.world PENDING)
              (Demo.booking PENDING)) as [Hr _];
    [discriminate | discriminate | reflexivity | reflexivity
    | discriminate | discriminate |].
  vm_compute in Hr. discriminate Hr.
Qed.

(** C3 (amended): an actor whose role is CUSTOMER or PROVIDER and who is
    neither the customer nor the provider of the booking is answered with
    403 and nothing is written; the ADMIN role is not gated. *)
Theorem stranger_forbidden env id uid role target q w b :
  id ≠ EmptyString → target ≠ PENDING →
  store_fault env TBooking = false →
  bookings (db w) !! id = Some b →
  role ≠ ADMIN →
  Booking.customerId b ≠ uid → Booking.providerId b ≠ uid →
  let o := bookingsRouter.patch_status env
             (mkRequest id uid role (status_name target) q) w in
  result o = Ok tt
  ∧ world o = w
  ∧ responses (trace o) = [(403%nat, BodyError "Access denied" false)]
  ∧ status_of (db (world o)) id = Some (Booking.status b).
Proof.
  intros Hid Ht Hf Hb Hrole Hc Hp o.
  assert (transition_error role uid b target = Some (403%nat, "Access denied")) as Hv.
  { unfold transition_error. destruct role; [| |done].
    - rewrite bool_decide_eq_false_2 by (intros [? _]; done).
      by rewrite bool_decide_eq_true_2.
    - by rewrite bool_decide_eq_true_2. }
  destruct (patch_status_rejects env id uid role target q w b Hid Ht Hf Hb _ _ Hv)
    as (t & Ho & Hr & _).
  subst o. rewrite Ho. simpl.
  by rewrite (status_of_unchanged _ _ _ Hb).
Qed.

Lemma stranger_forbidden_witness :
  let o := bookingsRouter.patch_status Demo.env
             (mkRequest "b1" "carol" CUSTOMER (status_name CANCELLED) None)
             (Demo.world PENDING) in
  result o = Ok tt
  ∧ world o = Demo.world PENDING
  ∧ responses (trace o) = [(403%nat, BodyError "Access denied" false)]
  ∧ status_of (db (world o)) "b1" = Some (Booking.status (Demo.booking PENDING)).
Proof.
  apply (stranger_forbidden Demo.env "b1" "carol" CUSTOMER CANCELLED None
           (Demo.world PENDING) (Demo.booking PENDING));
    first [discriminate | reflexivity].
Defined.

(** ** Who is told about a status change *)

(** C4, as the specification states it, fails: when the customer cancels,
    the row is addressed to the customer, who is the actor, and not to the
    provider. *)
Lemma cancel_notifies_the_actor :
  ¬ (∀ env id uid role target q w b,
       id ≠ EmptyString → target ≠ PENDING →
       store_fault env TBooking = false →
       store_fault env TNotification = false →
       bookings (db w) !! id = Some b →
       Booking.customerId b = uid ∨ Booking.providerId b = uid →
       let o := bookingsRouter.patch_status env
                  (mkRequest id uid role (status_name target) q) w in
       (∃ updated, responses (trace o) = [(200%nat, BodyBooking updated)]) →
       ∃ n, notifications (db (world o)) = notifications (db w) ++ [n]
          ∧ Notification.userId n = counterparty b uid).
Proof.
  intros H.
  destruct (H Demo.env "b1" "alice" CUSTOMER CANCELLED None (Demo.world PENDING)
              (Demo.booking PENDING)) as (n & Hn & Hto);
    [discriminate | discriminate | reflexivity | reflexivity | reflexivity
    | by left | by eexists |].
  vm_compute in Hn. injection Hn as <-.
  vm_compute in Hto. discriminate Hto.
Qed.

(** C4 (amended): a status change that went through writes exactly one
    row, addressed to the customer of the booking whoever the actor was;
    that is the actor's counterparty when the provider acted. *)
Theorem status_change_notifies_customer env id uid role target q w b :
  id ≠ EmptyString → target ≠ PENDING →
  store_fault env TBooking = false →
  store_fault env TNotification = false →
  bookings (db w) !! id = Some b →
  let o := bookingsRouter.patch_status env
             (mkRequest id uid role (status_name target) q) w in
  (∃ updated, responses (trace o) = [(200%nat, BodyBooking updated)]) →
  ∃ n, notifications (db (world o)) = notifications (db w) ++ [n]
     ∧ Notification.userId n = Booking.customerId b
     ∧ Notification.type n = notificationType_of target
     ∧ Notification.bookingId n = Some (Booking.id b)
     ∧ (uid = Booking.providerId b → Notification.userId n = counterparty b uid).
Proof.
  intros Hid Ht Hf Hn Hb o [updated Hresp].
  destruct (transition_error role uid b target) as [[code message]|] eqn:Hv.
  { destruct (patch_status_rejects env id uid role target q w b Hid Ht Hf Hb _ _ Hv)
      as (t & Ho & Hr & _).
    subst o. rewrite Ho in Hresp. simpl in Hresp. congruence. }
  destruct (patch_status_applies env id uid role target q w b Hid Ht Hf Hb Hv)
    as (row & t & Hrow & Ho & _).
  rewrite Hn in Ho. subst o. rewrite Ho. simpl.
  apply status_row_recipient in Hrow as (Hto & Hty & Hbk & _). simpl in *.
  exists row. repeat split; try done.
  intros ->. unfold counterparty. by rewrite decide_True.
Qed.

Lemma status_change_notifies_customer_witness :
  let o := bookingsRouter.patch_status Demo.env
             (mkRequest "b1" "bob" PROVIDER (status_name ACCEPTED) None)
             (Demo.world PENDING) in
  ∃ n, notifications (db (world o)) = notifications (db (Demo.world PENDING)) ++ [n]
     ∧ Notification.userId n = Booking.customerId (Demo.booking PENDING)
     ∧ Notification.type n = notificationType_of ACCEPTED
     ∧ Notification.bookingId n = Some (Booking.id (Demo.booking PENDING))
     ∧ ("bob" = Booking.providerId (Demo.booking PENDING) →
        Notification.userId n = counterparty (Demo.booking PENDING) "bob").
Proof.
  apply (status_change_notifies_customer Demo.env "b1" "bob" PROVIDER ACCEPTED None
           (Demo.world PENDING) (Demo.booking PENDING)).
  - discriminate.
  - discriminate.
  - reflexivity.
  - reflexivity.
  - reflexivity.
  - eexists. vm_compute. reflexivity.
Defined.

(** ** The mail step *)

(** C7: whatever the mail configuration, the transporter and the address
    book do, sendEmailNotification returns normally, leaves the store
    as it found it and reaches no client; and a status-change dispatch
    with a reachable ledger returns with its row written and the bookings
    untouched. *)
Theorem email_failure_is_contained :
  (∀ env userId type data w,
     let o := sendEmailNotification env userId type data w in
     result o = Ok tt ∧ world o = w ∧ silent (trace o))
  ∧ (∀ env booking status w row,
       store_fault env TNotification = false →
       status_row booking status (db w) = Some row →
       let o := notifyBookingStatusChange env booking status w in
       result o = Ok tt
       ∧ bookings (db (world o)) = bookings (db w)
       ∧ notifications (db (world o)) = notifications (db w) ++ [row]
       ∧ responses (trace o) = []).
Proof.
  split.
  - intros env userId type data w o.
    destruct (sendEmailNotification_outcome env userId type data w) as (t & Ho & Ht).
    subst o. by rewrite Ho.
  - intros env booking status w row Hn Hrow o.
    destruct (notifyBookingStatusChange_ok env booking status w row Hn Hrow)
      as (t & Ho & Hr & _).
    subst o. rewrite Ho. simpl. repeat split; try done.
    unfold responses in *. rewrite omap_app, Hr.
    unfold pushed. by destruct (io env).
Qed.

Lemma email_failure_is_contained_witness :
  let w := Demo.world ACCEPTED in
  let booking := booking_include (db w) (Demo.booking ACCEPTED) in
  ∃ row,
    status_row booking ACCEPTED (db w) = Some row ∧
    let o := notifyBookingStatusChange Demo.env booking ACCEPTED w in
    result o = Ok tt
    ∧ bookings (db (world o)) = bookings (db w)
    ∧ notifications (db (world o)) = notifications (db w) ++ [row]
    ∧ responses (trace o) = [].
Proof.
  intros w booking. eexists. split.
  - reflexivity.
  - apply (proj2 email_failure_is_contained Demo.env booking ACCEPTED w).
    + reflexivity.
    + reflexivity.
Defined.

(** The three ways the mail step fails send nothing. *)
Lemma email_disabled_sends_nothing env userId type data w :
  EMAIL_ENABLED env = false ∨ transporter env = None →
  sendEmailNotification env userId type data w = mkOutcome (Ok tt) w [].
Proof.
  intros H. unfold sendEmailNotification.
  by destruct H as [-> | ->]; [|destruct (EMAIL_ENABLED env)].
Qed.

(** ** A repeated transition *)

(** C8: the provider's ACCEPTED on a pending booking is applied and
    answered with the updated booking; the same request again is answered
    with 400 and writes nothing. *)
Theorem second_accept_is_rejected env id uid q w b :
  id ≠ EmptyString →
  store_fault env TBooking = false →
  bookings (db w) !! id = Some b →
  Booking.status b = PENDING →
  Booking.providerId b = uid →
  let req := mkRequest id uid PROVIDER "ACCEPTED" q in
  let o1 := bookingsRouter.patch_status env req w in
  let o2 := bookingsRouter.patch_status env req (world o1) in
  (∃ updated, responses (trace o1) = [(200%nat, BodyBooking updated)]
            ∧ Booking.status (bk updated) = ACCEPTED)
  ∧ status_of (db (world o1)) id = Some ACCEPTED
  ∧ responses (trace o2)
    = [(400%nat, BodyError "Can only accept or decline pending bookings" false)]
  ∧ world o2 = world o1.
Proof.
  intros Hid Hf Hb Hs Hp req o1 o2.
  assert (transition_error PROVIDER uid b ACCEPTED = None) as Hv1.
  { unfold transition_error. rewrite Hs.
    repeat (rewrite bool_decide_eq_false_2;
            [|intros ?; destruct_and?; first [congruence | set_solver]]).
    done. }
  destruct (patch_status_applies env id uid PROVIDER ACCEPTED q w b Hid
              ltac:(done) Hf Hb Hv1) as (row & t & _ & Ho1 & Hr & _).
  simpl in Ho1. fold req o1 in Ho1.
  set (b' := Booking.with_status ACCEPTED b) in *.
  assert (bookings (db (world o1)) !! id = Some b') as Hb'.
  { rewrite Ho1. simpl. destruct (store_fault env TNotification); simpl;
      apply lookup_insert_eq. }
  assert (transition_error PROVIDER uid b' ACCEPTED
          = Some (400%nat, "Can only accept or decline pending bookings")) as Hv2.
  { unfold transition_error. simpl.
    by rewrite bool_decide_eq_false_2 by (intros [_ ?]; done). }
  destruct (patch_status_rejects env id uid PROVIDER ACCEPTED q (world o1) b' Hid
              ltac:(done) Hf Hb' _ _ Hv2) as (t2 & Ho2 & Hr2 & _).
  simpl in Ho2. fold req o2 in Ho2.
  split; [|split; [|split]].
  - rewrite Ho1. simpl. rewrite Hr. by eexists.
  - unfold status_of. by rewrite Hb'.
  - by rewrite Ho2.
  - by rewrite Ho2.
Qed.

Lemma second_accept_is_rejected_witness :
  let req := mkRequest "b1" "bob" PROVIDER "ACCEPTED" None in
  let o1 := bookingsRouter.patch_status Demo.env req (Demo.world PENDING) in
  let o2 := bookingsRouter.patch_status Demo.env req (world o1) in
  (∃ updated, responses (trace o1) = [(200%nat, BodyBooking updated)]
            ∧ Booking.status (bk updated) = ACCEPTED)
  ∧ status_of (db (world o1)) "b1" = Some ACCEPTED
  ∧ responses (trace o2)
    = [(400%nat, BodyError "Can only accept or decline pending bookings" false)]
  ∧ world o2 = world o1.
Proof.
  apply (second_accept_is_rejected Demo.env "b1" "bob" None (Demo.world PENDING)
           (Demo.booking PENDING)).
  - discriminate.
  - reflexivity.
  - reflexivity.
  - reflexivity.
  - reflexivity.
Defined.

(** The deployment's transporter refuses every mail: the provider's
    ACCEPTED still goes through, its row is written, and the failure shows
    only on the console. *)
Lemma accept_with_failing_transporter :
  let o := bookingsRouter.patch_status Demo.env
             (mkRequest "b1" "bob" PROVIDER "ACCEPTED" None) (Demo.world PENDING) in
  result o = Ok tt
  ∧ status_of (db (world o)) "b1" = Some ACCEPTED
  ∧ Notification.userId <$> notifications (db (world o)) = ["alice"]
  ∧ mails (trace o) = []
  ∧ ConsoleError "Failed to send email:" ∈ trace o.
Proof.
  vm_compute. repeat split.
  do 2 apply list_elem_of_further. apply list_elem_of_here.
Qed.

(** ** String.prototype.trim *)

Lemma trimStart_blank s : Forall (λ c, isWhiteSpace c = true) s → trimStart s = [].
Proof. induction 1 as [|c s Hc _ IH]; simpl; [done|]. by rewrite Hc. Qed.

Lemma trimStart_head s c s' : trimStart s = c :: s' → isWhiteSpace c = false.
Proof.
  induction s as [|d s IH]; simpl; [done|].
  destruct (isWhiteSpace d) eqn:Hd; [done|]. by intros [= <- _].
Qed.

Lemma trimStart_snoc s c :
  isWhiteSpace c = false → trimStart (s ++ [c]) = trimStart s ++ [c].
Proof.
  intros Hc. induction s as [|d s IH]; simpl.
  - by rewrite Hc.
  - by destruct (isWhiteSpace d).
Qed.

Lemma trimStart_id c s : isWhiteSpace c = false → trimStart (c :: s) = c :: s.
Proof. intros Hc. simpl. by rewrite Hc. Qed.

(** A body of white space alone is trimmed to the empty string. *)
Lemma trim_blank s : Forall (λ c, isWhiteSpace c = true) s → trim s = [].
Proof. intros H. unfold trim, trimEnd. by rewrite (trimStart_blank s H). Qed.

(** What is left after trimming neither starts nor ends with white space. *)
Lemma trim_head s c s' : trim s = c :: s' → isWhiteSpace c = false.
Proof.
  unfold trim, trimEnd. destruct (trimStart s) as [|d r] eqn:Hs; [done|].
  pose proof (trimStart_head _ _ _ Hs) as Hd.
  rewrite reverse_cons, (trimStart_snoc _ _ Hd), reverse_app. simpl.
  by intros [= <- _].
Qed.

Lemma trim_last s c : last (trim s) = Some c → isWhiteSpace c = false.
Proof.
  unfold trim, trimEnd. rewrite last_reverse.
  destruct (trimStart (reverse (trimStart s))) as [|d r] eqn:Hs; [done|].
  simpl. intros [= <-]. by eapply trimStart_head.
Qed.

Lemma trim_example :
  trim [0x20; 0x09; 0x68; 0x20; 0x69; 0xA0; 0x0A]%N = [0x68; 0x20; 0x69]%N.
Proof. reflexivity. Qed.

(** ** Chat messages *)

Lemma alice_is_participant status :
  participant (db (Demo.world status)) "b1" "alice".
Proof. exists (Demo.booking status). split; [reflexivity | by left]. Qed.

Lemma carol_is_no_participant status :
  ¬ participant (db (Demo.world status)) "b1" "carol".
Proof.
  intros (b & Hb & Hp). vm_compute in Hb. injection Hb as <-.
  destruct Hp as [Hp | Hp]; discriminate Hp.
Qed.

(** C5, as the specification states it, fails: a body of a space and a
    tab is trimmed to nothing, and the empty message is stored and sent to
    the booking room. *)
Lemma blank_message_is_stored :
  ¬ (∀ env s bookingId body w,
       store_fault env TBooking = false →
       store_fault env TMessage = false →
       io env = true →
       participant (db w) bookingId (socket.data_userId s) →
       trim body = [] →
       let o := socket.send_message env s bookingId body w in
       messages (db (world o)) = messages (db w)
       ∧ emitted_to (socket.booking_room bookingId) (trace o) = []).
Proof.
  intros H.
  destruct (H Demo.env (Demo.socket_of Demo.alice 1) "b1" [0x20; 0x09]%N
              (Demo.world ACCEPTED)) as [Hm _];
    [reflexivity | reflexivity | reflexivity | apply alice_is_participant
    | reflexivity |].
  vm_compute in Hm. discriminate Hm.
Qed.

(** C5 (amended): a participant's message is stored with its body trimmed
    and is sent to the booking room, also when nothing is left of the
    body; no error goes back to the sender. *)
Theorem send_message_trims_and_delivers env s bookingId body w :
  store_fault env TBooking = false →
  store_fault env TMessage = false →
  io env = true →
  participant (db w) bookingId (socket.data_userId s) →
  let o := socket.send_message env s bookingId body w in
  ∃ row,
    messages (db (world o)) = messages (db w) ++ [row]
    ∧ Message.body row = trim body
    ∧ Message.senderId row = socket.data_userId s
    ∧ Message.bookingId row = bookingId
    ∧ emitted_to (socket.booking_room bookingId) (trace o)
      = [("new_message",
          PNewMessage (mkMessageWithSender row
                         (users (db w) !! socket.data_userId s)))]
    ∧ socket_emits (trace o) = [].
Proof.
  intros Hf Hm Hio Hp o.
  destruct (send_message_delivers env s bookingId body w Hf Hm Hio Hp)
    as (_ & Hmsgs & Hroom & Hse).
  by exists (socket.message_row bookingId (trim body) (socket.data_userId s) (db w)).
Qed.

Lemma send_message_trims_and_delivers_witness :
  let o := socket.send_message Demo.env (Demo.socket_of Demo.alice 1) "b1"
             [0x20; 0x68; 0x69; 0x0A]%N (Demo.world ACCEPTED) in
  ∃ row,
    messages (db (world o)) = messages (db (Demo.world ACCEPTED)) ++ [row]
    ∧ Message.body row = trim [0x20; 0x68; 0x69; 0x0A]%N
    ∧ Message.senderId row = "alice"
    ∧ Message.bookingId row = "b1"
    ∧ emitted_to (socket.booking_room "b1") (trace o)
      = [("new_message",
          PNewMessage (mkMessageWithSender row
                         (users (db (Demo.world ACCEPTED)) !! "alice")))]
    ∧ socket_emits (trace o) = [].
Proof.
  apply (send_message_trims_and_delivers Demo.env (Demo.socket_of Demo.alice 1) "b1"
           [0x20; 0x68; 0x69; 0x0A]%N (Demo.world ACCEPTED)).
  - reflexivity.
  - reflexivity.
  - reflexivity.
  - exists (Demo.booking ACCEPTED). split; [reflexivity | left; reflexivity].
Defined.

(** C6: a message from a user who is neither the customer nor the
    provider of the booking is refused with an error to the sender; the
    store is as before and nothing goes to any room. *)
Theorem stranger_cannot_send env s bookingId body w :
  ¬ participant (db w) bookingId (socket.data_userId s) →
  let o := socket.send_message env s bookingId body w in
  world o = w
  ∧ messages (db (world o)) = messages (db w)
  ∧ broadcasts (trace o) = []
  ∧ emitted_to (socket.booking_room bookingId) (trace o) = []
  ∧ ∃ message,
      socket_emits (trace o) = [(socket.socket_id s, "error", PError message)].
Proof.
  intros Hn o.
  assert (world o = w ∧ broadcasts (trace o) = [] ∧
          ∃ message,
            socket_emits (trace o) = [(socket.socket_id s, "error", PError message)])
    as (Hw & Hb & He).
  { destruct (store_fault env TBooking) eqn:Hf.
    - destruct (send_message_unreachable env s bookingId body w Hf) as (? & ? & ?).
      eauto.
    - destruct (bookings (db w) !! bookingId) as [b|] eqn:Hb.
      + subst o. rewrite (send_message_denied env s bookingId body w b Hf Hb).
        * simpl. eauto.
        * intros Hc. apply Hn. exists b. auto.
        * intros Hp. apply Hn. exists b. auto.
      + subst o. rewrite (send_message_not_found env s bookingId body w Hf Hb).
        simpl. eauto. }
  rewrite Hw. repeat split; try done. by apply silent_emitted_to.
Qed.

Lemma stranger_cannot_send_witness :
  let o := socket.send_message Demo.env (Demo.socket_of Demo.carol 2) "b1"
             [0x68; 0x69]%N (Demo.world ACCEPTED) in
  world o = Demo.world ACCEPTED
  ∧ messages (db (world o)) = messages (db (Demo.world ACCEPTED))
  ∧ broadcasts (trace o) = []
  ∧ emitted_to (socket.booking_room "b1") (trace o) = []
  ∧ ∃ message, socket_emits (trace o) = [(2%nat, "error", PError message)].
Proof.
  apply (stranger_cannot_send Demo.env (Demo.socket_of Demo.carol 2) "b1"
           [0x68; 0x69]%N (Demo.world ACCEPTED)).
  intros (b & Hb & Hp). vm_compute in Hb. injection Hb as <-.
  destruct Hp as [Hp | Hp]; discriminate Hp.
Defined.

(** C10: with the store reachable, a send for a booking that does not
    exist is answered with "Booking not found" and a send for a booking of
    others with "Access denied", two different errors; a join does
    nothing in either case. *)
Theorem send_message_tells_missing_from_denied env s bookingId body w :
  store_fault env TBooking = false →
  ¬ participant (db w) bookingId (socket.data_userId s) →
  let o := socket.send_message env s bookingId body w in
  let j := socket.join_booking env s bookingId w in
  (bookings (db w) !! bookingId = None →
   trace o = [SocketEmit (socket.socket_id s) "error" (PError "Booking not found")])
  ∧ (is_Some (bookings (db w) !! bookingId) →
     trace o = [SocketEmit (socket.socket_id s) "error" (PError "Access denied")])
  ∧ PError "Booking not found" ≠ PError "Access denied"
  ∧ j = mkOutcome (Ok tt) w [].
Proof.
  intros Hf Hn o j. split; [|split; [|split]].
  - intros Hb. subst o. by rewrite (send_message_not_found env s bookingId body w Hf Hb).
  - intros [b Hb]. subst o.
    rewrite (send_message_denied env s bookingId body w b Hf Hb); [done|..].
    + intros Hc. apply Hn. exists b. auto.
    + intros Hp. apply Hn. exists b. auto.
  - discriminate.
  - by apply join_booking_silent.
Qed.

Lemma send_message_tells_missing_from_denied_witness :
  let s := Demo.socket_of Demo.carol 2 in
  let o := socket.send_message Demo.env s "b2" [0x68; 0x69]%N (Demo.world ACCEPTED) in
  let j := socket.join_booking Demo.env s "b2" (Demo.world ACCEPTED) in
  (bookings (db (Demo.world ACCEPTED)) !! "b2" = None →
   trace o = [SocketEmit (socket.socket_id s) "error" (PError "Booking not found")])
  ∧ (is_Some (bookings (db (Demo.world ACCEPTED)) !! "b2") →
     trace o = [SocketEmit (socket.socket_id s) "error" (PError "Access denied")])
  ∧ PError "Booking not found" ≠ PError "Access denied"
  ∧ j = mkOutcome (Ok tt) (Demo.world ACCEPTED) [].
Proof.
  apply (send_message_tells_missing_from_denied Demo.env (Demo.socket_of Demo.carol 2)
           "b2" [0x68; 0x69]%N (Demo.world ACCEPTED)).
  - reflexivity.
  - intros (b & Hb & _). vm_compute in Hb. discriminate Hb.
Defined.

(** The two answers, on the deployment. *)
Lemma send_to_missing_booking :
  trace (socket.send_message Demo.env (Demo.socket_of Demo.carol 2) "b2" [0x68]%N
           (Demo.world ACCEPTED))
  = [SocketEmit 2 "error" (PError "Booking not found")].
Proof. reflexivity. Qed.

Lemma send_to_foreign_booking :
  trace (socket.send_message Demo.env (Demo.socket_of Demo.carol 2) "b1" [0x68]%N
           (Demo.world ACCEPTED))
  = [SocketEmit 2 "error" (PError "Access denied")].
Proof. reflexivity. Qed.

(** ** The notification listing *)

(** C9: with the ledger reachable the listing answers with one page of
    the caller's rows (with [unreadOnly=true]: of the caller's unread rows):
    50 of them when there are 50 or more, all of them otherwise, no row
    more often than the table holds it, all of them rows of the caller,
    newest first, and none older than a matching row left out. *)
Theorem notification_listing env id uid role status unreadOnly w :
  store_fault env TNotification = false →
  let o := notificationsRouter.get_notifications env
             (mkRequest id uid role status unreadOnly) w in
  ∃ page,
    trace o = [Respond 200 (BodyNotifications page)]
    ∧ world o = w
    ∧ (length page ≤ 50)%nat
    ∧ length page
      = (50 `min` length (filter (λ n, Notification.userId n = uid
                                      ∧ (unreadOnly = Some "true" →
                                         Notification.read n = false))
                            (notifications (db w))))%nat
    ∧ page ⊆+ filter (λ n, Notification.userId n = uid
                           ∧ (unreadOnly = Some "true" →
                              Notification.read n = false))
                (notifications (db w))
    ∧ StronglySorted notificationsRouter.createdAt_desc page
    ∧ (∀ n, n ∈ page →
         n ∈ notifications (db w)
         ∧ Notification.userId n = uid
         ∧ (unreadOnly = Some "true" → Notification.read n = false))
    ∧ (∀ n m, n ∈ page → m ∈ notifications (db w) → m ∉ page →
         Notification.userId m = uid →
         (unreadOnly = Some "true" → Notification.read m = false) →
         (Notification.createdAt m ≤ Notification.createdAt n)%Z).
Proof.
  intros Hf o.
  set (wh := if decide (unreadOnly = Some "true")
             then notificationsRouter.mkWhere uid (Some false)
             else notificationsRouter.mkWhere uid None).
  exists (take 50 (notificationsRouter.matching_sorted wh (db w))).
  assert (o = mkOutcome (Ok tt) w
                [Respond 200 (BodyNotifications
                   (take 50 (notificationsRouter.matching_sorted wh (db w))))]) as ->.
  { subst o. unfold notificationsRouter.get_notifications. cbv zeta.
    cbn [userId query_unreadOnly]. fold wh.
    apply try_catch_Ok.
    by rewrite (bind_Ok _ _ _ _ _ _
                  (prisma_read _ _ _ _ _ Hf (findMany_page wh 50 (db w)))). }
  simpl. split; [done|]. split; [done|]. split; [apply page_length|].
  split; [rewrite <- where_filter; apply page_length_exact|].
  split; [rewrite <- where_filter; apply page_submseteq|].
  split; [apply page_sorted|]. split.
  - intros n Hn. apply page_elem in Hn as [[Hu Hr] Hin].
    split; [done|]. subst wh. split.
    + by destruct (decide _).
    + intros Hq. by rewrite decide_True in Hr by done.
  - intros n m Hn Hm Hout Hu Hr.
    apply (page_newest wh 50 (db w) n m Hn).
    assert (m ∈ notificationsRouter.matching_sorted wh (db w)) as Hs.
    { apply sorted_elem. split; [|done]. subst wh.
      destruct (decide _) as [Hq|Hq]; split; simpl; auto. }
    rewrite <- (take_drop 50) in Hs. apply elem_of_app in Hs as [Hs|Hs]; done.
Qed.

Lemma notification_listing_witness :
  let w := Demo.with_ledger Demo.ledger (Demo.world PENDING) in
  let o := notificationsRouter.get_notifications Demo.env
             (mkRequest EmptyString "alice" CUSTOMER EmptyString (Some "true")) w in
  ∃ page,
    trace o = [Respond 200 (BodyNotifications page)]
    ∧ world o = w
    ∧ (length page ≤ 50)%nat
    ∧ length page
      = (50 `min` length (filter (λ n, Notification.userId n = "alice"
                                      ∧ (Some "true" = Some "true" →
                                         Notification.read n = false))
                            (notifications (db w))))%nat
    ∧ page ⊆+ filter (λ n, Notification.userId n = "alice"
                           ∧ (Some "true" = Some "true" →
                              Notification.read n = false))
                (notifications (db w))
    ∧ StronglySorted notificationsRouter.createdAt_desc page
    ∧ (∀ n, n ∈ page →
         n ∈ notifications (db w)
         ∧ Notification.userId n = "alice"
         ∧ (Some "true" = Some "true" → Notification.read n = false))
    ∧ (∀ n m, n ∈ page → m ∈ notifications (db w) → m ∉ page →
         Notification.userId m = "alice" →
         (Some "true" = Some "true" → Notification.read m = false) →
         (Notification.createdAt m ≤ Notification.createdAt n)%Z).
Proof.
  apply (notification_listing Demo.env EmptyString "alice" CUSTOMER EmptyString (Some "true")
           (Demo.with_ledger Demo.ledger (Demo.world PENDING))).
  reflexivity.
Defined.

(** The listing on the deployment's ledger: the caller's rows, newest
    first; the unread ones alone on request; fifty of sixty. *)
Lemma listing_of_alice :
  trace (notificationsRouter.get_notifications Demo.env
           (mkRequest EmptyString "alice" CUSTOMER EmptyString None)
           (Demo.with_ledger Demo.ledger (Demo.world PENDING)))
  = [Respond 200 (BodyNotifications
       [Demo.row 3 "alice" false 40; Demo.row 2 "alice" true 30;
        Demo.row 0 "alice" false 10])].
Proof. reflexivity. Qed.

Lemma unread_listing_of_alice :
  trace (notificationsRouter.get_notifications Demo.env
           (mkRequest EmptyString "alice" CUSTOMER EmptyString (Some "true"))
           (Demo.with_ledger Demo.ledger (Demo.world PENDING)))
  = [Respond 200 (BodyNotifications
       [Demo.row 3 "alice" false 40; Demo.row 0 "alice" false 10])].
Proof. reflexivity. Qed.

Lemma listing_of_long_ledger :
  ∃ page,
    trace (notificationsRouter.get_notifications Demo.env
             (mkRequest EmptyString "alice" CUSTOMER EmptyString None)
             (Demo.with_ledger Demo.long_ledger (Demo.world PENDING)))
    = [Respond 200 (BodyNotifications page)]
    ∧ length page = 50%nat
    ∧ Notification.createdAt <$> head page = Some 59%Z
    ∧ Notification.createdAt <$> last page = Some 10%Z.
Proof. eexists. split; [reflexivity|]. vm_compute. done. Qed.

(** * Further properties *)

(** ** PATCH /:id/status of the bookings router: the paths around the guards *)

Lemma statusSchema_parse_rejects status w :
  status ∉ ["ACCEPTED"; "DECLINED"; "CANCELLED"; "COMPLETED"] →
  bookingsRouter.statusSchema_parse status w = mkOutcome (Throw zodError) w [].
Proof.
  intros H. unfold bookingsRouter.statusSchema_parse.
  repeat (destruct (decide _) as [->|_];
          [exfalso; apply H; repeat first [apply list_elem_of_here | apply list_elem_of_further]|]).
  done.
Qed.

Lemma statusSchema_parse_total status w :
  (∃ target, target ≠ PENDING ∧ status = status_name target ∧
     bookingsRouter.statusSchema_parse status w = mkOutcome (Ok target) w [])
  ∨ bookingsRouter.statusSchema_parse status w = mkOutcome (Throw zodError) w [].
Proof.
  unfold bookingsRouter.statusSchema_parse.
  destruct (decide (status = "ACCEPTED")) as [->|_]; [left; by exists ACCEPTED|].
  destruct (decide (status = "DECLINED")) as [->|_]; [left; by exists DECLINED|].
  destruct (decide (status = "CANCELLED")) as [->|_]; [left; by exists CANCELLED|].
  destruct (decide (status = "COMPLETED")) as [->|_]; [left; by exists COMPLETED|].
  by right.
Qed.

Lemma catch_validation_zod w :
  ∃ t, catch_validation zodError w = mkOutcome (Ok tt) w t
     ∧ responses t = [(400%nat, BodyError "Validation error" true)]
     ∧ broadcasts t = [] ∧ socket_emits t = [].
Proof.
  unfold catch_validation. rewrite bool_decide_eq_true_2 by done.
  destruct (next_outcome (mkExn PlainError (Some 400%nat) "Validation error" true) w)
    as (t & Ho & Hr & Hb & Hs).
  exists t. split; [exact Ho|]. split; [exact Hr|]. by split.
Qed.

Lemma patch_status_invalid env id uid role status q w :
  bookingsRouter.statusSchema_parse status w = mkOutcome (Throw zodError) w [] →
  ∃ t, bookingsRouter.patch_status env (mkRequest id uid role status q) w
       = mkOutcome (Ok tt) w t
     ∧ responses t = [(400%nat, BodyError "Validation error" true)]
     ∧ broadcasts t = [] ∧ socket_emits t = [].
Proof.
  intros Hp. unfold bookingsRouter.patch_status. cbv zeta.
  cbn [params_id userId userRole body_status].
  erewrite try_catch_Throw by (by apply bind_Throw).
  destruct (catch_validation_zod w) as (t & -> & Hr & Hb & Hs).
  exists t. split; [reflexivity|]. by rewrite Hr, Hb, Hs.
Qed.

Lemma patch_status_no_id env uid role target q w :
  target ≠ PENDING →
  ∃ t, bookingsRouter.patch_status env (mkRequest EmptyString uid role (status_name target) q) w
       = mkOutcome (Ok tt) w t
     ∧ responses t = [(400%nat, BodyError "Booking ID is required" false)]
     ∧ broadcasts t = [] ∧ socket_emits t = [].
Proof.
  intros Ht. unfold bookingsRouter.patch_status, try_catch. cbv zeta.
  cbn [params_id userId userRole body_status].
  rewrite (bind_Ok _ _ _ _ _ _ (statusSchema_parse_name target w Ht)).
  rewrite decide_True by done.
  destruct (next_outcome (ApiError 400 "Booking ID is required") w)
    as (t & -> & Hr & Hb & Hs).
  by exists t.
Qed.

Lemma prisma_down {A} env t (q : Db → option (A * Db)) w :
  store_fault env t = true →
  prisma env t q w
  = mkOutcome (Throw (mkExn PrismaError None "Can't reach database server" false)) w [].
Proof. intros H. unfold prisma. by rewrite H. Qed.

Lemma patch_status_unreachable env id uid role target q w :
  id ≠ EmptyString → target ≠ PENDING →
  store_fault env TBooking = true →
  ∃ t, bookingsRouter.patch_status env (mkRequest id uid role (status_name target) q) w
       = mkOutcome (Ok tt) w t
     ∧ responses t = [(500%nat, BodyError "Can't reach database server" false)]
     ∧ broadcasts t = [] ∧ socket_emits t = [].
Proof.
  intros Hid Ht Hf. unfold bookingsRouter.patch_status. cbv zeta.
  cbn [params_id userId userRole body_status].
  erewrite try_catch_Throw; cycle 1.
  { rewrite (bind_Ok _ _ _ _ _ _ (statusSchema_parse_name target w Ht)), prepend_nil.
    rewrite decide_False by done.
    apply bind_Throw. by apply prisma_down. }
  unfold catch_validation. rewrite bool_decide_eq_false_2 by done.
  match goal with
  | |- context [next ?e w] => destruct (next_outcome e w) as (t & -> & Hr & Hb & Hs)
  end.
  by exists t.
Qed.

Lemma patch_status_missing env id uid role target q w :
  id ≠ EmptyString → target ≠ PENDING →
  store_fault env TBooking = false →
  bookings (db w) !! id = None →
  ∃ t, bookingsRouter.patch_status env (mkRequest id uid role (status_name target) q) w
       = mkOutcome (Ok tt) w t
     ∧ responses t = [(404%nat, BodyError "Booking not found" false)]
     ∧ broadcasts t = [] ∧ socket_emits t = [].
Proof.
  intros Hid Ht Hf Hb. unfold bookingsRouter.patch_status, try_catch. cbv zeta.
  cbn [params_id userId userRole body_status].
  rewrite (bind_Ok _ _ _ _ _ _ (statusSchema_parse_name target w Ht)).
  rewrite decide_False by done.
  erewrite bind_Ok
    by (apply prisma_read; [done|]; unfold booking_findUnique; by rewrite Hb).
  cbv beta iota.
  destruct (next_outcome (ApiError 404 "Booking not found") w)
    as (t & -> & Hr & Hbc & Hs).
  by exists t.
Qed.

(** X1: a status outside the four that the schema lists (PENDING among
    them) is answered with 400 "Validation error" before the store is
    looked at: nothing is written, whatever the state of the store. *)
Theorem patch_status_validates_first env id uid role status q w :
  status ∉ ["ACCEPTED"; "DECLINED"; "CANCELLED"; "COMPLETED"] →
  let o := bookingsRouter.patch_status env (mkRequest id uid role status q) w in
  result o = Ok tt
  ∧ world o = w
  ∧ trace o = [Respond 400 (BodyError "Validation error" true)].
Proof.
  intros H o. subst o.
  unfold bookingsRouter.patch_status. cbv zeta.
  cbn [params_id userId userRole body_status].
  erewrite try_catch_Throw
    by (apply bind_Throw; by apply statusSchema_parse_rejects).
  done.
Qed.

Lemma patch_status_validates_first_witness :
  let o := bookingsRouter.patch_status Demo.env
             (mkRequest "b1" "bob" PROVIDER "PENDING" None) (Demo.world ACCEPTED) in
  result o = Ok tt
  ∧ world o = Demo.world ACCEPTED
  ∧ trace o = [Respond 400 (BodyError "Validation error" true)].
Proof.
  apply (patch_status_validates_first Demo.env "b1" "bob" PROVIDER "PENDING" None
           (Demo.world ACCEPTED)).
  vm_compute. intros H. repeat (inversion H as [|? ? ? H']; clear H; rename H' into H).
Defined.

(** X2: a request for a booking that does not exist is answered with 404
    and one for an unreachable store with 500; in both cases nothing is
    written and nothing is dispatched. *)
Theorem patch_status_without_booking env id uid role target q w :
  id ≠ EmptyString → target ≠ PENDING →
  store_fault env TBooking = true ∨ bookings (db w) !! id = None →
  let o := bookingsRouter.patch_status env
             (mkRequest id uid role (status_name target) q) w in
  result o = Ok tt
  ∧ world o = w
  ∧ broadcasts (trace o) = []
  ∧ ∃ message,
      responses (trace o)
      = [(if store_fault env TBooking then 500%nat else 404%nat,
          BodyError message false)]
      ∧ (store_fault env TBooking = false → message = "Booking not found").
Proof.
  intros Hid Ht Hcase o. subst o.
  destruct (store_fault env TBooking) eqn:Hf.
  - destruct (patch_status_unreachable env id uid role target q w Hid Ht Hf)
      as (t & -> & Hr & Hb & _).
    simpl. rewrite Hr. repeat split; try done. by eexists.
  - destruct Hcase as [?|Hb]; [done|].
    destruct (patch_status_missing env id uid role target q w Hid Ht Hf Hb)
      as (t & -> & Hr & Hbc & _).
    simpl. rewrite Hr. repeat split; try done. by eexists.
Qed.

Lemma patch_status_without_booking_witness :
  let o := bookingsRouter.patch_status Demo.env
             (mkRequest "b2" "bob" PROVIDER (status_name ACCEPTED) None)
             (Demo.world PENDING) in
  result o = Ok tt
  ∧ world o = Demo.world PENDING
  ∧ broadcasts (trace o) = []
  ∧ ∃ message,
      responses (trace o)
      = [(if store_fault Demo.env TBooking then 500%nat else 404%nat,
          BodyError message false)]
      ∧ (store_fault Demo.env TBooking = false → message = "Booking not found").
Proof.
  apply (patch_status_without_booking Demo.env "b2" "bob" PROVIDER ACCEPTED None
           (Demo.world PENDING)).
  - discriminate.
  - discriminate.
  - right. reflexivity.
Defined.

(** ** The provider's moves *)

(** The moves of the transition graph that belong to the provider. *)
Lemma provider_verdict_legal uid b target :
  Booking.providerId b = uid →
  (Booking.status b, target) ∈ [(PENDING, ACCEPTED); (PENDING, DECLINED);
                                (ACCEPTED, COMPLETED)] →
  transition_error PROVIDER uid b target = None.
Proof.
  intros Hp Hin. unfold transition_error.
  rewrite bool_decide_eq_false_2 by (intros [_ ?]; done).
  destruct b as [i s c p st]. simpl in *.
  apply elem_of_cons in Hin as [[= -> ->]|Hin]; [done|].
  apply elem_of_cons in Hin as [[= -> ->]|Hin]; [done|].
  apply elem_of_cons in Hin as [[= -> ->]|Hin]; [done|].
  by apply elem_of_nil in Hin.
Qed.

Lemma provider_verdict_illegal uid b target :
  Booking.providerId b = uid → target ≠ PENDING →
  (Booking.status b, target) ∉ [(PENDING, ACCEPTED); (PENDING, DECLINED);
                                (ACCEPTED, COMPLETED)] →
  ∃ message, transition_error PROVIDER uid b target = Some (400%nat, message).
Proof.
  intros Hp Ht Hout. unfold transition_error.
  rewrite bool_decide_eq_false_2 by (intros [_ ?]; done).
  destruct b as [i s c p st]. simpl in *.
  destruct st, target; try done; try (by eexists);
    exfalso; apply Hout;
    repeat first [apply list_elem_of_here | apply list_elem_of_further].
Qed.

(** X3: for the provider of a booking the endpoint applies exactly the
    moves PENDING to ACCEPTED, PENDING to DECLINED and ACCEPTED to
    COMPLETED; every other request of the provider, a cancellation and any
    move out of DECLINED, CANCELLED or COMPLETED among them, is answered
    with 400 and writes nothing. *)
Theorem provider_moves env id uid target q w b :
  id ≠ EmptyString → target ≠ PENDING →
  store_fault env TBooking = false →
  bookings (db w) !! id = Some b →
  Booking.providerId b = uid →
  let o := bookingsRouter.patch_status env
             (mkRequest id uid PROVIDER (status_name target) q) w in
  let legal := [(PENDING, ACCEPTED); (PENDING, DECLINED); (ACCEPTED, COMPLETED)] in
  ((Booking.status b, target) ∈ legal →
     status_of (db (world o)) id = Some target
     ∧ ∃ updated, responses (trace o) = [(200%nat, BodyBooking updated)])
  ∧ ((Booking.status b, target) ∉ legal →
       world o = w
       ∧ ∃ message, responses (trace o) = [(400%nat, BodyError message false)]).
Proof.
  intros Hid Ht Hf Hb Hp o legal. split.
  - intros Hin.
    pose proof (provider_verdict_legal uid b target Hp Hin) as Hv.
    destruct (patch_status_applies env id uid PROVIDER target q w b Hid Ht Hf Hb Hv)
      as (row & t & _ & Ho & Hr & _).
    subst o. rewrite Ho. simpl. rewrite Hr. split; [|by eexists].
    unfold status_of. destruct (store_fault env TNotification); simpl;
      by rewrite lookup_insert_eq.
  - intros Hout.
    destruct (provider_verdict_illegal uid b target Hp Ht Hout) as [message Hv].
    destruct (patch_status_rejects env id uid PROVIDER target q w b Hid Ht Hf Hb
                _ _ Hv) as (t & Ho & Hr & _).
    subst o. rewrite Ho. simpl. split; [done|]. by exists message.
Qed.

Lemma provider_moves_witness :
  let o := bookingsRouter.patch_status Demo.env
             (mkRequest "b1" "bob" PROVIDER (status_name COMPLETED) None)
             (Demo.world ACCEPTED) in
  let legal := [(PENDING, ACCEPTED); (PENDING, DECLINED); (ACCEPTED, COMPLETED)] in
  ((Booking.status (Demo.booking ACCEPTED), COMPLETED) ∈ legal →
     status_of (db (world o)) "b1" = Some COMPLETED
     ∧ ∃ updated, responses (trace o) = [(200%nat, BodyBooking updated)])
  ∧ ((Booking.status (Demo.booking ACCEPTED), COMPLETED) ∉ legal →
       world o = Demo.world ACCEPTED
       ∧ ∃ message, responses (trace o) = [(400%nat, BodyError message false)]).
Proof.
  apply (provider_moves Demo.env "b1" "bob" COMPLETED None (Demo.world ACCEPTED)
           (Demo.booking ACCEPTED)).
  - discriminate.
  - discriminate.
  - reflexivity.
  - reflexivity.
  - reflexivity.
Defined.

(** ** What a transition leaves alone *)

(** X4: a request that was answered with 200 has changed the status of
    the one booking and nothing else: its customer, provider and service
    are as before, the other bookings, the users, services, messages and
    the room memberships are untouched. *)
Theorem transition_changes_status_only env id uid role target q w b :
  id ≠ EmptyString → target ≠ PENDING →
  store_fault env TBooking = false →
  bookings (db w) !! id = Some b →
  let o := bookingsRouter.patch_status env
             (mkRequest id uid role (status_name target) q) w in
  (∃ updated, responses (trace o) = [(200%nat, BodyBooking updated)]) →
  bookings (db (world o)) !! id = Some (Booking.with_status target b)
  ∧ Booking.customerId (Booking.with_status target b) = Booking.customerId b
  ∧ Booking.providerId (Booking.with_status target b) = Booking.providerId b
  ∧ Booking.serviceId (Booking.with_status target b) = Booking.serviceId b
  ∧ (∀ id', id' ≠ id → bookings (db (world o)) !! id' = bookings (db w) !! id')
  ∧ users (db (world o)) = users (db w)
  ∧ services (db (world o)) = services (db w)
  ∧ messages (db (world o)) = messages (db w)
  ∧ rooms (world o) = rooms w.
Proof.
  intros Hid Ht Hf Hb o [updated Hresp].
  destruct (transition_error role uid b target) as [[code message]|] eqn:Hv.
  { destruct (patch_status_rejects env id uid role target q w b Hid Ht Hf Hb _ _ Hv)
      as (t & Ho & Hr & _).
    subst o. rewrite Ho in Hresp. simpl in Hresp. congruence. }
  destruct (patch_status_applies env id uid role target q w b Hid Ht Hf Hb Hv)
    as (row & t & _ & Ho & _).
  subst o. rewrite Ho.
  destruct (store_fault env TNotification); simpl;
    (split; [apply lookup_insert_eq|]);
    repeat split; try done; intros id' Hne; by apply lookup_insert_ne.
Qed.

Lemma transition_changes_status_only_witness :
  let w := Demo.world PENDING in
  let b := Demo.booking PENDING in
  let o := bookingsRouter.patch_status Demo.env
             (mkRequest "b1" "bob" PROVIDER (status_name DECLINED) None) w in
  bookings (db (world o)) !! "b1" = Some (Booking.with_status DECLINED b)
  ∧ Booking.customerId (Booking.with_status DECLINED b) = Booking.customerId b
  ∧ Booking.providerId (Booking.with_status DECLINED b) = Booking.providerId b
  ∧ Booking.serviceId (Booking.with_status DECLINED b) = Booking.serviceId b
  ∧ (∀ id', id' ≠ "b1" → bookings (db (world o)) !! id' = bookings (db w) !! id')
  ∧ users (db (world o)) = users (db w)
  ∧ services (db (world o)) = services (db w)
  ∧ messages (db (world o)) = messages (db w)
  ∧ rooms (world o) = rooms w.
Proof.
  intros w b.
  apply (transition_changes_status_only Demo.env "b1" "bob" PROVIDER DECLINED None
           w b).
  - discriminate.
  - discriminate.
  - reflexivity.
  - reflexivity.
  - eexists. vm_compute. reflexivity.
Defined.

(** ** The answer does not wait for, or depend on, the dispatch *)

Lemma patch_status_answer env req w :
  result (bookingsRouter.patch_status env req w) = Ok tt
  ∧ ∀ env',
      store_fault env' TBooking = store_fault env TBooking →
      result (bookingsRouter.patch_status env' req w) = Ok tt
      ∧ responses (trace (bookingsRouter.patch_status env' req w))
        = responses (trace (bookingsRouter.patch_status env req w))
      ∧ bookings (db (world (bookingsRouter.patch_status env' req w)))
        = bookings (db (world (bookingsRouter.patch_status env req w))).
Proof.
  destruct req as [id uid role status q].
  destruct (statusSchema_parse_total status w) as [(target & Ht & -> & _)|Hbad].
  2:{ destruct (patch_status_invalid env id uid role status q w Hbad)
        as (t & Ho & Hr & _).
      rewrite Ho. split; [reflexivity|]. intros env' _.
      destruct (patch_status_invalid env' id uid role status q w Hbad)
        as (t' & Ho' & Hr' & _).
      rewrite Ho'. cbn [result trace world]. rewrite Hr, Hr'. by repeat split. }
  destruct (decide (id = EmptyString)) as [->|Hid].
  { destruct (patch_status_no_id env uid role target q w Ht) as (t & Ho & Hr & _).
    rewrite Ho. split; [reflexivity|]. intros env' _.
    destruct (patch_status_no_id env' uid role target q w Ht) as (t' & Ho' & Hr' & _).
    rewrite Ho'. cbn [result trace world]. rewrite Hr, Hr'. by repeat split. }
  destruct (store_fault env TBooking) eqn:Hf.
  { destruct (patch_status_unreachable env id uid role target q w Hid Ht Hf)
      as (t & Ho & Hr & _).
    rewrite Ho. split; [reflexivity|]. intros env' Hf'.
    destruct (patch_status_unreachable env' id uid role target q w Hid Ht Hf')
      as (t' & Ho' & Hr' & _).
    rewrite Ho'. cbn [result trace world]. rewrite Hr, Hr'. by repeat split. }
  destruct (bookings (db w) !! id) as [b|] eqn:Hb.
  2:{ destruct (patch_status_missing env id uid role target q w Hid Ht Hf Hb)
        as (t & Ho & Hr & _).
      rewrite Ho. split; [reflexivity|]. intros env' Hf'.
      destruct (patch_status_missing env' id uid role target q w Hid Ht Hf' Hb)
        as (t' & Ho' & Hr' & _).
      rewrite Ho'. cbn [result trace world]. rewrite Hr, Hr'. by repeat split. }
  destruct (transition_error role uid b target) as [[code message]|] eqn:Hv.
  { destruct (patch_status_rejects env id uid role target q w b Hid Ht Hf Hb _ _ Hv)
      as (t & Ho & Hr & _).
    rewrite Ho. split; [reflexivity|]. intros env' Hf'.
    destruct (patch_status_rejects env' id uid role target q w b Hid Ht Hf' Hb _ _ Hv)
      as (t' & Ho' & Hr' & _).
    rewrite Ho'. cbn [result trace world]. rewrite Hr, Hr'. by repeat split. }
  destruct (patch_status_applies env id uid role target q w b Hid Ht Hf Hb Hv)
    as (row & t & _ & Ho & Hr & _).
  rewrite Ho. split; [reflexivity|]. intros env' Hf'.
  destruct (patch_status_applies env' id uid role target q w b Hid Ht Hf' Hb Hv)
    as (row' & t' & _ & Ho' & Hr' & _).
  rewrite Ho'. cbn [result trace world responses omap list_omap].
  fold (responses t) (responses t'). rewrite Hr, Hr'.
  split; [reflexivity|]. split; [reflexivity|].
  by destruct (store_fault env TNotification), (store_fault env' TNotification).
Qed.

(** X5: the handler always ends without an exception, and what the caller
    is answered and what the bookings table holds afterwards depend on the
    environment only through the reachability of the bookings table: an
    unreachable ledger, a missing socket server or a failing mail
    transport change neither. *)
Theorem answer_independent_of_dispatch env env' req w :
  store_fault env' TBooking = store_fault env TBooking →
  let o := bookingsRouter.patch_status env req w in
  let o' := bookingsRouter.patch_status env' req w in
  result o = Ok tt ∧ result o' = Ok tt
  ∧ responses (trace o') = responses (trace o)
  ∧ bookings (db (world o')) = bookings (db (world o)).
Proof.
  intros Hf o o'. subst o o'.
  destruct (patch_status_answer env req w) as (Hres & Hall).
  destruct (Hall env' Hf) as (Hres' & Hr' & Hb').
  split; [exact Hres|]. split; [exact Hres'|]. split; [exact Hr'|exact Hb'].
Qed.

Lemma answer_independent_of_dispatch_witness :
  let env' := mkEnv false "http://localhost:5173" None false
                (λ t, match t with TNotification | TUser => true | _ => false end) in
  let req := mkRequest "b1" "bob" PROVIDER "ACCEPTED" None in
  let o := bookingsRouter.patch_status Demo.env req (Demo.world PENDING) in
  let o' := bookingsRouter.patch_status env' req (Demo.world PENDING) in
  result o = Ok tt ∧ result o' = Ok tt
  ∧ responses (trace o') = responses (trace o)
  ∧ bookings (db (world o')) = bookings (db (world o)).
Proof.
  intros env' req.
  apply (answer_independent_of_dispatch Demo.env env' req (Demo.world PENDING)).
  reflexivity.
Defined.

(** X6: after a transition that went through with the ledger reachable,
    the row that was written is what is pushed, once, to the personal room
    of the booking's customer, when the socket server is up; when it is not,
    the row is written all the same and nothing is pushed. *)
Theorem transition_pushes_row env id uid role target q w b :
  id ≠ EmptyString → target ≠ PENDING →
  store_fault env TBooking = false →
  store_fault env TNotification = false →
  bookings (db w) !! id = Some b →
  let o := bookingsRouter.patch_status env
             (mkRequest id uid role (status_name target) q) w in
  (∃ updated, responses (trace o) = [(200%nat, BodyBooking updated)]) →
  ∃ n, notifications (db (world o)) = notifications (db w) ++ [n]
     ∧ broadcasts (trace o)
       = if io env
         then [(socket.user_room (Booking.customerId b), "new_notification",
                PNotification n)]
         else [].
Proof.
  intros Hid Ht Hf Hn Hb o [updated Hresp].
  destruct (transition_error role uid b target) as [[code message]|] eqn:Hv.
  { destruct (patch_status_rejects env id uid role target q w b Hid Ht Hf Hb _ _ Hv)
      as (t & Ho & Hr & _).
    subst o. rewrite Ho in Hresp. simpl in Hresp. congruence. }
  destruct (patch_status_applies env id uid role target q w b Hid Ht Hf Hb Hv)
    as (row & t & Hrow & Ho & _ & _ & Hbc).
  rewrite Hn in Ho, Hbc. subst o. rewrite Ho. simpl.
  apply status_row_recipient in Hrow as (Hto & _). simpl in Hto.
  exists row. split; [done|]. rewrite Hbc. unfold pushed, socket.user_room.
  destruct (io env); [|done]. simpl. by rewrite Hto.
Qed.

Lemma transition_pushes_row_witness :
  let o := bookingsRouter.patch_status Demo.env
             (mkRequest "b1" "bob" PROVIDER (status_name ACCEPTED) None)
             (Demo.world PENDING) in
  ∃ n, notifications (db (world o)) = notifications (db (Demo.world PENDING)) ++ [n]
     ∧ broadcasts (trace o)
       = if io Demo.env
         then [(socket.user_room (Booking.customerId (Demo.booking PENDING)),
                "new_notification", PNotification n)]
         else [].
Proof.
  apply (transition_pushes_row Demo.env "b1" "bob" PROVIDER ACCEPTED None
           (Demo.world PENDING) (Demo.booking PENDING)).
  - discriminate.
  - discriminate.
  - reflexivity.
  - reflexivity.
  - reflexivity.
  - eexists. vm_compute. reflexivity.
Defined.

(** X7: with the ledger out of reach a transition is applied and answered
    as usual, but no row is written and nothing is pushed: the event is
    dropped. *)
Theorem ledger_outage_drops_event env id uid role target q w b :
  id ≠ EmptyString → target ≠ PENDING →
  store_fault env TBooking = false →
  store_fault env TNotification = true →
  bookings (db w) !! id = Some b →
  let o := bookingsRouter.patch_status env
             (mkRequest id uid role (status_name target) q) w in
  (∃ updated, responses (trace o) = [(200%nat, BodyBooking updated)]) →
  status_of (db (world o)) id = Some target
  ∧ notifications (db (world o)) = notifications (db w)
  ∧ broadcasts (trace o) = []
  ∧ ConsoleError "Failed to send booking status notification:" ∈ trace o.
Proof.
  intros Hid Ht Hf Hn Hb o [updated Hresp].
  destruct (transition_error role uid b target) as [[code message]|] eqn:Hv.
  { destruct (patch_status_rejects env id uid role target q w b Hid Ht Hf Hb _ _ Hv)
      as (t & Ho & Hr & _).
    subst o. rewrite Ho in Hresp. simpl in Hresp. congruence. }
  clear Hresp. subst o.
  unfold bookingsRouter.patch_status, try_catch, transition_error in *.
  cbv zeta. cbn [params_id userId userRole body_status].
  rewrite (bind_Ok _ _ _ _ _ _ (statusSchema_parse_name target w Ht)).
  rewrite decide_False by done.
  rewrite (bind_Ok _ _ _ _ _ _ (load_booking env id w b Hf Hb)). cbv beta iota.
  repeat (case_bool_decide; [discriminate Hv|]).
  rewrite (bind_Ok _ _ _ _ _ _ (update_booking env id target w b Hf Hb)).
  cbv beta iota.
  erewrite (bind_Ok (res_json _)) by reflexivity.
  match goal with
  | |- context [notifyBookingStatusChange env ?u target ?w1] =>
      destruct (notifyBookingStatusChange_fault env u target w1 Hn Ht)
        as (e & t & -> & Hr & Hbc & Hse)
  end.
  simpl. unfold status_of, set_bookings. cbn [bookings].
  rewrite lookup_insert_eq. split; [done|]. split; [done|].
  split.
  - unfold broadcasts in *. by rewrite omap_app, Hbc.
  - apply list_elem_of_further, elem_of_app. right. apply list_elem_of_here.
Qed.

Lemma ledger_outage_drops_event_witness :
  let env := mkEnv true "http://localhost:5173" None true
               (λ t, match t with TNotification => true | _ => false end) in
  let o := bookingsRouter.patch_status env
             (mkRequest "b1" "bob" PROVIDER (status_name ACCEPTED) None)
             (Demo.world PENDING) in
  status_of (db (world o)) "b1" = Some ACCEPTED
  ∧ notifications (db (world o)) = notifications (db (Demo.world PENDING))
  ∧ broadcasts (trace o) = []
  ∧ ConsoleError "Failed to send booking status notification:" ∈ trace o.
Proof.
  intros env.
  apply (ledger_outage_drops_event env "b1" "bob" PROVIDER ACCEPTED None
           (Demo.world PENDING) (Demo.booking PENDING)).
  - discriminate.
  - discriminate.
  - reflexivity.
  - reflexivity.
  - reflexivity.
  - eexists. vm_compute. reflexivity.
Defined.

(** ** PATCH /bookings/:id/status of the admin router *)

Lemma updateSchema_parse_name status w :
  adminRouter.updateSchema_parse (status_name status) w = mkOutcome (Ok status) w [].
Proof. by destruct status. Qed.

(** X8: whoever is not an administrator is answered with 403 by the
    admin endpoint, and nothing is read or written, whatever the request
    and the state of the store. *)
Theorem admin_endpoint_is_gated env req w :
  userRole req ≠ ADMIN →
  adminRouter.patch_booking_status env req w
  = mkOutcome (Ok tt) w [Respond 403 (BodyError "Admin access required" false)].
Proof.
  intros Hrole. unfold adminRouter.patch_booking_status, adminRouter.requireAdmin.
  rewrite bool_decide_eq_true_2 by done.
  unfold next, errorHandler. simpl. by erewrite bind_Ok by reflexivity.
Qed.

Lemma admin_endpoint_is_gated_witness :
  adminRouter.patch_booking_status Demo.env
    (mkRequest "b1" "bob" PROVIDER "COMPLETED" None) (Demo.world PENDING)
  = mkOutcome (Ok tt) (Demo.world PENDING)
      [Respond 403 (BodyError "Admin access required" false)].
Proof.
  apply (admin_endpoint_is_gated Demo.env
           (mkRequest "b1" "bob" PROVIDER "COMPLETED" None) (Demo.world PENDING)).
  discriminate.
Defined.

(** X9: an administrator's request writes any of the five statuses over
    whatever the booking holds, PENDING over a terminal status included;
    the answer is the only effect: no notification is written or pushed
    and nobody is mailed. *)
Theorem admin_overwrites_any_status env id uid target q w b :
  id ≠ EmptyString →
  store_fault env TBooking = false →
  bookings (db w) !! id = Some b →
  let o := adminRouter.patch_booking_status env
             (mkRequest id uid ADMIN (status_name target) q) w in
  result o = Ok tt
  ∧ world o = with_booking_status id target b w
  ∧ status_of (db (world o)) id = Some target
  ∧ notifications (db (world o)) = notifications (db w)
  ∧ trace o
    = [Respond 200
         (BodyBooking (booking_include (db (world o)) (Booking.with_status target b)))].
Proof.
  intros Hid Hf Hb o. subst o.
  unfold adminRouter.patch_booking_status, adminRouter.requireAdmin.
  rewrite bool_decide_eq_false_2 by (intros ?; done).
  cbv zeta. cbn [params_id userId userRole body_status].
  erewrite try_catch_Ok; cycle 1.
  { rewrite decide_False by done.
    rewrite (bind_Ok _ _ _ _ _ _ (updateSchema_parse_name target w)), prepend_nil.
    rewrite (bind_Ok _ _ _ _ _ _ (update_booking env id target w b Hf Hb)).
    reflexivity. }
  simpl. repeat split.
  unfold status_of, set_bookings. cbn [bookings]. by rewrite lookup_insert_eq.
Qed.

Lemma admin_overwrites_any_status_witness :
  let o := adminRouter.patch_booking_status Demo.env
             (mkRequest "b1" "root" ADMIN (status_name PENDING) None)
             (Demo.world COMPLETED) in
  result o = Ok tt
  ∧ world o = with_booking_status "b1" PENDING (Demo.booking COMPLETED)
                (Demo.world COMPLETED)
  ∧ status_of (db (world o)) "b1" = Some PENDING
  ∧ notifications (db (world o)) = notifications (db (Demo.world COMPLETED))
  ∧ trace o
    = [Respond 200
         (BodyBooking (booking_include (db (world o))
                         (Booking.with_status PENDING (Demo.booking COMPLETED))))].
Proof.
  apply (admin_overwrites_any_status Demo.env "b1" "root" PENDING None
           (Demo.world COMPLETED) (Demo.booking COMPLETED)).
  - discriminate.
  - reflexivity.
  - reflexivity.
Defined.

(** X10: for a booking that does not exist the admin endpoint has no
    404 of its own: the update rejects and the administrator is answered
    with 500; nothing is written. *)
Theorem admin_update_of_missing_booking env id uid target q w :
  id ≠ EmptyString →
  store_fault env TBooking = false →
  bookings (db w) !! id = None →
  let o := adminRouter.patch_booking_status env
             (mkRequest id uid ADMIN (status_name target) q) w in
  result o = Ok tt
  ∧ world o = w
  ∧ ∃ message, responses (trace o) = [(500%nat, BodyError message false)].
Proof.
  intros Hid Hf Hb o. subst o.
  unfold adminRouter.patch_booking_status, adminRouter.requireAdmin.
  rewrite bool_decide_eq_false_2 by (intros ?; done).
  cbv zeta. cbn [params_id userId userRole body_status].
  erewrite try_catch_Throw; cycle 1.
  { rewrite decide_False by done.
    rewrite (bind_Ok _ _ _ _ _ _ (updateSchema_parse_name target w)), prepend_nil.
    apply bind_Throw. unfold prisma, booking_update. by rewrite Hf, Hb. }
  unfold catch_validation. rewrite bool_decide_eq_false_2 by done.
  match goal with
  | |- context [next ?e w] => destruct (next_outcome e w) as (t & -> & Hr & _)
  end.
  simpl. rewrite Hr. repeat split. by eexists.
Qed.

Lemma admin_update_of_missing_booking_witness :
  let o := adminRouter.patch_booking_status Demo.env
             (mkRequest "b2" "root" ADMIN (status_name CANCELLED) None)
             (Demo.world PENDING) in
  result o = Ok tt
  ∧ world o = Demo.world PENDING
  ∧ ∃ message, responses (trace o) = [(500%nat, BodyError message false)].
Proof.
  apply (admin_update_of_missing_booking Demo.env "b2" "root" CANCELLED None
           (Demo.world PENDING)).
  - discriminate.
  - reflexivity.
  - reflexivity.
Defined.

(** ** The notifications router: count, read marks and deletion *)

Lemma Db_eta_notifications d : set_notifications (notifications d) d = d.
Proof. by destruct d. Qed.

Section where_clauses.
Context (P : Notification.t → Prop) `{∀ n, Decision (P n)}.

Lemma count_zero (l : list Notification.t) :
  length (filter P l) = 0%nat ↔ ∀ n, n ∈ l → ¬ P n.
Proof.
  rewrite length_zero_iff_nil. split.
  - intros Hnil n Hn HP.
    assert (n ∈ filter P l) as Hin by (by apply list_elem_of_filter).
    rewrite Hnil in Hin. by apply elem_of_nil in Hin.
  - intros Hall. induction l as [|n l IH]; [done|].
    rewrite filter_cons_False by (apply Hall, list_elem_of_here).
    apply IH. intros m Hm. apply Hall. by apply list_elem_of_further.
Qed.

Lemma update_none (f : Notification.t → Notification.t) (l : list Notification.t) :
  (∀ n, n ∈ l → ¬ P n) → (λ n, if decide (P n) then f n else n) <$> l = l.
Proof.
  intros Hall. induction l as [|n l IH]; [done|]. simpl.
  rewrite decide_False by (apply Hall, list_elem_of_here).
  f_equal. apply IH. intros m Hm. apply Hall. by apply list_elem_of_further.
Qed.

Lemma delete_none (l : list Notification.t) :
  (∀ n, n ∈ l → ¬ P n) → filter (λ n, ¬ P n) l = l.
Proof.
  intros Hall. induction l as [|n l IH]; [done|].
  rewrite filter_cons_True by (apply Hall, list_elem_of_here).
  f_equal. apply IH. intros m Hm. apply Hall. by apply list_elem_of_further.
Qed.
End where_clauses.

Lemma get_unread_count_ok env req w :
  store_fault env TNotification = false →
  notificationsActions.get_unread_count env req w
  = mkOutcome
      (Ok (Some (length (filter (notificationsActions.unread_of (userId req))
                           (notifications (db w))))))
      w [].
Proof.
  intros Hf. unfold notificationsActions.get_unread_count. cbv zeta.
  apply try_catch_Ok.
  by erewrite bind_Ok by (by apply prisma_read).
Qed.

(** X11: the unread count is the number of unread rows of the caller,
    and computing it changes nothing.  The unread listing of the same
    caller shows that many rows, up to its cap of 50. *)
Theorem unread_count_and_listing env id uid role status q w :
  store_fault env TNotification = false →
  let c := notificationsActions.get_unread_count env
             (mkRequest id uid role status q) w in
  let l := notificationsRouter.get_notifications env
             (mkRequest id uid role status (Some "true")) w in
  ∃ k page,
    c = mkOutcome (Ok (Some k)) w []
    ∧ k = length (filter (λ n, Notification.userId n = uid
                               ∧ Notification.read n = false)
                    (notifications (db w)))
    ∧ trace l = [Respond 200 (BodyNotifications page)]
    ∧ length page = (k `min` 50)%nat.
Proof.
  intros Hf c l. subst c l.
  rewrite (get_unread_count_ok env _ w Hf). cbn [userId].
  eexists _, _. split; [reflexivity|]. split; [reflexivity|].
  unfold notificationsRouter.get_notifications. cbv zeta.
  cbn [userId query_unreadOnly]. rewrite decide_True by done.
  erewrite try_catch_Ok; cycle 1.
  { by erewrite bind_Ok by (by apply prisma_read). }
  split; [reflexivity|].
  rewrite length_take. unfold notificationsRouter.matching_sorted.
  rewrite merge_sort_Permutation. rewrite Nat.min_comm. f_equal.
Qed.

Lemma unread_count_and_listing_witness :
  let w := Demo.with_ledger Demo.long_ledger (Demo.world PENDING) in
  let c := notificationsActions.get_unread_count Demo.env
             (mkRequest EmptyString "alice" CUSTOMER EmptyString None) w in
  let l := notificationsRouter.get_notifications Demo.env
             (mkRequest EmptyString "alice" CUSTOMER EmptyString (Some "true")) w in
  ∃ k page,
    c = mkOutcome (Ok (Some k)) w []
    ∧ k = length (filter (λ n, Notification.userId n = "alice"
                               ∧ Notification.read n = false)
                    (notifications (db w)))
    ∧ trace l = [Respond 200 (BodyNotifications page)]
    ∧ length page = (k `min` 50)%nat.
Proof.
  intros w.
  apply (unread_count_and_listing Demo.env EmptyString "alice" CUSTOMER EmptyString None w).
  reflexivity.
Defined.

Section read_marks.
Variables (env : Env) (id uid : string) (role : Role) (status : string)
          (q : option string) (w : World).
Hypothesis Hid : id ≠ EmptyString.
Hypothesis Hstore : store_fault env TNotification = false.

#[local] Abbreviation req := (mkRequest id uid role status q).
#[local] Abbreviation mine := (notificationsActions.owned id uid).

Lemma patch_read_not_found :
  (∀ n, n ∈ notifications (db w) → ¬ mine n) →
  notificationsActions.patch_read env req w
  = mkOutcome (Ok tt) w [Respond 404 (BodyError "Notification not found" false)].
Proof.
  intros Hnone. unfold notificationsActions.patch_read. cbv zeta.
  cbn [params_id userId]. rewrite decide_False by done.
  apply try_catch_Ok.
  erewrite bind_Ok; cycle 1.
  { apply prisma_read; [done|]. unfold notificationsActions.notification_updateMany.
    rewrite (update_none _ _ _ Hnone), Db_eta_notifications. reflexivity. }
  rewrite (proj2 (count_zero _ _) Hnone). rewrite decide_True by done.
  unfold next, errorHandler. simpl. by erewrite bind_Ok by reflexivity.
Qed.

Lemma patch_read_found n :
  n ∈ notifications (db w) → mine n →
  notificationsActions.patch_read env req w
  = mkOutcome (Ok tt)
      (mkWorld (set_notifications
                  ((λ n, if decide (mine n) then mark_read n else n)
                     <$> notifications (db w)) (db w))
               (rooms w))
      [Respond 200 (BodyMessage "Notification marked as read")].
Proof.
  intros Hin Hmine. unfold notificationsActions.patch_read. cbv zeta.
  cbn [params_id userId]. rewrite decide_False by done.
  apply try_catch_Ok.
  erewrite bind_Ok by (by apply prisma_ok).
  rewrite decide_False; [done|].
  intros Hz. by apply (proj1 (count_zero _ _) Hz n).
Qed.

Lemma delete_not_found :
  (∀ n, n ∈ notifications (db w) → ¬ mine n) →
  notificationsActions.delete_notification env req w
  = mkOutcome (Ok tt) w [Respond 404 (BodyError "Notification not found" false)].
Proof.
  intros Hnone. unfold notificationsActions.delete_notification. cbv zeta.
  cbn [params_id userId]. rewrite decide_False by done.
  apply try_catch_Ok.
  erewrite bind_Ok; cycle 1.
  { apply prisma_read; [done|]. unfold notificationsActions.notification_deleteMany.
    rewrite (delete_none _ _ Hnone), Db_eta_notifications. reflexivity. }
  rewrite (proj2 (count_zero _ _) Hnone). rewrite decide_True by done.
  unfold next, errorHandler. simpl. by erewrite bind_Ok by reflexivity.
Qed.

Lemma delete_found n :
  n ∈ notifications (db w) → mine n →
  notificationsActions.delete_notification env req w
  = mkOutcome (Ok tt)
      (mkWorld (set_notifications (filter (λ n, ¬ mine n) (notifications (db w)))
                  (db w))
               (rooms w))
      [Respond 200 (BodyMessage "Notification deleted")].
Proof.
  intros Hin Hmine. unfold notificationsActions.delete_notification. cbv zeta.
  cbn [params_id userId]. rewrite decide_False by done.
  apply try_catch_Ok.
  erewrite bind_Ok by (by apply prisma_ok).
  rewrite decide_False; [done|].
  intros Hz. by apply (proj1 (count_zero _ _) Hz n).
Qed.

Lemma patch_read_all_ok :
  notificationsActions.patch_read_all env req w
  = mkOutcome (Ok tt)
      (mkWorld (set_notifications
                  ((λ n, if decide (notificationsActions.unread_of uid n)
                         then mark_read n else n) <$> notifications (db w)) (db w))
               (rooms w))
      [Respond 200 (BodyMessage "All notifications marked as read")].
Proof.
  unfold notificationsActions.patch_read_all. cbv zeta. cbn [userId].
  apply try_catch_Ok. by erewrite bind_Ok by (by apply prisma_ok).
Qed.

End read_marks.

(** X12: a user can mark as read, or delete, only rows of their own: for
    an id that names no row of the caller (a row of somebody else, or no row
    at all) both endpoints answer 404 and leave the store as it was. *)
Theorem foreign_notification_is_out_of_reach env id uid role status q w :
  id ≠ EmptyString →
  store_fault env TNotification = false →
  (∀ n, n ∈ notifications (db w) →
        notification_key n = id → Notification.userId n ≠ uid) →
  notificationsActions.patch_read env (mkRequest id uid role status q) w
  = mkOutcome (Ok tt) w [Respond 404 (BodyError "Notification not found" false)]
  ∧ notificationsActions.delete_notification env (mkRequest id uid role status q) w
    = mkOutcome (Ok tt) w [Respond 404 (BodyError "Notification not found" false)].
Proof.
  intros Hid Hf Hforeign.
  assert (∀ n, n ∈ notifications (db w) → ¬ notificationsActions.owned id uid n)
    as Hnone.
  { intros n Hn [Hk Hu]. by apply (Hforeign n). }
  split.
  - by apply patch_read_not_found.
  - by apply delete_not_found.
Qed.

Lemma foreign_notification_is_out_of_reach_witness :
  let w := Demo.with_ledger Demo.ledger (Demo.world PENDING) in
  notificationsActions.patch_read Demo.env (mkRequest "1" "alice" CUSTOMER EmptyString None) w
  = mkOutcome (Ok tt) w [Respond 404 (BodyError "Notification not found" false)]
  ∧ notificationsActions.delete_notification Demo.env
      (mkRequest "1" "alice" CUSTOMER EmptyString None) w
    = mkOutcome (Ok tt) w [Respond 404 (BodyError "Notification not found" false)].
Proof.
  intros w.
  apply (foreign_notification_is_out_of_reach Demo.env "1" "alice" CUSTOMER EmptyString None w).
  - discriminate.
  - reflexivity.
  - intros n Hn Hk. vm_compute in Hn.
    repeat (apply elem_of_cons in Hn as [->|Hn]; [first [discriminate | done]|]).
    by apply elem_of_nil in Hn.
Defined.

(** X13: marking a row of one's own as read is answered with 200; the
    row is read afterwards and is otherwise what it was, every other row is
    untouched, and no row is added or lost. *)
Theorem mark_read_touches_one_row env id uid role status q w n :
  id ≠ EmptyString →
  store_fault env TNotification = false →
  n ∈ notifications (db w) →
  notification_key n = id → Notification.userId n = uid →
  let o := notificationsActions.patch_read env (mkRequest id uid role status q) w in
  let after := notifications (db (world o)) in
  trace o = [Respond 200 (BodyMessage "Notification marked as read")]
  ∧ mark_read n ∈ after
  ∧ (∀ m, m ∈ after → notification_key m = id → Notification.userId m = uid →
          Notification.read m = true)
  ∧ (∀ m, m ∈ notifications (db w) →
          notification_key m ≠ id ∨ Notification.userId m ≠ uid → m ∈ after)
  ∧ Notification.id <$> after = Notification.id <$> notifications (db w)
  ∧ bookings (db (world o)) = bookings (db w)
  ∧ messages (db (world o)) = messages (db w).
Proof.
  intros Hid Hf Hin Hk Hu o after. subst o after.
  rewrite (patch_read_found env id uid role status q w Hid Hf n Hin (conj Hk Hu)).
  cbn [trace world db notifications set_notifications bookings messages].
  split; [done|]. split; [|split; [|split; [|split]]].
  - apply list_elem_of_fmap. exists n. split; [|done].
    by rewrite decide_True by done.
  - intros m Hm Hmk Hmu. apply list_elem_of_fmap in Hm as (m0 & -> & _).
    destruct (decide (notificationsActions.owned id uid m0)) as [|Hno]; [done|].
    exfalso. apply Hno. by split.
  - intros m Hm Hother. apply list_elem_of_fmap. exists m. split; [|done].
    rewrite decide_False; [done|]. intros [? ?]. by destruct Hother.
  - rewrite <- list_fmap_compose. apply list_fmap_ext. intros i m _. simpl.
    by destruct (decide _).
  - done.
Qed.

Lemma mark_read_touches_one_row_witness :
  let w := Demo.with_ledger Demo.ledger (Demo.world PENDING) in
  let o := notificationsActions.patch_read Demo.env
             (mkRequest "3" "alice" CUSTOMER EmptyString None) w in
  let after := notifications (db (world o)) in
  trace o = [Respond 200 (BodyMessage "Notification marked as read")]
  ∧ mark_read (Demo.row 3 "alice" false 40) ∈ after
  ∧ (∀ m, m ∈ after → notification_key m = "3" → Notification.userId m = "alice" →
          Notification.read m = true)
  ∧ (∀ m, m ∈ notifications (db w) →
          notification_key m ≠ "3" ∨ Notification.userId m ≠ "alice" → m ∈ after)
  ∧ Notification.id <$> after = Notification.id <$> notifications (db w)
  ∧ bookings (db (world o)) = bookings (db w)
  ∧ messages (db (world o)) = messages (db w).
Proof.
  intros w.
  apply (mark_read_touches_one_row Demo.env "3" "alice" CUSTOMER EmptyString None w
           (Demo.row 3 "alice" false 40)).
  - discriminate.
  - reflexivity.
  - do 3 apply list_elem_of_further. apply list_elem_of_here.
  - reflexivity.
  - reflexivity.
Defined.

(** X14: after "read all" the caller has no unread row left, so the
    unread count that follows is 0; rows of other users and rows that were
    read already are untouched, and no row is added or lost. *)
Theorem read_all_then_count env id uid role status q w :
  store_fault env TNotification = false →
  let o := notificationsActions.patch_read_all env (mkRequest id uid role status q) w in
  let after := notifications (db (world o)) in
  trace o = [Respond 200 (BodyMessage "All notifications marked as read")]
  ∧ notificationsActions.get_unread_count env (mkRequest id uid role status q) (world o)
    = mkOutcome (Ok (Some 0%nat)) (world o) []
  ∧ (∀ m, m ∈ notifications (db w) →
          Notification.userId m ≠ uid ∨ Notification.read m = true → m ∈ after)
  ∧ Notification.id <$> after = Notification.id <$> notifications (db w).
Proof.
  intros Hf o after. subst o after.
  rewrite (patch_read_all_ok env id uid role status q w Hf).
  cbn [trace world db notifications set_notifications].
  split; [done|]. split; [|split].
  - rewrite (get_unread_count_ok env _ _ Hf).
    cbn [userId db notifications set_notifications].
    rewrite (proj2 (count_zero (notificationsActions.unread_of uid) _)); [done|].
    intros m Hm [Hu Hr].
    apply list_elem_of_fmap in Hm as (m0 & -> & _).
    destruct (decide (notificationsActions.unread_of uid m0)) as [|Hno]; [done|].
    apply Hno. by split.
  - intros m Hm Hother. apply list_elem_of_fmap. exists m. split; [|done].
    rewrite decide_False; [done|]. intros [? ?].
    destruct Hother as [?|Hr]; [done|congruence].
  - rewrite <- list_fmap_compose. apply list_fmap_ext. intros i m _. simpl.
    by destruct (decide _).
Qed.

Lemma read_all_then_count_witness :
  let w := Demo.with_ledger Demo.ledger (Demo.world PENDING) in
  let req := mkRequest EmptyString "alice" CUSTOMER EmptyString None in
  let o := notificationsActions.patch_read_all Demo.env req w in
  let after := notifications (db (world o)) in
  trace o = [Respond 200 (BodyMessage "All notifications marked as read")]
  ∧ notificationsActions.get_unread_count Demo.env req (world o)
    = mkOutcome (Ok (Some 0%nat)) (world o) []
  ∧ (∀ m, m ∈ notifications (db w) →
          Notification.userId m ≠ "alice" ∨ Notification.read m = true → m ∈ after)
  ∧ Notification.id <$> after = Notification.id <$> notifications (db w).
Proof.
  intros w req.
  apply (read_all_then_count Demo.env EmptyString "alice" CUSTOMER EmptyString None w).
  reflexivity.
Defined.

(** X15: deleting a row of one's own is answered with 200; no row with
    that id and owner is left, and every other row stays, in its place. *)
Theorem delete_removes_own_row_only env id uid role status q w n :
  id ≠ EmptyString →
  store_fault env TNotification = false →
  n ∈ notifications (db w) →
  notification_key n = id → Notification.userId n = uid →
  let o := notificationsActions.delete_notification env
             (mkRequest id uid role status q) w in
  let after := notifications (db (world o)) in
  trace o = [Respond 200 (BodyMessage "Notification deleted")]
  ∧ (∀ m, m ∈ after → ¬ (notification_key m = id ∧ Notification.userId m = uid))
  ∧ (∀ m, m ∈ notifications (db w) →
          notification_key m ≠ id ∨ Notification.userId m ≠ uid → m ∈ after)
  ∧ after `sublist_of` notifications (db w)
  ∧ bookings (db (world o)) = bookings (db w)
  ∧ messages (db (world o)) = messages (db w).
Proof.
  intros Hid Hf Hin Hk Hu o after. subst o after.
  rewrite (delete_found env id uid role status q w Hid Hf n Hin (conj Hk Hu)).
  cbn [trace world db notifications set_notifications bookings messages].
  split; [done|]. split; [|split; [|split]].
  - intros m Hm. by apply list_elem_of_filter in Hm as [Hm _].
  - intros m Hm Hother. apply list_elem_of_filter. split; [|done].
    intros [? ?]. by destruct Hother.
  - apply sublist_filter.
  - done.
Qed.

Lemma delete_removes_own_row_only_witness :
  let w := Demo.with_ledger Demo.ledger (Demo.world PENDING) in
  let o := notificationsActions.delete_notification Demo.env
             (mkRequest "2" "alice" CUSTOMER EmptyString None) w in
  let after := notifications (db (world o)) in
  trace o = [Respond 200 (BodyMessage "Notification deleted")]
  ∧ (∀ m, m ∈ after → ¬ (notification_key m = "2" ∧ Notification.userId m = "alice"))
  ∧ (∀ m, m ∈ notifications (db w) →
          notification_key m ≠ "2" ∨ Notification.userId m ≠ "alice" → m ∈ after)
  ∧ after `sublist_of` notifications (db w)
  ∧ bookings (db (world o)) = bookings (db w)
  ∧ messages (db (world o)) = messages (db w).
Proof.
  intros w.
  apply (delete_removes_own_row_only Demo.env "2" "alice" CUSTOMER EmptyString None w
           (Demo.row 2 "alice" true 30)).
  - discriminate.
  - reflexivity.
  - do 2 apply list_elem_of_further. apply list_elem_of_here.
  - reflexivity.
  - reflexivity.
Defined.

(** ** routes/messages.ts: the history of a booking *)

Section get_messages.
Variables (env : Env) (id uid : string) (role : Role) (status : string)
          (q : option string) (w : World).
Hypothesis Hid : id ≠ EmptyString.
Hypothesis Hstore : store_fault env TBooking = false.

#[local] Abbreviation req := (mkRequest id uid role status q).

Lemma get_messages_refused :
  ¬ participant (db w) id uid →
  ∃ code message,
    messagesRouter.get_messages env req w
    = mkOutcome (Ok None) w [Respond code (BodyError message false)]
    ∧ (code, message)
      = match bookings (db w) !! id with
        | Some _ => (403%nat, "Access denied")
        | None => (404%nat, "Booking not found")
        end.
Proof.
  intros Hn. unfold messagesRouter.get_messages. cbv zeta.
  cbn [params_id userId]. rewrite decide_False by done.
  destruct (bookings (db w) !! id) as [b|] eqn:Hb.
  - exists 403%nat, "Access denied". split; [|done].
    apply try_catch_Ok.
    erewrite bind_Ok
      by (apply prisma_read; [done|]; unfold booking_findUnique; by rewrite Hb).
    cbv beta iota. rewrite bool_decide_eq_true_2.
    + unfold next, errorHandler. simpl.
      erewrite bind_Ok by (by erewrite bind_Ok by reflexivity). done.
    + split; intros Heq; apply Hn; exists b; auto.
  - exists 404%nat, "Booking not found". split; [|done].
    apply try_catch_Ok.
    erewrite bind_Ok
      by (apply prisma_read; [done|]; unfold booking_findUnique; by rewrite Hb).
    cbv beta iota. unfold next, errorHandler. simpl.
    erewrite bind_Ok by (by erewrite bind_Ok by reflexivity). done.
Qed.

Lemma get_messages_granted :
  store_fault env TMessage = false →
  participant (db w) id uid →
  messagesRouter.get_messages env req w
  = mkOutcome
      (Ok (Some ((λ m, mkMessageWithSender m (users (db w) !! Message.senderId m))
                   <$> messagesRouter.of_booking (db w) id)))
      w [].
Proof.
  intros Hm (b & Hb & Hp). unfold messagesRouter.get_messages. cbv zeta.
  cbn [params_id userId]. rewrite decide_False by done.
  apply try_catch_Ok.
  erewrite bind_Ok
    by (apply prisma_read; [done|]; unfold booking_findUnique; by rewrite Hb).
  cbv beta iota. rewrite bool_decide_eq_false_2 by (intros [? ?]; by destruct Hp).
  by erewrite bind_Ok by (by apply prisma_read).
Qed.

End get_messages.

Lemma of_booking_elem d bookingId m :
  m ∈ messagesRouter.of_booking d bookingId
  ↔ Message.bookingId m = bookingId ∧ m ∈ messages d.
Proof.
  unfold messagesRouter.of_booking.
  by rewrite merge_sort_Permutation, list_elem_of_filter.
Qed.

Lemma of_booking_sorted d bookingId :
  StronglySorted messagesRouter.createdAt_asc (messagesRouter.of_booking d bookingId).
Proof. apply StronglySorted_merge_sort; apply _. Qed.

Lemma with_sender_msg (d : Db) (l : list Message.t) :
  msg <$> ((λ m, mkMessageWithSender m (users d !! Message.senderId m)) <$> l) = l.
Proof. induction l as [|m l IH]; [done|]. by rewrite !fmap_cons, IH. Qed.

(** X16: the history of a booking is disclosed to its customer and its
    provider only: anybody else, an administrator included, is answered
    with 403 (404 when the booking does not exist), gets no message and
    changes nothing. *)
Theorem history_is_for_participants env id uid role status q w :
  id ≠ EmptyString →
  store_fault env TBooking = false →
  ¬ participant (db w) id uid →
  let o := messagesRouter.get_messages env (mkRequest id uid role status q) w in
  result o = Ok None
  ∧ world o = w
  ∧ responses (trace o)
    = [match bookings (db w) !! id with
       | Some _ => (403%nat, BodyError "Access denied" false)
       | None => (404%nat, BodyError "Booking not found" false)
       end].
Proof.
  intros Hid Hf Hn o. subst o.
  destruct (get_messages_refused env id uid role status q w Hid Hf Hn)
    as (code & message & -> & Hcm).
  cbn [result world trace]. split; [done|]. split; [done|].
  destruct (bookings (db w) !! id); by injection Hcm as -> ->.
Qed.

Lemma history_is_for_participants_witness :
  let o := messagesRouter.get_messages Demo.env
             (mkRequest "b1" "root" ADMIN EmptyString None) (Demo.world ACCEPTED) in
  result o = Ok None
  ∧ world o = Demo.world ACCEPTED
  ∧ responses (trace o)
    = [match bookings (db (Demo.world ACCEPTED)) !! "b1" with
       | Some _ => (403%nat, BodyError "Access denied" false)
       | None => (404%nat, BodyError "Booking not found" false)
       end].
Proof.
  apply (history_is_for_participants Demo.env "b1" "root" ADMIN EmptyString None
           (Demo.world ACCEPTED)).
  - discriminate.
  - reflexivity.
  - intros (b & Hb & Hp). vm_compute in Hb. injection Hb as <-.
    destruct Hp as [Hp | Hp]; discriminate Hp.
Defined.

(** X17: a participant gets the messages of the booking, all of them and
    no message of another booking, each with its sender, the oldest first;
    reading the history changes nothing. *)
Theorem history_of_a_booking env id uid role status q w :
  id ≠ EmptyString →
  store_fault env TBooking = false →
  store_fault env TMessage = false →
  participant (db w) id uid →
  let o := messagesRouter.get_messages env (mkRequest id uid role status q) w in
  ∃ history,
    o = mkOutcome (Ok (Some history)) w []
    ∧ (∀ m, m ∈ msg <$> history ↔ Message.bookingId m = id ∧ m ∈ messages (db w))
    ∧ StronglySorted messagesRouter.createdAt_asc (msg <$> history)
    ∧ (∀ x, x ∈ history → msg_sender x = users (db w) !! Message.senderId (msg x)).
Proof.
  intros Hid Hf Hm Hp o. subst o.
  rewrite (get_messages_granted env id uid role status q w Hid Hf Hm Hp).
  eexists. split; [reflexivity|].
  rewrite with_sender_msg. split; [|split].
  - intros m. apply of_booking_elem.
  - apply of_booking_sorted.
  - intros x Hx. by apply list_elem_of_fmap in Hx as (m & -> & _).
Qed.

Lemma history_of_a_booking_witness :
  let w := world (socket.send_message Demo.env (Demo.socket_of Demo.alice 1) "b1"
                    [0x20; 0x68; 0x69]%N (Demo.world ACCEPTED)) in
  let o := messagesRouter.get_messages Demo.env
             (mkRequest "b1" "bob" PROVIDER EmptyString None) w in
  ∃ history,
    o = mkOutcome (Ok (Some history)) w []
    ∧ (∀ m, m ∈ msg <$> history ↔ Message.bookingId m = "b1" ∧ m ∈ messages (db w))
    ∧ StronglySorted messagesRouter.createdAt_asc (msg <$> history)
    ∧ (∀ x, x ∈ history → msg_sender x = users (db w) !! Message.senderId (msg x)).
Proof.
  intros w.
  apply (history_of_a_booking Demo.env "b1" "bob" PROVIDER EmptyString None w).
  - discriminate.
  - reflexivity.
  - reflexivity.
  - exists (Demo.booking ACCEPTED). split; [reflexivity | right; reflexivity].
Defined.

(** ** lib/socket.ts: what a send leaves behind *)

(** The ledger row of a message-received event. *)
Lemma notifyMessageReceived_world env message recipientId s w :
  ∃ t,
    try_catch (notifyMessageReceived env message recipientId ;;; ret tt)
      (λ _, console_error s) w
    = mkOutcome (Ok tt)
        (if store_fault env TNotification then w
         else with_notification
                (notification_row
                   (mkParams recipientId MESSAGE_RECEIVED "New Message"
                      ("You have a new message in booking #"
                       +:+ slice_0_8 (Message.bookingId (msg message)))
                      (Some "/bookings") (Some (Message.bookingId (msg message)))
                      (Some (Message.id (msg message)))) (db w)) w)
        t
    ∧ responses t = [] ∧ socket_emits t = []
    ∧ ∀ bookingId, emitted_to (socket.booking_room bookingId) t = [].
Proof.
  set (text := "You have a new message in booking #"
               +:+ slice_0_8 (Message.bookingId (msg message))).
  set (params :=
         mkParams recipientId MESSAGE_RECEIVED "New Message" text
           (Some "/bookings") (Some (Message.bookingId (msg message)))
           (Some (Message.id (msg message)))).
  destruct (store_fault env TNotification) eqn:Hn.
  - destruct (createNotification_fault env params w Hn) as [e He].
    eexists.
    erewrite try_catch_Throw
      by (apply bind_Throw; unfold notifyMessageReceived; by apply bind_Throw).
    split; [reflexivity|]. done.
  - pose proof (createNotification_ok env params w Hn) as Hc. simpl in Hc.
    set (row := notification_row params (db w)) in *.
    destruct (try_catch_returns
                (sendEmailNotification env recipientId message_received
                   (mkEmailData "New Message" text (Some "/bookings")
                      (Some (Message.bookingId (msg message))) None None None None))
                (λ _, console_error "Failed to send email notification:")
                (with_notification row w)) as (t & Hm & Hr & Hbc & Hse).
    { apply sendEmailNotification_harmless. }
    { by eexists. }
    assert (notifyMessageReceived env message recipientId w
            = mkOutcome (Ok row) (with_notification row w) (pushed env row ++ t))
      as Hnotify.
    { unfold notifyMessageReceived. fold text params.
      rewrite (bind_Ok _ _ _ _ _ _ Hc). cbv beta.
      rewrite (bind_Ok _ _ _ _ _ _ Hm). unfold prepend, ret. simpl.
      by rewrite app_nil_r. }
    exists (pushed env row ++ t).
    split.
    { apply try_catch_Ok.
      rewrite (bind_Ok _ _ _ _ _ _ Hnotify). unfold prepend, ret. simpl.
      by rewrite app_nil_r. }
    repeat split.
    + unfold responses. rewrite omap_app. fold (responses t). rewrite Hr.
      unfold pushed. by destruct (io env).
    + unfold socket_emits. rewrite omap_app. fold (socket_emits t). rewrite Hse.
      unfold pushed. by destruct (io env).
    + intros bookingId.
      by rewrite emitted_to_app, emitted_to_pushed, (silent_emitted_to _ _ Hbc).
Qed.

Section send_message_world.
Variables (env : Env) (s : socket.Socket) (bookingId : string) (body : jsstring)
          (w : World) (b : Booking.t).
Hypothesis Hstore : store_fault env TBooking = false.
Hypothesis Hb : bookings (db w) !! bookingId = Some b.
Hypothesis Hpart : Booking.customerId b = socket.data_userId s
                   ∨ Booking.providerId b = socket.data_userId s.

#[local] Abbreviation sender := (socket.data_userId s).
#[local] Abbreviation row := (socket.message_row bookingId (trim body) sender (db w)).
#[local] Abbreviation stored := (mkWorld (add_message row (db w)) (rooms w)).
#[local] Abbreviation recipient :=
  (if decide (Booking.customerId b = sender)
   then Booking.providerId b else Booking.customerId b).
#[local] Abbreviation event :=
  (notification_row
     (mkParams recipient MESSAGE_RECEIVED "New Message"
        ("You have a new message in booking #" +:+ slice_0_8 bookingId)
        (Some "/bookings") (Some bookingId) (Some (Message.id row)))
     (db stored)).

Lemma send_message_stored :
  store_fault env TMessage = false →
  io env = true →
  ∃ t,
    socket.send_message env s bookingId body w
    = mkOutcome (Ok tt)
        (if store_fault env TNotification then stored
         else with_notification event stored)
        (RoomEmit (socket.booking_room bookingId) "new_message"
           (PNewMessage (mkMessageWithSender row (users (db w) !! sender))) :: t)
    ∧ responses t = [] ∧ socket_emits t = []
    ∧ emitted_to (socket.booking_room bookingId) t = [].
Proof.
  intros Hm Hio.
  destruct (notifyMessageReceived_world env
              (mkMessageWithSender row (users (db w) !! sender)) recipient
              "Failed to send message notification:" stored)
    as (t & Hn & Hr & Hse & Hroom).
  exists t. split; [|auto].
  unfold socket.send_message. cbv zeta.
  apply try_catch_Ok.
  erewrite bind_Ok
    by (apply prisma_read; [done|]; unfold booking_findUnique; by rewrite Hb).
  cbv beta iota. rewrite bool_decide_eq_false_2 by (intros [? ?]; by destruct Hpart).
  erewrite bind_Ok by (by apply prisma_ok).
  cbv beta. unfold socket.io_to_emit. rewrite Hio.
  erewrite bind_Ok by reflexivity.
  rewrite Hn. reflexivity.
Qed.

Lemma send_message_not_stored :
  store_fault env TMessage = true →
  socket.send_message env s bookingId body w
  = mkOutcome (Ok tt) w
      [ConsoleError "Error sending message:";
       SocketEmit (socket.socket_id s) "error" (PError "Failed to send message")].
Proof.
  intros Hm. unfold socket.send_message. cbv zeta.
  erewrite try_catch_Throw; cycle 1.
  { erewrite bind_Ok
      by (apply prisma_read; [done|]; unfold booking_findUnique; by rewrite Hb).
    cbv beta iota. rewrite bool_decide_eq_false_2 by (intros [? ?]; by destruct Hpart).
    rewrite prepend_nil. apply bind_Throw. by apply prisma_down. }
  by erewrite bind_Ok by reflexivity.
Qed.

End send_message_world.

(** X18: a message sent by a participant shows up in the history that
    the other participant (or the sender) reads afterwards, with its body
    trimmed and under the sender's id; the messages that were there stay. *)
Theorem sent_message_is_in_history env s bookingId body reader role status q w :
  bookingId ≠ EmptyString →
  store_fault env TBooking = false →
  store_fault env TMessage = false →
  io env = true →
  participant (db w) bookingId (socket.data_userId s) →
  participant (db w) bookingId reader →
  let sent := socket.send_message env s bookingId body w in
  let read := messagesRouter.get_messages env
                (mkRequest bookingId reader role status q) (world sent) in
  ∃ history m,
    result read = Ok (Some history)
    ∧ m ∈ msg <$> history
    ∧ Message.body m = trim body
    ∧ Message.senderId m = socket.data_userId s
    ∧ ∀ old, old ∈ messages (db w) → Message.bookingId old = bookingId →
             old ∈ msg <$> history.
Proof.
  intros Hid Hf Hm Hio (b & Hb & Hp) (b' & Hb' & Hp') sent read.
  assert (b' = b) as -> by congruence.
  destruct (send_message_stored env s bookingId body w b Hf Hb Hp Hm Hio)
    as (t & Hsent & _).
  set (row := socket.message_row bookingId (trim body) (socket.data_userId s) (db w)).
  assert (bookings (db (world sent)) = bookings (db w)
          ∧ messages (db (world sent)) = messages (db w) ++ [row]) as [Hbk Hmsg].
  { subst sent. rewrite Hsent. by destruct (store_fault env TNotification). }
  assert (participant (db (world sent)) bookingId reader) as Hreader.
  { exists b. rewrite Hbk. by split. }
  subst read.
  rewrite (get_messages_granted env bookingId reader role status q (world sent)
             Hid Hf Hm Hreader).
  eexists _, row. split; [reflexivity|].
  rewrite with_sender_msg. split; [|split; [done|split; [done|]]].
  - apply of_booking_elem. split; [done|]. rewrite Hmsg.
    apply elem_of_app. right. apply list_elem_of_here.
  - intros old Hold Hbid. apply of_booking_elem. split; [done|].
    rewrite Hmsg. apply elem_of_app. by left.
Qed.

Lemma sent_message_is_in_history_witness :
  let sent := socket.send_message Demo.env (Demo.socket_of Demo.alice 1) "b1"
                [0x20; 0x68; 0x69]%N (Demo.world ACCEPTED) in
  let read := messagesRouter.get_messages Demo.env
                (mkRequest "b1" "bob" PROVIDER EmptyString None) (world sent) in
  ∃ history m,
    result read = Ok (Some history)
    ∧ m ∈ msg <$> history
    ∧ Message.body m = trim [0x20; 0x68; 0x69]%N
    ∧ Message.senderId m = "alice"
    ∧ ∀ old, old ∈ messages (db (Demo.world ACCEPTED)) →
             Message.bookingId old = "b1" → old ∈ msg <$> history.
Proof.
  apply (sent_message_is_in_history Demo.env (Demo.socket_of Demo.alice 1) "b1"
           [0x20; 0x68; 0x69]%N "bob" PROVIDER EmptyString None (Demo.world ACCEPTED)).
  - discriminate.
  - reflexivity.
  - reflexivity.
  - reflexivity.
  - exists (Demo.booking ACCEPTED). split; [reflexivity | left; reflexivity].
  - exists (Demo.booking ACCEPTED). split; [reflexivity | right; reflexivity].
Defined.

(** X19: a participant's message writes one message-received row for
    the other participant of the booking: for the provider when the customer
    wrote, for the customer when the provider wrote; the row names the
    booking and the message. *)
Theorem message_notifies_the_other_party env s bookingId body w b :
  store_fault env TBooking = false →
  store_fault env TMessage = false →
  store_fault env TNotification = false →
  io env = true →
  bookings (db w) !! bookingId = Some b →
  Booking.customerId b ≠ Booking.providerId b →
  Booking.customerId b = socket.data_userId s
  ∨ Booking.providerId b = socket.data_userId s →
  let o := socket.send_message env s bookingId body w in
  ∃ n m,
    notifications (db (world o)) = notifications (db w) ++ [n]
    ∧ messages (db (world o)) = messages (db w) ++ [m]
    ∧ Notification.userId n = counterparty b (socket.data_userId s)
    ∧ Notification.userId n ≠ socket.data_userId s
    ∧ Notification.type n = MESSAGE_RECEIVED
    ∧ Notification.bookingId n = Some bookingId
    ∧ Notification.messageId n = Some (Message.id m)
    ∧ Notification.read n = false.
Proof.
  intros Hf Hm Hn Hio Hb Hne Hp o.
  destruct (send_message_stored env s bookingId body w b Hf Hb Hp Hm Hio)
    as (t & Hsent & _).
  subst o. rewrite Hsent, Hn. cbn [world db with_notification add_notification
    notifications messages add_message].
  eexists _, _. split; [reflexivity|]. split; [reflexivity|].
  cbn [notification_row Notification.userId Notification.type Notification.bookingId
       Notification.messageId Notification.read p_userId p_type p_bookingId
       p_messageId].
  unfold counterparty.
  destruct Hp as [Hc|Hpv].
  - rewrite decide_True by done.
    rewrite decide_False by (intros Heq; congruence).
    repeat split; try done. congruence.
  - rewrite decide_False by congruence.
    rewrite decide_True by done.
    repeat split; try done. congruence.
Qed.

Lemma message_notifies_the_other_party_witness :
  let o := socket.send_message Demo.env (Demo.socket_of Demo.bob 7) "b1"
             [0x68; 0x69]%N (Demo.world ACCEPTED) in
  ∃ n m,
    notifications (db (world o)) = notifications (db (Demo.world ACCEPTED)) ++ [n]
    ∧ messages (db (world o)) = messages (db (Demo.world ACCEPTED)) ++ [m]
    ∧ Notification.userId n = counterparty (Demo.booking ACCEPTED) "bob"
    ∧ Notification.userId n ≠ "bob"
    ∧ Notification.type n = MESSAGE_RECEIVED
    ∧ Notification.bookingId n = Some "b1"
    ∧ Notification.messageId n = Some (Message.id m)
    ∧ Notification.read n = false.
Proof.
  apply (message_notifies_the_other_party Demo.env (Demo.socket_of Demo.bob 7) "b1"
           [0x68; 0x69]%N (Demo.world ACCEPTED) (Demo.booking ACCEPTED)).
  - reflexivity.
  - reflexivity.
  - reflexivity.
  - reflexivity.
  - reflexivity.
  - discriminate.
  - right. reflexivity.
Defined.

(** X20: when the messages table is out of reach a participant's send
    stores and broadcasts nothing, writes no notification, and the sender
    is told "Failed to send message". *)
Theorem message_outage_fails_the_send env s bookingId body w b :
  store_fault env TBooking = false →
  store_fault env TMessage = true →
  bookings (db w) !! bookingId = Some b →
  Booking.customerId b = socket.data_userId s
  ∨ Booking.providerId b = socket.data_userId s →
  let o := socket.send_message env s bookingId body w in
  world o = w
  ∧ broadcasts (trace o) = []
  ∧ socket_emits (trace o)
    = [(socket.socket_id s, "error", PError "Failed to send message")].
Proof.
  intros Hf Hm Hb Hp o. subst o.
  by rewrite (send_message_not_stored env s bookingId body w b Hf Hb Hp Hm).
Qed.

Lemma message_outage_fails_the_send_witness :
  let env := mkEnv true "http://localhost:5173" None true
               (λ t, match t with TMessage => true | _ => false end) in
  let o := socket.send_message env (Demo.socket_of Demo.alice 1) "b1"
             [0x68; 0x69]%N (Demo.world ACCEPTED) in
  world o = Demo.world ACCEPTED
  ∧ broadcasts (trace o) = []
  ∧ socket_emits (trace o) = [(1%nat, "error", PError "Failed to send message")].
Proof.
  intros env.
  apply (message_outage_fails_the_send env (Demo.socket_of Demo.alice 1) "b1"
           [0x68; 0x69]%N (Demo.world ACCEPTED) (Demo.booking ACCEPTED)).
  - reflexivity.
  - reflexivity.
  - reflexivity.
  - left. reflexivity.
Defined.

(** X21: the chat does not depend on the ledger: with the ledger out of
    reach a participant's message is stored and broadcast as usual and the
    sender gets no error; only the notification row is missing. *)
Theorem ledger_outage_spares_the_chat env s bookingId body w b :
  store_fault env TBooking = false →
  store_fault env TMessage = false →
  store_fault env TNotification = true →
  io env = true →
  bookings (db w) !! bookingId = Some b →
  Booking.customerId b = socket.data_userId s
  ∨ Booking.providerId b = socket.data_userId s →
  let o := socket.send_message env s bookingId body w in
  ∃ m,
    result o = Ok tt
    ∧ messages (db (world o)) = messages (db w) ++ [m]
    ∧ Message.body m = trim body
    ∧ notifications (db (world o)) = notifications (db w)
    ∧ emitted_to (socket.booking_room bookingId) (trace o)
      = [("new_message",
          PNewMessage (mkMessageWithSender m (users (db w) !! socket.data_userId s)))]
    ∧ socket_emits (trace o) = [].
Proof.
  intros Hf Hm Hn Hio Hb Hp o.
  destruct (send_message_stored env s bookingId body w b Hf Hb Hp Hm Hio)
    as (t & Hsent & Hr & Hse & Hroom).
  subst o. rewrite Hsent, Hn. eexists. split; [reflexivity|].
  cbn [world db messages add_message notifications trace].
  split; [reflexivity|]. split; [reflexivity|]. split; [reflexivity|].
  split.
  - change (RoomEmit ?r ?e ?p :: t) with ([RoomEmit r e p] ++ t).
    rewrite emitted_to_app, Hroom. unfold emitted_to. cbn [omap list_omap].
    by rewrite decide_True.
  - by cbn [socket_emits omap list_omap].
Qed.

Lemma ledger_outage_spares_the_chat_witness :
  let env := mkEnv true "http://localhost:5173" None true
               (λ t, match t with TNotification => true | _ => false end) in
  let o := socket.send_message env (Demo.socket_of Demo.alice 1) "b1"
             [0x68; 0x69]%N (Demo.world ACCEPTED) in
  ∃ m,
    result o = Ok tt
    ∧ messages (db (world o)) = messages (db (Demo.world ACCEPTED)) ++ [m]
    ∧ Message.body m = trim [0x68; 0x69]%N
    ∧ notifications (db (world o)) = notifications (db (Demo.world ACCEPTED))
    ∧ emitted_to (socket.booking_room "b1") (trace o)
      = [("new_message",
          PNewMessage (mkMessageWithSender m
                         (users (db (Demo.world ACCEPTED)) !! "alice")))]
    ∧ socket_emits (trace o) = [].
Proof.
  intros env.
  apply (ledger_outage_spares_the_chat env (Demo.socket_of Demo.alice 1) "b1"
           [0x68; 0x69]%N (Demo.world ACCEPTED) (Demo.booking ACCEPTED)).
  - reflexivity.
  - reflexivity.
  - reflexivity.
  - reflexivity.
  - reflexivity.
  - left. reflexivity.
Defined.

(** ** lib/socket.ts: rooms *)

(** X22: a participant's join puts the connection into the room of the
    booking and does nothing else; a later leave takes it out again, and
    neither touches the membership of any other connection or room. *)
Theorem join_then_leave env s bookingId w b :
  store_fault env TBooking = false →
  bookings (db w) !! bookingId = Some b →
  Booking.customerId b = socket.data_userId s
  ∨ Booking.providerId b = socket.data_userId s →
  let member := (socket.socket_id s, socket.booking_room bookingId) in
  let j := socket.join_booking env s bookingId w in
  let l := socket.leave_booking s bookingId (world j) in
  result j = Ok tt
  ∧ db (world j) = db w
  ∧ silent (trace j)
  ∧ member ∈ rooms (world j)
  ∧ (member ∉ rooms (world l))
  ∧ db (world l) = db w
  ∧ ∀ other, other ≠ member →
      (other ∈ rooms (world j) ↔ other ∈ rooms w)
      ∧ (other ∈ rooms (world l) ↔ other ∈ rooms w).
Proof.
  intros Hf Hb Hp member j l.
  assert (j = mkOutcome (Ok tt)
                (mkWorld (db w) ({[ member ]} ∪ rooms w))
                [ConsoleLog ("User " +:+ socket.data_userId s +:+ " joined booking:"
                             +:+ bookingId)]) as Hj.
  { subst j. unfold socket.join_booking.
    apply try_catch_Ok.
    erewrite bind_Ok
      by (apply prisma_read; [done|]; unfold booking_findUnique; by rewrite Hb).
    cbv beta iota. rewrite bool_decide_eq_true_2 by done.
    by erewrite bind_Ok by reflexivity. }
  subst l. rewrite Hj. unfold socket.leave_booking.
  erewrite bind_Ok by reflexivity.
  cbn [result world trace db rooms prepend console_log effect].
  split; [done|]. split; [done|]. split; [done|].
  split; [|split; [|split; [done|]]].
  - apply elem_of_union. left. by apply elem_of_singleton.
  - intros Hin. apply elem_of_difference in Hin as [_ Hout].
    apply Hout. by apply elem_of_singleton.
  - intros other Hother.
    rewrite elem_of_difference, !elem_of_union, !elem_of_singleton.
    intuition congruence.
Qed.

Lemma join_then_leave_witness :
  let s := Demo.socket_of Demo.bob 7 in
  let w := Demo.world ACCEPTED in
  let member := (socket.socket_id s, socket.booking_room "b1") in
  let j := socket.join_booking Demo.env s "b1" w in
  let l := socket.leave_booking s "b1" (world j) in
  result j = Ok tt
  ∧ db (world j) = db w
  ∧ silent (trace j)
  ∧ member ∈ rooms (world j)
  ∧ (member ∉ rooms (world l))
  ∧ db (world l) = db w
  ∧ ∀ other, other ≠ member →
      (other ∈ rooms (world j) ↔ other ∈ rooms w)
      ∧ (other ∈ rooms (world l) ↔ other ∈ rooms w).
Proof.
  intros s w.
  apply (join_then_leave Demo.env s "b1" w (Demo.booking ACCEPTED)).
  - reflexivity.
  - reflexivity.
  - right. reflexivity.
Defined.

(** X23: the personal room that a connection joins when it is set up is
    the room that createNotification pushes to for that user: a connected
    recipient is a member of the room its notification is emitted to. *)
Theorem connected_recipient_is_pushed_to env s params w :
  store_fault env TNotification = false →
  io env = true →
  p_userId params = socket.data_userId s →
  let c := socket.on_connection s w in
  let o := createNotification env params (world c) in
  ∃ n room,
    result o = Ok n
    ∧ notifications (db (world o)) = notifications (db w) ++ [n]
    ∧ broadcasts (trace o) = [(room, "new_notification", PNotification n)]
    ∧ (socket.socket_id s, room) ∈ rooms (world o).
Proof.
  intros Hf Hio Hu c o.
  assert (c = mkOutcome (Ok tt)
                (mkWorld (db w)
                   ({[ (socket.socket_id s, socket.user_room (socket.data_userId s)) ]}
                    ∪ rooms w))
                [ConsoleLog ("User connected: " +:+ socket.data_userId s);
                 ConsoleLog ("User " +:+ socket.data_userId s
                             +:+ " joined notification room")]) as Hc.
  { subst c. unfold socket.on_connection.
    erewrite bind_Ok by reflexivity.
    by erewrite bind_Ok by reflexivity. }
  subst o. rewrite Hc. cbn [world].
  rewrite (createNotification_ok env params _ Hf).
  unfold pushed. rewrite Hio.
  eexists _, _. split; [reflexivity|]. split; [reflexivity|].
  split; [reflexivity|].
  cbn [world with_notification rooms notification_row Notification.userId].
  rewrite Hu. apply elem_of_union. left. by apply elem_of_singleton.
Qed.

Lemma connected_recipient_is_pushed_to_witness :
  let s := Demo.socket_of Demo.alice 1 in
  let params := mkParams "alice" BOOKING_ACCEPTED "Booking Accepted"
                  "Bob accepted your booking request for Plumbing"
                  (Some "/bookings") (Some "b1") None in
  let c := socket.on_connection s (Demo.world ACCEPTED) in
  let o := createNotification Demo.env params (world c) in
  ∃ n room,
    result o = Ok n
    ∧ notifications (db (world o)) = notifications (db (Demo.world ACCEPTED)) ++ [n]
    ∧ broadcasts (trace o) = [(room, "new_notification", PNotification n)]
    ∧ (socket.socket_id s, room) ∈ rooms (world o).
Proof.
  intros s params.
  apply (connected_recipient_is_pushed_to Demo.env s params (Demo.world ACCEPTED)).
  - reflexivity.
  - reflexivity.
  - reflexivity.
Defined.

(** X24: the body that send_message stores neither starts nor ends with
    a white-space code unit, and a body of white space alone is stored as
    the empty string. *)
Theorem stored_body_is_trimmed env s bookingId body w :
  store_fault env TBooking = false →
  store_fault env TMessage = false →
  io env = true →
  participant (db w) bookingId (socket.data_userId s) →
  let o := socket.send_message env s bookingId body w in
  ∃ m,
    messages (db (world o)) = messages (db w) ++ [m]
    ∧ (∀ c, head (Message.body m) = Some c → isWhiteSpace c = false)
    ∧ (∀ c, last (Message.body m) = Some c → isWhiteSpace c = false)
    ∧ (Forall (λ c, isWhiteSpace c = true) body → Message.body m = []).
Proof.
  intros Hf Hm Hio Hp o.
  destruct (send_message_delivers env s bookingId body w Hf Hm Hio Hp)
    as (_ & Hmsgs & _).
  eexists. split; [exact Hmsgs|]. cbn [socket.message_row Message.body].
  split; [|split].
  - intros c Hc. destruct (trim body) as [|d r] eqn:Ht; [done|].
    injection Hc as ->. by eapply trim_head.
  - intros c. apply trim_last.
  - apply trim_blank.
Qed.

Lemma stored_body_is_trimmed_witness :
  let o := socket.send_message Demo.env (Demo.socket_of Demo.alice 1) "b1"
             [0x09; 0x68; 0x69; 0xA0]%N (Demo.world ACCEPTED) in
  ∃ m,
    messages (db (world o)) = messages (db (Demo.world ACCEPTED)) ++ [m]
    ∧ (∀ c, head (Message.body m) = Some c → isWhiteSpace c = false)
    ∧ (∀ c, last (Message.body m) = Some c → isWhiteSpace c = false)
    ∧ (Forall (λ c, isWhiteSpace c = true) [0x09; 0x68; 0x69; 0xA0]%N →
       Message.body m = []).
Proof.
  apply (stored_body_is_trimmed Demo.env (Demo.socket_of Demo.alice 1) "b1"
           [0x09; 0x68; 0x69; 0xA0]%N (Demo.world ACCEPTED)).
  - reflexivity.
  - reflexivity.
  - reflexivity.
  - exists (Demo.booking ACCEPTED). split; [reflexivity | left; reflexivity].
Defined.

(** ** lib/email.ts: when a mail goes out *)

Lemma prefix_append (a b : string) : String.prefix a (a +:+ b) = true.
Proof.
  induction a as [|c a IH]; simpl; [by destruct b|].
  by destruct (Ascii.ascii_dec c c).
Qed.

Lemma getUserEmail_down env userId w :
  store_fault env TUser = true →
  getUserEmail env userId w
  = mkOutcome (Ok None) w [ConsoleError "Failed to get user email:"].
Proof.
  intros Hf. unfold getUserEmail.
  erewrite try_catch_Throw by (apply bind_Throw; by apply prisma_down).
  by erewrite bind_Ok by reflexivity.
Qed.

Lemma getUserEmail_reachable env userId w :
  store_fault env TUser = false →
  getUserEmail env userId w
  = mkOutcome
      (Ok (match users (db w) !! userId with
           | Some u => if decide (User.email u = EmptyString) then None else Some (User.email u)
           | None => None
           end))
      w [].
Proof.
  intros Hf. unfold getUserEmail. apply try_catch_Ok.
  by erewrite bind_Ok by (by apply prisma_read).
Qed.

(** The mail that sendEmailNotification hands to the transporter. *)
Lemma sendEmailNotification_enabled env userId type data w tr :
  EMAIL_ENABLED env = true →
  transporter env = Some tr →
  sendEmailNotification env userId type data w
  = mkOutcome (Ok tt) w
      (if store_fault env TUser
       then [ConsoleError "Failed to get user email:";
             ConsoleLog ("No email found for user " +:+ userId)]
       else match users (db w) !! userId with
            | Some u =>
                if decide (User.email u = EmptyString)
                then [ConsoleLog ("No email found for user " +:+ userId)]
                else
                  let '(subject, html) :=
                    getEmailTemplate env type
                      (mkTemplateData (or_else (Some (User.fullName u)) "User") data) in
                  let mail := mkEmailOptions (User.email u) subject html in
                  if tr mail
                  then [MailSent mail; ConsoleLog ("Email sent to " +:+ User.email u)]
                  else [ConsoleError "Failed to send email:"]
            | None => [ConsoleLog ("No email found for user " +:+ userId)]
            end).
Proof.
  intros Hen Htr. unfold sendEmailNotification. rewrite Hen, Htr. simpl.
  apply try_catch_Ok.
  destruct (store_fault env TUser) eqn:Hf.
  - by rewrite (bind_Ok _ _ _ _ _ _ (getUserEmail_down env userId w Hf)).
  - rewrite (bind_Ok _ _ _ _ _ _ (getUserEmail_reachable env userId w Hf)), prepend_nil.
    destruct (users (db w) !! userId) as [u|] eqn:Hu; [|done].
    destruct (decide (User.email u = EmptyString)) as [|Hmail]; [done|].
    erewrite bind_Ok
      by (apply prisma_read; [done|]; unfold user_findUnique; by rewrite Hu).
    rewrite prepend_nil. cbn [fmap option_fmap option_map].
    unfold getEmailTemplate. cbn [td_data].
    unfold sendEmail, sendMail. rewrite Htr, Hen. cbn [negb].
    destruct (tr _) eqn:Hacc.
    + erewrite bind_Ok
        by (apply try_catch_Ok; by erewrite bind_Ok by reflexivity).
      done.
    + erewrite bind_Ok; cycle 1.
      { erewrite try_catch_Throw by (by apply bind_Throw).
        by erewrite bind_Ok by reflexivity. }
      done.
Qed.

(** X25: with mail switched on, a transporter, and a user row with an
    address, exactly one mail is handed to the transporter: addressed to
    the stored address of the recipient, with the subject of the event type
    and a link under the frontend's URL; it counts as sent when the
    transporter accepts it. *)
Theorem mail_goes_to_the_stored_address env userId type data w tr u :
  EMAIL_ENABLED env = true →
  transporter env = Some tr →
  store_fault env TUser = false →
  users (db w) !! userId = Some u →
  User.email u ≠ EmptyString →
  let o := sendEmailNotification env userId type data w in
  ∃ mail,
    eo_to mail = User.email u
    ∧ eo_subject mail = template_subject type data
    ∧ String.prefix (FRONTEND_URL env) (html_fullLink (eo_html mail)) = true
    ∧ mails (trace o) = (if tr mail then [mail] else [])
    ∧ world o = w.
Proof.
  intros Hen Htr Hf Hu Hmail o. subst o.
  rewrite (sendEmailNotification_enabled env userId type data w tr Hen Htr).
  rewrite Hf, Hu. rewrite decide_False by done.
  unfold getEmailTemplate. cbn [td_data].
  match goal with
  | |- context [tr ?m] => exists m
  end.
  split; [reflexivity|]. split; [reflexivity|]. split.
  - cbn [eo_html html_fullLink].
    destruct (ed_link data) as [l|]; [destruct (decide _)|]; apply prefix_append.
  - cbn [trace world]. by destruct (tr _).
Qed.

Lemma mail_goes_to_the_stored_address_witness :
  let env := mkEnv true "http://localhost:5173" (Some (λ _, true)) true (λ _, false) in
  let data := mkEmailData "Booking Accepted"
                "Bob accepted your booking request for Plumbing" (Some "/bookings")
                (Some "b1") (Some "Plumbing") (Some "Bob") None None in
  let o := sendEmailNotification env "alice" booking_accepted data
             (Demo.world ACCEPTED) in
  ∃ mail,
    eo_to mail = User.email Demo.alice
    ∧ eo_subject mail = template_subject booking_accepted data
    ∧ String.prefix (FRONTEND_URL env) (html_fullLink (eo_html mail)) = true
    ∧ mails (trace o) = (if (λ _ : EmailOptions, true) mail then [mail] else [])
    ∧ world o = Demo.world ACCEPTED.
Proof.
  intros env data.
  apply (mail_goes_to_the_stored_address env "alice" booking_accepted data
           (Demo.world ACCEPTED) (λ _, true) Demo.alice).
  - reflexivity.
  - reflexivity.
  - reflexivity.
  - reflexivity.
  - discriminate.
Defined.

(** X26: no mail goes out when mail is switched off, when there is no
    transporter, when the users table is out of reach, when the recipient
    has no row or no address, or when the transporter refuses; in each case
    the call returns normally. *)
Theorem no_mail_without_means env userId type data w :
  EMAIL_ENABLED env = false
  ∨ transporter env = None
  ∨ store_fault env TUser = true
  ∨ users (db w) !! userId = None
  ∨ (∃ u, users (db w) !! userId = Some u ∧ User.email u = EmptyString)
  ∨ (∃ tr, transporter env = Some tr ∧ ∀ mail, tr mail = false) →
  let o := sendEmailNotification env userId type data w in
  result o = Ok tt ∧ world o = w ∧ mails (trace o) = [].
Proof.
  intros Hcase o. subst o.
  destruct (EMAIL_ENABLED env) eqn:Hen.
  2:{ by rewrite (email_disabled_sends_nothing env userId type data w (or_introl Hen)). }
  destruct (transporter env) as [tr|] eqn:Htr.
  2:{ by rewrite (email_disabled_sends_nothing env userId type data w (or_intror Htr)). }
  rewrite (sendEmailNotification_enabled env userId type data w tr Hen Htr).
  cbn [result world trace]. split; [done|]. split; [done|].
  destruct (store_fault env TUser) eqn:Hf; [done|].
  destruct (users (db w) !! userId) as [u|] eqn:Hu; [|done].
  destruct (decide (User.email u = EmptyString)) as [|Hmail]; [done|].
  destruct (getEmailTemplate _ _ _) as [subject html].
  destruct Hcase as [?|[?|[?|[?|[(u' & Hu' & He)|(tr' & Htr' & Hno)]]]]];
    try done; try congruence.
  injection Htr' as <-. by rewrite Hno.
Qed.

Lemma no_mail_without_means_witness :
  let data := mkEmailData "New Message" "You have a new message in booking #b1"
                (Some "/bookings") (Some "b1") None None None None in
  let o := sendEmailNotification Demo.env "bob" message_received data
             (Demo.world ACCEPTED) in
  result o = Ok tt ∧ world o = Demo.world ACCEPTED ∧ mails (trace o) = [].
Proof.
  intros data.
  apply (no_mail_without_means Demo.env "bob" message_received data
           (Demo.world ACCEPTED)).
  do 5 right. exists (λ _, false). split; [reflexivity|]. intros mail. reflexivity.
Defined.

(** ** lib/notifications.ts: a new booking *)

(** X27: the event of a new booking is addressed to the provider: with
    the ledger reachable notifyBookingCreated writes one BOOKING_CREATED
    row for the booking's provider, naming the customer and the service,
    returns it and pushes it to the provider's room.  With the ledger out
    of reach, or a relation missing on the booking, it throws and nothing
    is written or pushed. *)
Theorem booking_created_notifies_provider env booking w :
  let o := notifyBookingCreated env booking w in
  (∀ customer service,
     bk_customer booking = Some customer → bk_service booking = Some service →
     store_fault env TNotification = false →
     ∃ n, result o = Ok n
        ∧ notifications (db (world o)) = notifications (db w) ++ [n]
        ∧ Notification.userId n = Booking.providerId (bk booking)
        ∧ Notification.type n = BOOKING_CREATED
        ∧ Notification.bookingId n = Some (Booking.id (bk booking))
        ∧ Notification.message n
          = User.fullName customer +:+ " requested your service: "
            +:+ Service.title service
        ∧ bookings (db (world o)) = bookings (db w)
        ∧ broadcasts (trace o)
          = if io env
            then [(socket.user_room (Booking.providerId (bk booking)),
                   "new_notification", PNotification n)]
            else [])
  ∧ (bk_customer booking = None ∨ bk_service booking = None
     ∨ store_fault env TNotification = true →
     (∃ e, result o = Throw e) ∧ world o = w ∧ broadcasts (trace o) = []).
Proof.
  intros o. subst o. split.
  - intros customer service Hc Hs Hf.
    unfold notifyBookingCreated. rewrite Hc, Hs.
    set (text := User.fullName customer +:+ " requested your service: "
                 +:+ Service.title service).
    set (params := mkParams _ _ _ _ _ _ _).
    pose proof (createNotification_ok env params w Hf) as Hcreate. simpl in Hcreate.
    set (row := notification_row params (db w)) in *.
    destruct (try_catch_returns
                (sendEmailNotification env (Booking.providerId (bk booking))
                   booking_created
                   (mkEmailData "New Booking Request" text (Some "/bookings")
                      (Some (Booking.id (bk booking))) (Some (Service.title service))
                      None (Some (User.fullName customer)) None))
                (λ _, console_error "Failed to send email notification:")
                (with_notification row w)) as (t & Hm & Hr & Hbc & Hse).
    { apply sendEmailNotification_harmless. }
    { by eexists. }
    rewrite (bind_Ok _ _ _ _ _ _ Hcreate). cbv beta.
    rewrite (bind_Ok _ _ _ _ _ _ Hm).
    exists row. cbn [prepend ret result world trace with_notification db
                     add_notification notifications bookings].
    repeat split.
    unfold broadcasts in *. rewrite !omap_app, Hbc, !app_nil_r.
    unfold pushed, socket.user_room. by destruct (io env).
  - intros Hcase. unfold notifyBookingCreated.
    destruct (bk_customer booking) as [customer|]; [|by eauto].
    destruct (bk_service booking) as [service|]; [|by eauto].
    destruct Hcase as [?|[?|Hf]]; [done|done|].
    match goal with
    | |- context [createNotification env ?p] =>
        destruct (createNotification_fault env p w Hf) as [e He]
    end.
    rewrite (bind_Throw _ _ _ _ _ _ He). by eauto.
Qed.

Lemma booking_created_notifies_provider_witness :
  let w := Demo.world PENDING in
  let booking := booking_include (db w) (Demo.booking PENDING) in
  let o := notifyBookingCreated Demo.env booking w in
  ∃ n, result o = Ok n
     ∧ notifications (db (world o)) = notifications (db w) ++ [n]
     ∧ Notification.userId n = Booking.providerId (bk booking)
     ∧ Notification.type n = BOOKING_CREATED
     ∧ Notification.bookingId n = Some (Booking.id (bk booking))
     ∧ Notification.message n
       = User.fullName Demo.alice +:+ " requested your service: "
         +:+ Service.title Demo.plumbing
     ∧ bookings (db (world o)) = bookings (db w)
     ∧ broadcasts (trace o)
       = if io Demo.env
         then [(socket.user_room (Booking.providerId (bk booking)),
                "new_notification", PNotification n)]
         else [].
Proof.
  intros w booking.
  apply (proj1 (booking_created_notifies_provider Demo.env booking w)
           Demo.alice Demo.plumbing).
  - reflexivity.
  - reflexivity.
  - reflexivity.
Defined.

(** ** middleware/auth.ts: who the handlers see *)

Lemma substring_all (s : string) : String.substring 0 (String.length s) s = s.
Proof. induction s as [|c s IH]; simpl; [done|]. by rewrite IH. Qed.

Lemma bearer_token (token : string) :
  String.prefix "Bearer " ("Bearer " +:+ token) = true
  ∧ String.substring 7 (String.length ("Bearer " +:+ token) - 7) ("Bearer " +:+ token)
    = token.
Proof.
  split; [apply prefix_append|]. simpl. rewrite Nat.sub_0_r. apply substring_all.
Qed.

Lemma authenticate_known env getUser token w id u :
  getUser token = GotUser id →
  store_fault env TUser = false →
  users (db w) !! id = Some u →
  authenticate env getUser (Some ("Bearer " +:+ token)) w
  = mkOutcome (Ok (Some (User.id u, User.role u))) w [].
Proof.
  intros Hg Hf Hu. unfold authenticate.
  destruct (bearer_token token) as [-> ->]. rewrite Hg.
  apply try_catch_Ok.
  erewrite bind_Ok
    by (apply prisma_read; [done|]; unfold user_findUnique; by rewrite Hu).
  done.
Qed.

(** X28: behind [authenticate] a handler runs with the id and the role
    of the user row that the token resolves to; nothing the client sends
    besides the token enters either.  In particular the admin endpoint
    answers 403 to every token of a user whose stored role is not ADMIN. *)
Theorem handlers_see_the_stored_role env getUser token pid status q w id u :
  getUser token = GotUser id →
  store_fault env TUser = false →
  users (db w) !! id = Some u →
  (∀ handler,
     authenticated env getUser (Some ("Bearer " +:+ token)) pid status q handler w
     = handler (mkRequest pid (User.id u) (User.role u) status q) w)
  ∧ (User.role u ≠ ADMIN →
     authenticated env getUser (Some ("Bearer " +:+ token)) pid status q
       (adminRouter.patch_booking_status env) w
     = mkOutcome (Ok tt) w [Respond 403 (BodyError "Admin access required" false)]).
Proof.
  intros Hg Hf Hu.
  assert (∀ handler,
            authenticated env getUser (Some ("Bearer " +:+ token)) pid status q
              handler w
            = handler (mkRequest pid (User.id u) (User.role u) status q) w) as Hrun.
  { intros handler. unfold authenticated.
    rewrite (bind_Ok _ _ _ _ _ _ (authenticate_known env getUser token w id u Hg Hf Hu)).
    apply prepend_nil. }
  split; [exact Hrun|].
  intros Hrole. rewrite Hrun.
  unfold adminRouter.patch_booking_status, adminRouter.requireAdmin. cbn [userRole].
  rewrite bool_decide_eq_true_2 by done.
  unfold next, errorHandler. simpl. by erewrite bind_Ok by reflexivity.
Qed.

Lemma handlers_see_the_stored_role_witness :
  let w := Demo.world PENDING in
  let getUser := λ token, if decide (token = "t-bob") then GotUser "bob" else NoUser in
  (∀ handler,
     authenticated Demo.env getUser (Some ("Bearer " +:+ "t-bob")) "b1" "COMPLETED" None
       handler w
     = handler (mkRequest "b1" (User.id Demo.bob) (User.role Demo.bob) "COMPLETED" None) w)
  ∧ (User.role Demo.bob ≠ ADMIN →
     authenticated Demo.env getUser (Some ("Bearer " +:+ "t-bob")) "b1" "COMPLETED" None
       (adminRouter.patch_booking_status Demo.env) w
     = mkOutcome (Ok tt) w [Respond 403 (BodyError "Admin access required" false)]).
Proof.
  intros w getUser.
  apply (handlers_see_the_stored_role Demo.env getUser "t-bob" "b1" "COMPLETED" None w
           "bob" Demo.bob).
  - reflexivity.
  - reflexivity.
  - reflexivity.
Defined.

Lemma prefix_split (p s : string) :
  String.prefix p s = true →
  s = p +:+ String.substring (String.length p) (String.length s - String.length p) s.
Proof.
  revert s. induction p as [|c p IH]; intros s Hp.
  - simpl. by rewrite Nat.sub_0_r, substring_all.
  - destruct s as [|c' s]; [done|]. simpl in Hp.
    destruct (Ascii.ascii_dec c c') as [->|]; [|done].
    simpl.
    match goal with
    | |- _ = String c' p +:+ ?t => change (String c' p +:+ t) with (String c' (p +:+ t))
    end.
    f_equal. by apply IH.
Qed.

Lemma refusal_outcome {A} (err : Exn) (w : World) :
  ∃ t, (next err ;;; ret (@None A)) w = mkOutcome (Ok None) w t
     ∧ responses t = [(default 500%nat (exn_status err),
                       BodyError (exn_message err) (exn_details err))]
     ∧ broadcasts t = [] ∧ mails t = [].
Proof.
  unfold next, errorHandler. case_bool_decide.
  - eexists. split.
    { erewrite bind_Ok by (erewrite bind_Ok by reflexivity; reflexivity). reflexivity. }
    done.
  - eexists. split.
    { erewrite bind_Ok by (erewrite bind_Ok by reflexivity; reflexivity). reflexivity. }
    done.
Qed.

Lemma authenticate_unknown env getUser authorization w :
  (∀ token id,
     authorization = Some ("Bearer " +:+ token) → getUser token = GotUser id →
     store_fault env TUser = true ∨ users (db w) !! id = None) →
  ∃ code message t,
    authenticate env getUser authorization w = mkOutcome (Ok None) w t
    ∧ responses t = [(code, BodyError message false)]
    ∧ broadcasts t = [] ∧ mails t = []
    ∧ (code = 401%nat ∨ code = 404%nat ∨ code = 500%nat)
    ∧ (code = 500%nat →
       ∃ token, authorization = Some ("Bearer " +:+ token)
              ∧ (getUser token = GetUserRejected ∨ store_fault env TUser = true)).
Proof.
  intros Hunknown. unfold authenticate.
  destruct authorization as [authHeader|]; cycle 1.
  { destruct (refusal_outcome (A:=string * Role)
                (ApiError 401 "Missing or invalid authorization header") w)
      as (t & Hm & Hr & Hb & Hmail).
    exists 401%nat, "Missing or invalid authorization header", t.
    rewrite (try_catch_Ok _ _ _ _ _ _ Hm).
    split; [reflexivity|]. split; [exact Hr|]. split; [exact Hb|]. split; [exact Hmail|].
    split; [by left|]. intros H. exfalso. lia. }
  destruct (String.prefix "Bearer " authHeader) eqn:Hprefix; cycle 1.
  { destruct (refusal_outcome (A:=string * Role)
                (ApiError 401 "Missing or invalid authorization header") w)
      as (t & Hm & Hr & Hb & Hmail).
    exists 401%nat, "Missing or invalid authorization header", t.
    rewrite (try_catch_Ok _ _ _ _ _ _ Hm).
    split; [reflexivity|]. split; [exact Hr|]. split; [exact Hb|]. split; [exact Hmail|].
    split; [by left|]. intros H. exfalso. lia. }
  pose proof (prefix_split _ _ Hprefix) as Hheader. cbn [String.length] in Hheader.
  set (token := String.substring 7 (String.length authHeader - 7) authHeader) in *.
  assert (Some authHeader = Some ("Bearer " +:+ token)) as Hsome by (by f_equal).
  destruct (getUser token) as [id| |] eqn:Hget.
  - destruct (store_fault env TUser) eqn:Hfault.
    + set (e := mkExn PrismaError None "Can't reach database server" false).
      destruct (refusal_outcome (A:=string * Role)
                  (mkExn (exn_kind e) (Some (default 500%nat (exn_status e)))
                     (exn_message e) (exn_details e)) w)
        as (t & Hm & Hr & Hb & Hmail).
      exists 500%nat, "Can't reach database server", t.
      erewrite try_catch_Throw
        by (erewrite bind_Throw by (by apply prisma_down); reflexivity).
      rewrite prepend_nil. fold e. rewrite Hm.
      split; [reflexivity|]. split; [exact Hr|]. split; [exact Hb|]. split; [exact Hmail|].
      split; [by right; right|].
      intros _. exists token. by split; [|right].
    + destruct (Hunknown token id Hsome Hget) as [?|Hrow]; [done|].
      destruct (refusal_outcome (A:=string * Role)
                  (ApiError 404 "User not found in database") w)
        as (t & Hm & Hr & Hb & Hmail).
      exists 404%nat, "User not found in database", t.
      erewrite try_catch_Ok; [|
        erewrite bind_Ok
          by (apply prisma_read; [done|]; unfold user_findUnique; by rewrite Hrow);
        rewrite prepend_nil; exact Hm].
      split; [reflexivity|]. split; [exact Hr|]. split; [exact Hb|]. split; [exact Hmail|].
      split; [by right; left|]. intros H. exfalso. lia.
  - destruct (refusal_outcome (A:=string * Role)
                (ApiError 401 "Invalid or expired token") w)
      as (t & Hm & Hr & Hb & Hmail).
    exists 401%nat, "Invalid or expired token", t.
    rewrite (try_catch_Ok _ _ _ _ _ _ Hm).
    split; [reflexivity|]. split; [exact Hr|]. split; [exact Hb|]. split; [exact Hmail|].
    split; [by left|]. intros H. exfalso. lia.
  - set (e := mkExn PlainError None "fetch failed" false).
    destruct (refusal_outcome (A:=string * Role)
                (mkExn (exn_kind e) (Some (default 500%nat (exn_status e)))
                   (exn_message e) (exn_details e)) w)
      as (t & Hm & Hr & Hb & Hmail).
    exists 500%nat, "fetch failed", t.
    erewrite try_catch_Throw by reflexivity.
    rewrite prepend_nil. fold e. rewrite Hm.
    split; [reflexivity|]. split; [exact Hr|]. split; [exact Hb|]. split; [exact Hmail|].
    split; [by right; right|].
    intros _. exists token. by split; [|left].
Qed.

(** X29: without a token that resolves to a stored user no handler runs.
    When the Authorization header is absent or not a Bearer header, the
    token is not recognised, the recognised user has no row, or one of the
    two lookups fails, the request is answered once with 401, 404 or 500,
    whatever the handler behind the middleware is, and the world is as
    before.  500 is answered only on a failure of a lookup. *)
Theorem request_without_known_user_is_refused env getUser authorization pid status q w :
  (∀ token id,
     authorization = Some ("Bearer " +:+ token) → getUser token = GotUser id →
     store_fault env TUser = true ∨ users (db w) !! id = None) →
  ∃ code message,
    (code = 401%nat ∨ code = 404%nat ∨ code = 500%nat)
    ∧ (code = 500%nat →
       ∃ token, authorization = Some ("Bearer " +:+ token)
              ∧ (getUser token = GetUserRejected ∨ store_fault env TUser = true))
    ∧ ∀ handler,
        let o := authenticated env getUser authorization pid status q handler w in
        result o = Ok tt ∧ world o = w
        ∧ responses (trace o) = [(code, BodyError message false)]
        ∧ broadcasts (trace o) = [] ∧ mails (trace o) = [].
Proof.
  intros Hunknown.
  destruct (authenticate_unknown env getUser authorization w Hunknown)
    as (code & message & t & Hauth & Hr & Hb & Hmail & Hcode & Hfail).
  exists code, message. split; [exact Hcode|]. split; [exact Hfail|].
  intros handler o. subst o. unfold authenticated.
  rewrite (bind_Ok _ _ _ _ _ _ Hauth).
  cbn [prepend ret result world trace]. rewrite app_nil_r. done.
Qed.

Lemma request_without_known_user_is_refused_witness :
  let getUser := λ token, if decide (token = "t-bob") then GotUser "bob" else NoUser in
  ∃ code message,
    (code = 401%nat ∨ code = 404%nat ∨ code = 500%nat)
    ∧ (code = 500%nat →
       ∃ token, Some "Bearer t-eve" = Some ("Bearer " +:+ token)
              ∧ (getUser token = GetUserRejected
                 ∨ store_fault Demo.env TUser = true))
    ∧ ∀ handler,
        let o := authenticated Demo.env getUser (Some "Bearer t-eve") "b1" "COMPLETED"
                   None handler (Demo.world PENDING) in
        result o = Ok tt ∧ world o = Demo.world PENDING
        ∧ responses (trace o) = [(code, BodyError message false)]
        ∧ broadcasts (trace o) = [] ∧ mails (trace o) = [].
Proof.
  intros getUser.
  apply (request_without_known_user_is_refused Demo.env getUser (Some "Bearer t-eve")
           "b1" "COMPLETED" None (Demo.world PENDING)).
  intros token id Htoken. cbv [String.append] in Htoken. injection Htoken as <-.
  discriminate.
Defined.
